(** * QR Toolkit: record model, persistence store, render pipeline and scanner

    A shallow embedding of [core/models.py], [core/database.py],
    [core/engine.py], [core/scanner.py] and [utils/constants.py], with
    the colour table of [gui/batch_processor.py].

    Python values are dynamically typed, so record fields, dictionary entries
    and database cells are all [value]s.  A Python [float] is an IEEE binary64
    number and is embedded as Rocq's primitive [float]; Python's [int] is [Z].
    Exceptions are explicit: a computation that may raise returns a [result]. *)

From Stdlib Require Import ZArith List String Ascii Bool Lia Floats Permutation
  DecimalString.
Import ListNotations.
Set Warnings "-inexact-float,-register-all".
Local Open Scope string_scope.
Local Open Scope Z_scope.

(* ------------------------------------------------------------------ *)
(** ** Exceptions *)

Inductive exn : Type :=
| TypeError
| ValueError
| IndexError
| AttributeError
| OverflowError
| ZeroDivisionError
| UnboundLocalError
| SqliteError.          (* sqlite3.Error and its subclasses *)

Inductive result (A : Type) : Type :=
| Ok (a : A)
| Raise (e : exn).
Arguments Ok {A} a.
Arguments Raise {A} e.

Definition bind {A B : Type} (c : result A) (k : A -> result B) : result B :=
  match c with
  | Ok a => k a
  | Raise e => Raise e
  end.

Declare Scope py_scope.
Delimit Scope py_scope with py.
Notation "x <- c ;; k" := (bind c (fun x => k))
  (at level 61, c at next level, right associativity) : py_scope.
Local Open Scope py_scope.

Definition exn_eqb (a b : exn) : bool :=
  match a, b with
  | TypeError, TypeError | ValueError, ValueError | IndexError, IndexError
  | AttributeError, AttributeError | OverflowError, OverflowError
  | ZeroDivisionError, ZeroDivisionError
  | UnboundLocalError, UnboundLocalError | SqliteError, SqliteError => true
  | _, _ => false
  end.

(** [try: body  except (e1, e2, ...): handler] *)
Definition try_except {A : Type} (body : result A) (caught : list exn)
    (handler : exn -> result A) : result A :=
  match body with
  | Ok a => Ok a
  | Raise e => if existsb (exn_eqb e) caught then handler e else Raise e
  end.

(** [try: body  except Exception as e: handler] *)
Definition try_except_all {A : Type} (body : result A)
    (handler : exn -> result A) : result A :=
  match body with
  | Ok a => Ok a
  | Raise e => handler e
  end.

(* ------------------------------------------------------------------ *)
(** ** Python floats and the int/float operations the sources use *)

Module PyFloat.

Inductive num : Type :=
| NInt (z : Z)
| NFloat (f : float).

(** The float nearest to the integer [z] (round half to even). *)
Definition of_int (z : Z) : float :=
  SF2Prim (binary_normalize prec emax z 0 false).

(** [float(z)]: OverflowError when [z] is too large for a binary64. *)
Definition float_of_int (z : Z) : result float :=
  let f := of_int z in
  if is_infinity f then Raise OverflowError else Ok f.

(** The float nearest to the quotient [a / b] of two integers, [b <> 0]:
    the quotient is computed to at least 64 bits plus a sticky bit and
    rounded once.  The sign of a zero result is that of the quotient. *)
Definition div_round (a b : Z) : float :=
  let k := Z.max 0 (64 + Z.log2 (Z.abs b) - Z.log2 (Z.abs a)) in
  let n := Z.abs a * 2 ^ k in
  let q := n / Z.abs b in
  let sticky := if n mod Z.abs b =? 0 then 0 else 1 in
  let m := 2 * q + sticky in
  let neg := xorb (a <? 0) (b <? 0) in
  SF2Prim (binary_normalize prec emax (if neg then - m else m) (- (k + 1)) neg).

(** [a / b] on two ints (true division). *)
Definition int_truediv (a b : Z) : result float :=
  if b =? 0 then Raise ZeroDivisionError
  else
    let f := div_round a b in
    if is_infinity f then Raise OverflowError else Ok f.

(** [int(f)]: truncation toward zero. *)
Definition int_of_float (f : float) : result Z :=
  match Prim2SF f with
  | S754_zero _ => Ok 0
  | S754_finite s m e =>
      let a := Z.shiftl (Zpos m) e in
      Ok (if s then - a else a)
  | S754_infinity _ => Raise OverflowError
  | S754_nan => Raise ValueError
  end.

Definition round_half_even (n d : Z) : Z :=
  let q := n / d in
  let r := n mod d in
  if 2 * r <? d then q
  else if d <? 2 * r then q + 1
  else if Z.even q then q else q + 1.

(** [round(f, 2)]: the exact value of [f] is rounded half-even to two
    decimals and the result is the float nearest to that decimal. *)
Definition round2 (f : float) : float :=
  match Prim2SF f with
  | S754_finite s m e =>
      let k :=
        if 0 <=? e then Zpos m * 2 ^ e * 100
        else round_half_even (Zpos m * 100) (2 ^ (- e)) in
      if k =? 0 then (if s then neg_zero else zero)
      else div_round (if s then - k else k) 100
  | _ => f
  end.

(** Exact comparison of an int with a float, as Python does it. *)
Definition int_cmp_float (z : Z) (f : float) : option comparison :=
  match Prim2SF f with
  | S754_nan => None
  | S754_zero _ => Some (z ?= 0)
  | S754_infinity s => Some (if s then Gt else Lt)
  | S754_finite s m e =>
      let v := if s then Zneg m else Zpos m in
      Some (if 0 <=? e then z ?= v * 2 ^ e else z * 2 ^ (- e) ?= v)
  end.

Definition num_lt (a b : num) : bool :=
  match a, b with
  | NInt x, NInt y => x <? y
  | NFloat x, NFloat y => (x <? y)%float
  | NInt x, NFloat y =>
      match int_cmp_float x y with Some Lt => true | _ => false end
  | NFloat x, NInt y =>
      match int_cmp_float y x with Some Gt => true | _ => false end
  end.

Definition num_gt (a b : num) : bool := num_lt b a.

Definition min (a b : float) : float :=      (* Python's min(a, b) *)
  if (b <? a)%float then b else a.

End PyFloat.

(* ------------------------------------------------------------------ *)
(** ** utils/constants.py *)

Inductive QRCodeType : Type :=
| URL | TEXT | WIFI | VCARD | EMAIL | SMS | PHONE | LOCATION | EVENT
| BITCOIN | CONTACT | WHATSAPP.

Inductive OutputFormat : Type := PNG | JPEG | SVG | PDF.

Definition QRCodeType_value (t : QRCodeType) : string :=
  match t with
  | URL => "URL"
  | TEXT => "文本"
  | WIFI => "WiFi"
  | VCARD => "电子名片"
  | EMAIL => "电子邮件"
  | SMS => "短信"
  | PHONE => "电话"
  | LOCATION => "地理位置"
  | EVENT => "日历事件"
  | BITCOIN => "比特币"
  | CONTACT => "联系人"
  | WHATSAPP => "WhatsApp"
  end.

Definition OutputFormat_value (o : OutputFormat) : string :=
  match o with
  | PNG => "PNG" | JPEG => "JPEG" | SVG => "SVG" | PDF => "PDF"
  end.

Definition all_QRCodeType : list QRCodeType :=
  [URL; TEXT; WIFI; VCARD; EMAIL; SMS; PHONE; LOCATION; EVENT; BITCOIN;
   CONTACT; WHATSAPP].

(** [QRCodeType(s)] for a string [s]: lookup by value, [None] is ValueError. *)
Definition QRCodeType_of_string (s : string) : option QRCodeType :=
  find (fun t => String.eqb (QRCodeType_value t) s) all_QRCodeType.

Definition byte_in (c : ascii) (lo hi : Z) : bool :=
  let n := Z.of_N (N_of_ascii c) in (lo <=? n) && (n <=? hi).

Definition is_hex_digit (c : ascii) : bool :=
  byte_in c 48 57 || byte_in c 65 70 || byte_in c 97 102.

Definition newline : ascii := ascii_of_N 10.

(** What [$] tolerates: one final newline. *)
Fixpoint drop_final_newline (l : list ascii) : list ascii :=
  match l with
  | [] => []
  | [c] => if Ascii.eqb c newline then [] else [c]
  | c :: rest => c :: drop_final_newline rest
  end.

(** [is_valid_color]: [re.match(r"^#([A-Fa-f0-9]{6}|[A-Fa-f0-9]{3})$", s)]. *)
Definition is_valid_color (s : string) : bool :=
  match s with
  | String c rest =>
      let body := drop_final_newline (list_ascii_of_string rest) in
      Ascii.eqb c "#"
      && ((Nat.eqb (List.length body) 6) || (Nat.eqb (List.length body) 3))
      && forallb is_hex_digit body
  | EmptyString => false
  end.

(* ------------------------------------------------------------------ *)
(** ** Python values *)

Inductive value : Type :=
| VNone
| VBool (b : bool)
| VInt (z : Z)
| VFloat (f : float)
| VStr (s : string)
| VList (l : list value)
| VQRCodeType (t : QRCodeType)
| VOutputFormat (o : OutputFormat).

(** Truth value testing ([if v:], [not v]). *)
Definition truthy (v : value) : bool :=
  match v with
  | VNone => false
  | VBool b => b
  | VInt z => negb (z =? 0)
  | VFloat f => negb (f =? 0)%float
  | VStr s => negb (String.eqb s "")
  | VList l => match l with [] => false | _ :: _ => true end
  | VQRCodeType _ | VOutputFormat _ => true
  end.

Definition is_none (v : value) : bool :=
  match v with VNone => true | _ => false end.

(** [v == s] for a string literal [s]. *)
Definition eq_str (v : value) (s : string) : bool :=
  match v with VStr t => String.eqb t s | _ => false end.

(** [v in [s1, s2, ...]] for a list of string literals. *)
Definition in_strs (v : value) (l : list string) : bool :=
  existsb (eq_str v) l.

Definition as_num (v : value) : option PyFloat.num :=
  match v with
  | VBool b => Some (PyFloat.NInt (if b then 1 else 0))
  | VInt z => Some (PyFloat.NInt z)
  | VFloat f => Some (PyFloat.NFloat f)
  | _ => None
  end.

(** [v < c] and [v > c] for a numeric literal [c]; TypeError when [v] is
    not a number. *)
Definition lt_lit (v : value) (c : PyFloat.num) : result bool :=
  match as_num v with
  | Some n => Ok (PyFloat.num_lt n c)
  | None => Raise TypeError
  end.

Definition gt_lit (v : value) (c : PyFloat.num) : result bool :=
  match as_num v with
  | Some n => Ok (PyFloat.num_gt n c)
  | None => Raise TypeError
  end.

(** A [Dict[str, Any]]; [dict_get] is [d.get(k)] / [d[k]]. *)
Definition dict : Type := list (string * value).

Fixpoint dict_get (d : dict) (k : string) : option value :=
  match d with
  | [] => None
  | (k', v) :: rest => if String.eqb k' k then Some v else dict_get rest k
  end.

Definition dict_get_default (d : dict) (k : string) (dflt : value) : value :=
  match dict_get d k with Some v => v | None => dflt end.

(** What the sources take from the Python runtime and its libraries. *)
Class PyRuntime : Type := {
  (** [datetime.now().isoformat()] *)
  now_isoformat : string;
  (** [QRCodeData.generate_id(data)], an md5 of the data and the clock *)
  generate_id : value -> string;
  (** [json.loads(s)] on a string; [None] is [json.JSONDecodeError] *)
  json_loads : string -> option value;
  (** [json.dumps(v, ensure_ascii=False)] *)
  json_dumps : value -> string;
  (** [float(s)] on a string; [None] is ValueError *)
  float_of_str : string -> option float;
  (** [int(s, 16)] on a string; [None] is ValueError *)
  int_base16 : string -> option Z;
  (** the colour [Image.new] makes of its [color] argument (PIL's
      [ImageColor.getrgb]); [None] is ValueError *)
  pil_getrgb : value -> option (Z * Z * Z);
  (** [x ** y] on two floats where the power is a real number: the
      value of C's [pow(x, y)] in the platform's math library, which is
      not always the correctly rounded power *)
  c_pow : float -> float -> float
}.

(** [z ** 0.5] on a non-negative int [z]: the int is converted to a
    float (OverflowError when it is too large) and raised by C's [pow]. *)
Definition int_pow_half {rt : PyRuntime} (z : Z) : result float :=
  f <- PyFloat.float_of_int z ;;
  Ok (c_pow f 0.5).

(* ------------------------------------------------------------------ *)
(** ** core/models.py *)

Module Models.

(** The dataclass.  Python does not enforce the annotations, so every
    field but [qr_type] holds an arbitrary [value]; [qr_type] is always
    built from the enumeration by the code below. *)
Record QRCodeData : Type := mkQRCodeData {
  id : value;
  data : value;
  qr_type : QRCodeType;
  version : value;
  error_correction : value;
  size : value;
  border : value;
  foreground_color : value;
  background_color : value;
  logo_path : value;
  logo_scale : value;
  gradient_start : value;
  gradient_end : value;
  gradient_type : value;
  created_at : value;
  tags : value;
  notes : value;
  output_format : value
}.

Definition set_created_at (r : QRCodeData) (v : value) : QRCodeData :=
  mkQRCodeData (id r) (data r) (qr_type r) (version r) (error_correction r)
    (size r) (border r) (foreground_color r) (background_color r)
    (logo_path r) (logo_scale r) (gradient_start r) (gradient_end r)
    (gradient_type r) v (tags r) (notes r) (output_format r).

Definition set_tags (r : QRCodeData) (v : value) : QRCodeData :=
  mkQRCodeData (id r) (data r) (qr_type r) (version r) (error_correction r)
    (size r) (border r) (foreground_color r) (background_color r)
    (logo_path r) (logo_scale r) (gradient_start r) (gradient_end r)
    (gradient_type r) (created_at r) v (notes r) (output_format r).

Definition set_logo_scale (r : QRCodeData) (v : value) : QRCodeData :=
  mkQRCodeData (id r) (data r) (qr_type r) (version r) (error_correction r)
    (size r) (border r) (foreground_color r) (background_color r)
    (logo_path r) v (gradient_start r) (gradient_end r)
    (gradient_type r) (created_at r) (tags r) (notes r) (output_format r).

Section WithRuntime.
Context {rt : PyRuntime}.

(** [__post_init__], run by the generated constructor on the record
    holding the constructor's arguments. *)
Definition post_init (self : QRCodeData) : result QRCodeData :=
  let self :=
    if eq_str (created_at self) ""
    then set_created_at self (VStr now_isoformat) else self in
  let self :=
    if is_none (tags self) then set_tags self (VList []) else self in
  below <- lt_lit (logo_scale self) (PyFloat.NFloat 0.05) ;;
  self <-
    (if below : bool then Ok (set_logo_scale self (VFloat 0.05))
     else
       above <- gt_lit (logo_scale self) (PyFloat.NFloat 0.5) ;;
       Ok (if above : bool then set_logo_scale self (VFloat 0.5)
           else self)) ;;
  Ok (if negb (truthy (logo_path self))
      then set_logo_scale self (VFloat 0.2) else self).

(** [QRCodeData(id=..., ...)]: the constructor. *)
Definition QRCodeData_new (args : QRCodeData) : result QRCodeData :=
  post_init args.

(** [from_dict], lines 111-120: the [qr_type] entry. *)
Definition from_dict_qr_type (data_dict : dict) : result QRCodeType :=
  match dict_get data_dict "qr_type" with
  | Some (VQRCodeType t) => Ok t
  | Some (VStr s) =>
      match QRCodeType_of_string s with
      | Some t => Ok t
      | None => Raise ValueError
      end
  | Some _ => Raise ValueError
  | None => Ok TEXT
  end.

(** [from_dict], lines 123-127: the [tags] entry. *)
Definition from_dict_tags (data_dict : dict) : result value :=
  match dict_get_default data_dict "tags" (VList []) with
  | VStr s =>
      if truthy (VStr s) then
        match json_loads s with
        | Some v => Ok v
        | None => Raise ValueError     (* JSONDecodeError *)
        end
      else Ok (VList [])
  | VNone => Ok (VList [])
  | v => Ok v
  end.

(** [from_dict], lines 130-132: the [output_format] entry. *)
Definition from_dict_output_format (data_dict : dict) : value :=
  match dict_get_default data_dict "output_format" (VStr "PNG") with
  | VOutputFormat o => VStr (OutputFormat_value o)
  | v => v
  end.

(** [from_dict], lines 135-142: the [logo_scale] entry.  A [bool] is an
    [int] for [isinstance]. *)
Definition from_dict_logo_scale (data_dict : dict) : result value :=
  let logo_scale := dict_get_default data_dict "logo_scale" (VFloat 0.2) in
  let logo_scale := if is_none logo_scale then VFloat 0.2 else logo_scale in
  match logo_scale with
  | VInt z =>
      f <- PyFloat.float_of_int z ;; Ok (VFloat (f / 100.0)%float)
  | VBool b =>
      f <- PyFloat.float_of_int (if b then 1 else 0) ;;
      Ok (VFloat (f / 100.0)%float)
  | VFloat f =>
      if (1 <? f)%float then Ok (VFloat (f / 100.0)%float)
      else Ok (VFloat f)
  | v => Ok v
  end.

Definition from_dict (data_dict : dict) : result QRCodeData :=
  try_except_all
    (qr_type <- from_dict_qr_type data_dict ;;
     tags <- from_dict_tags data_dict ;;
     let output_format := from_dict_output_format data_dict in
     logo_scale <- from_dict_logo_scale data_dict ;;
     QRCodeData_new
       {| id := dict_get_default data_dict "id"
                  (VStr (generate_id
                           (dict_get_default data_dict "data" (VStr ""))));
          data := dict_get_default data_dict "data" (VStr "");
          qr_type := qr_type;
          version := dict_get_default data_dict "version" (VInt 0);
          error_correction :=
            dict_get_default data_dict "error_correction" (VStr "H");
          size := dict_get_default data_dict "size" (VInt 10);
          border := dict_get_default data_dict "border" (VInt 4);
          foreground_color :=
            dict_get_default data_dict "foreground_color" (VStr "#000000");
          background_color :=
            dict_get_default data_dict "background_color" (VStr "#FFFFFF");
          logo_path := dict_get_default data_dict "logo_path" VNone;
          logo_scale := logo_scale;
          gradient_start := dict_get_default data_dict "gradient_start" VNone;
          gradient_end := dict_get_default data_dict "gradient_end" VNone;
          gradient_type :=
            dict_get_default data_dict "gradient_type" (VStr "linear");
          created_at := dict_get_default data_dict "created_at" (VStr "");
          tags := tags;
          notes := dict_get_default data_dict "notes" (VStr "");
          output_format := output_format |})
    (fun _ => Raise ValueError).

End WithRuntime.

(** Whitespace for [str.strip()], on the UTF-8 bytes of the string:
    U+0009-000D, U+001C-0020, U+0085, U+00A0, U+1680, U+2000-200A, U+2028,
    U+2029, U+202F, U+205F, U+3000. *)
Fixpoint all_whitespace (l : list ascii) : bool :=
  match l with
  | [] => true
  | c :: rest =>
      if byte_in c 9 13 || byte_in c 28 32 then all_whitespace rest
      else
        match rest with
        | c2 :: rest2 =>
            if byte_in c 194 194 && (byte_in c2 133 133 || byte_in c2 160 160)
            then all_whitespace rest2
            else
              match rest2 with
              | c3 :: rest3 =>
                  if (byte_in c 225 225 && byte_in c2 154 154
                      && byte_in c3 128 128)
                     || (byte_in c 226 226 && byte_in c2 128 128
                         && (byte_in c3 128 138 || byte_in c3 168 169
                             || byte_in c3 175 175))
                     || (byte_in c 226 226 && byte_in c2 129 129
                         && byte_in c3 159 159)
                     || (byte_in c 227 227 && byte_in c2 128 128
                         && byte_in c3 128 128)
                  then all_whitespace rest3
                  else false
              | [] => false
              end
        | [] => false
        end
  end.

(** The outcome of [validate]: [(True, ...)] or [(False, reason)]; the
    reasons name the message returned. *)
Inductive verdict : Type :=
| Valid
| EmptyData
| BadSize
| BadBorder
| BadVersion
| BadErrorCorrection
| BadLogoScale
| BadColor (which : string) (v : value)
| BadGradientStart
| BadGradientEnd
| GradientPair
| BadGradientType.

(** [self.data.strip() == ""]: AttributeError on a value without [strip]. *)
Definition strip_is_empty (v : value) : result bool :=
  match v with
  | VStr s => Ok (all_whitespace (list_ascii_of_string s))
  | _ => Raise AttributeError
  end.

(** [is_valid_color(v)]: [re.match] raises TypeError unless [v] is a string. *)
Definition is_valid_color_value (v : value) : result bool :=
  match v with
  | VStr s => Ok (is_valid_color s)
  | _ => Raise TypeError
  end.

(** [os.path.exists(p)] is called for a truthy [logo_path] and its answer
    is ignored; it raises TypeError unless [p] is a string or an int. *)
Definition path_exists_check (p : value) : result unit :=
  match p with
  | VStr _ | VInt _ | VBool _ => Ok tt
  | _ => Raise TypeError
  end.

Definition validate_colors (self : QRCodeData) : result verdict :=
  fg_ok <- is_valid_color_value (foreground_color self) ;;
  if negb fg_ok then Ok (BadColor "前景色" (foreground_color self)) else
  bg_ok <- is_valid_color_value (background_color self) ;;
  if negb bg_ok then Ok (BadColor "背景色" (background_color self)) else
  gs_bad <- (if truthy (gradient_start self)
             then ok <- is_valid_color_value (gradient_start self) ;;
                  Ok (negb ok)
             else Ok false) ;;
  if gs_bad : bool then Ok BadGradientStart else
  ge_bad <- (if truthy (gradient_end self)
             then ok <- is_valid_color_value (gradient_end self) ;;
                  Ok (negb ok)
             else Ok false) ;;
  if ge_bad : bool then Ok BadGradientEnd else
  if (truthy (gradient_start self) && negb (truthy (gradient_end self)))
     || (truthy (gradient_end self) && negb (truthy (gradient_start self)))
  then Ok GradientPair else
  if negb (in_strs (gradient_type self) ["linear"; "radial"])
  then Ok BadGradientType
  else Ok Valid.

(** [a < lo or a > hi], evaluated left to right. *)
Definition out_of_range (a : value) (lo hi : PyFloat.num) : result bool :=
  below <- lt_lit a lo ;;
  if below : bool then Ok true else gt_lit a hi.

Definition validate (self : QRCodeData) : result verdict :=
  empty <- (if negb (truthy (data self)) then Ok true
            else strip_is_empty (data self)) ;;
  if empty : bool then Ok EmptyData else
  bad <- out_of_range (size self) (PyFloat.NInt 1) (PyFloat.NInt 50) ;;
  if bad : bool then Ok BadSize else
  bad <- out_of_range (border self) (PyFloat.NInt 0) (PyFloat.NInt 10) ;;
  if bad : bool then Ok BadBorder else
  bad <- out_of_range (version self) (PyFloat.NInt 0) (PyFloat.NInt 40) ;;
  if bad : bool then Ok BadVersion else
  if negb (in_strs (error_correction self) ["L"; "M"; "Q"; "H"])
  then Ok BadErrorCorrection else
  bad <- out_of_range (logo_scale self)
           (PyFloat.NFloat 0.05) (PyFloat.NFloat 0.5) ;;
  if bad : bool then Ok BadLogoScale else
  _ <- (if truthy (logo_path self) then path_exists_check (logo_path self)
        else Ok tt) ;;
  validate_colors self.

(** The clamp of lines 60-63 on a float that is a number. *)
Definition clamp_scale (f : float) : float :=
  if (f <? 0.05)%float then 0.05%float
  else if (0.5 <? f)%float then 0.5%float else f.

(** The types the dataclass annotates: [str], [int], [Optional[str]], and
    a [float] that is a number. *)
Definition is_str (v : value) : Prop := exists s, v = VStr s.
Definition is_int (v : value) : Prop := exists z, v = VInt z.
Definition is_opt_str (v : value) : Prop := v = VNone \/ is_str v.
Definition is_number (v : value) : Prop :=
  exists f, v = VFloat f /\ is_nan f = false.

(** The fields hold values of the types the dataclass annotates. *)
Record well_typed (r : QRCodeData) : Prop := {
  wt_id : is_str (id r);
  wt_data : is_str (data r);
  wt_version : is_int (version r);
  wt_error_correction : is_str (error_correction r);
  wt_size : is_int (size r);
  wt_border : is_int (border r);
  wt_foreground_color : is_str (foreground_color r);
  wt_background_color : is_str (background_color r);
  wt_logo_path : is_opt_str (logo_path r);
  wt_logo_scale : is_number (logo_scale r);
  wt_gradient_start : is_opt_str (gradient_start r);
  wt_gradient_end : is_opt_str (gradient_end r);
  wt_gradient_type : is_str (gradient_type r);
  wt_created_at : is_str (created_at r);
  wt_notes : is_opt_str (notes r);
  wt_output_format : is_str (output_format r)
}.

(** A field that comes back as it was, or as its default when it was
    unset (falsy). *)
Definition same_or_default (orig loaded dflt : value) : Prop :=
  loaded = orig \/ (truthy orig = false /\ loaded = dflt).

(** [to_dict]: [asdict(self)], which copies the fields in declaration
    order, with the [qr_type] entry replaced by the member's value. *)
Definition to_dict (self : QRCodeData) : dict :=
  [("id", id self);
   ("data", data self);
   ("qr_type", VStr (QRCodeType_value (qr_type self)));
   ("version", version self);
   ("error_correction", error_correction self);
   ("size", size self);
   ("border", border self);
   ("foreground_color", foreground_color self);
   ("background_color", background_color self);
   ("logo_path", logo_path self);
   ("logo_scale", logo_scale self);
   ("gradient_start", gradient_start self);
   ("gradient_end", gradient_end self);
   ("gradient_type", gradient_type self);
   ("created_at", created_at self);
   ("tags", tags self);
   ("notes", notes self);
   ("output_format", output_format self)].

(** A record the constructor returned. *)
Definition constructed {rt : PyRuntime} (r : QRCodeData) : Prop :=
  exists args, QRCodeData_new args = Ok r.

(** A scale within the bounds of lines 59-63. *)
Definition scale_in_bounds (v : value) : Prop :=
  exists f, v = VFloat f
            /\ (0.05 <=? f)%float = true /\ (f <=? 0.5)%float = true.


End Models.

(* ------------------------------------------------------------------ *)
(** ** The storage engine, as far as core/database.py uses it *)

Module Sqlite.

(** A row is the tuple [sqlite3] returns: one [value] per column, NULL
    being [VNone], INTEGER [VInt], REAL [VFloat] and TEXT [VStr]. *)
Definition row : Type := list value.

(** Binding a Python value to a statement parameter: the value the
    statement receives, before the affinity of a column converts it
    ([apply_affinity] below).  An int outside 64 bits raises
    OverflowError, an unsupported type an [sqlite3.Error]; a NaN is
    bound as NULL. *)
Definition bind_param (v : value) : result value :=
  match v with
  | VNone => Ok VNone
  | VBool b => Ok (VInt (if b then 1 else 0))
  | VInt z =>
      if (- 2 ^ 63 <=? z) && (z <? 2 ^ 63) then Ok (VInt z)
      else Raise OverflowError
  | VFloat f => Ok (if is_nan f then VNone else VFloat f)
  | VStr s => Ok (VStr s)
  | VList _ | VQRCodeType _ | VOutputFormat _ => Raise SqliteError
  end.

Fixpoint bind_params (vs : list value) : result (list value) :=
  match vs with
  | [] => Ok []
  | v :: rest =>
      v' <- bind_param v ;;
      rest' <- bind_params rest ;;
      Ok (v' :: rest')
  end.

(** *** Column affinity *)

(** What the engine's conversions between numbers and text give. *)
Class NumText : Type := {
  (** a REAL written as text, with 15 significant digits *)
  text_of_real : float -> string;
  (** the number a text spells when it is an integer or real literal
      (spaces around it allowed): [NInt] for an integer literal that
      fits 64 bits, [NFloat] for any other; [None] for any other text *)
  number_of_text : string -> option PyFloat.num
}.

(** An INTEGER written as text: its decimal digits. *)
Definition text_of_int (z : Z) : string :=
  NilZero.string_of_int (Z.to_int z).

Inductive affinity : Type :=
| TextAff
| IntegerAff
| RealAff
| NoAff.

(** A REAL that is a whole number strictly between the 64-bit bounds
    becomes an INTEGER. *)
Definition real_to_integer (f : float) : value :=
  match PyFloat.int_of_float f with
  | Ok z =>
      if (PyFloat.of_int z =? f)%float
         && (- 2 ^ 63 <? z) && (z <? 2 ^ 63 - 1)
      then VInt z else VFloat f
  | Raise _ => VFloat f
  end.

(** The conversion of a numeric affinity: a text that spells a number
    becomes that number, and a number becomes an INTEGER when it can. *)
Definition to_numeric {nt : NumText} (v : value) : value :=
  match v with
  | VStr s =>
      match number_of_text s with
      | Some (PyFloat.NInt z) => VInt z
      | Some (PyFloat.NFloat f) => real_to_integer f
      | None => VStr s
      end
  | VFloat f => real_to_integer f
  | _ => v
  end.

(** What a column of affinity [a] keeps of a bound value [v]: a TEXT
    column keeps a number as its text, an INTEGER column keeps a number
    or a text that spells one as a number, a REAL column does the same
    and then keeps an INTEGER as a REAL (so that -0.0 is kept as 0.0).
    NULL is kept by all. *)
Definition apply_affinity {nt : NumText} (a : affinity) (v : value)
  : value :=
  match a with
  | TextAff =>
      match v with
      | VInt z => VStr (text_of_int z)
      | VFloat f => VStr (text_of_real f)
      | _ => v
      end
  | IntegerAff => to_numeric v
  | RealAff =>
      match to_numeric v with
      | VInt z => VFloat (PyFloat.of_int z)
      | w => w
      end
  | NoAff => v
  end.

(** [a = b] between two stored values, or between a stored value and a
    parameter the column's affinity has converted; NULL equals nothing.
    Values are compared within their storage class (numbers
    numerically): a number never equals a text. *)
Definition sql_eq (a b : value) : bool :=
  match a, b with
  | VStr s, VStr t => String.eqb s t
  | VInt x, VInt y => x =? y
  | VFloat x, VFloat y => (x =? y)%float
  | VInt x, VFloat y | VFloat y, VInt x =>
      match PyFloat.int_cmp_float x y with Some Eq => true | _ => false end
  | _, _ => false
  end.

(** The order of ORDER BY: NULL first, then numbers, then text compared
    byte by byte. *)
Definition sql_leb (a b : value) : bool :=
  match a, b with
  | VNone, _ => true
  | _, VNone => false
  | VInt x, VInt y => x <=? y
  | VFloat x, VFloat y => (x <=? y)%float
  | VInt x, VFloat y =>
      match PyFloat.int_cmp_float x y with Some Gt => false | _ => true end
  | VFloat x, VInt y =>
      match PyFloat.int_cmp_float y x with Some Lt => false | _ => true end
  | (VInt _ | VFloat _), _ => true
  | _, (VInt _ | VFloat _) => false
  | VStr s, VStr t =>
      match String.compare s t with Gt => false | _ => true end
  | _, _ => true
  end.

(** ORDER BY key DESC: rows with equal keys stay in the order of the
    table, which is the order the engine reads them in.  A row goes
    behind the rows after it in the table whose key is strictly
    greater, and before the others. *)
Fixpoint insert_desc (key : row -> value) (r : row) (l : list row)
  : list row :=
  match l with
  | [] => [r]
  | x :: rest =>
      if negb (sql_leb (key x) (key r)) then x :: insert_desc key r rest
      else r :: x :: rest
  end.

Definition order_by_desc (key : row -> value) (l : list row) : list row :=
  fold_right (insert_desc key) [] l.

(** LIMIT n OFFSET m: a negative limit is no limit, a negative offset 0. *)
Definition limit_offset (limit offset : Z) (l : list row) : list row :=
  let l := skipn (Z.to_nat offset) l in
  if limit <? 0 then l else firstn (Z.to_nat limit) l.

(** *** The LIKE operator (the engine's default: no ESCAPE, ASCII letters
    compared without case, [%] any sequence, [_] any one character;
    the pattern and the text both end at their first NUL character) *)

Definition ascii_lower (c : ascii) : ascii :=
  if byte_in c 65 90 then ascii_of_N (N_of_ascii c + 32) else c.

Definition eq_nocase (a b : ascii) : bool :=
  Ascii.eqb (ascii_lower a) (ascii_lower b).

Fixpoint drop_continuation (s : list ascii) : list ascii :=
  match s with
  | c :: rest => if byte_in c 128 191 then drop_continuation rest else s
  | [] => []
  end.

(** One UTF-8 character off the front of [s]. *)
Definition skip_char (s : list ascii) : option (list ascii) :=
  match s with
  | [] => None
  | c :: rest =>
      Some (if byte_in c 192 255 then drop_continuation rest else rest)
  end.

Fixpoint like (pat : list ascii) : list ascii -> bool :=
  match pat with
  | [] => fun s => match s with [] => true | _ :: _ => false end
  | p :: pat' =>
      if Ascii.eqb p "%" then
        fix star (s : list ascii) : bool :=
          like pat' s
          || match s with [] => false | _ :: s' => star s' end
      else if Ascii.eqb p "_" then
        fun s =>
          match skip_char s with
          | Some s' => like pat' s'
          | None => false
          end
      else
        fun s =>
          match s with
          | c :: s' => eq_nocase p c && like pat' s'
          | [] => false
          end
  end.

(** The characters before the first NUL. *)
Fixpoint upto_nul (s : list ascii) : list ascii :=
  match s with
  | [] => []
  | c :: rest => if Ascii.eqb c Ascii.zero then [] else c :: upto_nul rest
  end.


(** [v LIKE pat] in a WHERE clause.  NULL matches nothing; a number is
    matched on its text. *)
Definition sql_like {nt : NumText} (v : value) (pat : string) : bool :=
  match apply_affinity TextAff v with
  | VStr s =>
      like (upto_nul (list_ascii_of_string pat))
           (upto_nul (list_ascii_of_string s))
  | _ => false
  end.

End Sqlite.

(* ------------------------------------------------------------------ *)
(** ** core/database.py *)

Module Database.
Import Models Sqlite.

(** The database file: the [qrcodes] table with its column names (as
    [PRAGMA table_info] lists them) and the [templates] table. *)
Record tables : Type := mkTables {
  qr_columns : list string;
  qrcodes : list row;
  templates : list row
}.

(** The 17 columns of [CREATE TABLE qrcodes] in [init_database]. *)
Definition base_columns : list string :=
  ["id"; "data"; "qr_type"; "version"; "error_correction"; "size"; "border";
   "foreground_color"; "background_color"; "logo_path"; "gradient_start";
   "gradient_end"; "gradient_type"; "created_at"; "tags"; "notes";
   "output_format"].

(** The affinity of a column of [qrcodes], by the type [init_database]
    declares it with: INTEGER for [version], [size] and [border], REAL
    for [logo_scale], TEXT for the others. *)
Definition column_affinity (c : string) : affinity :=
  if existsb (String.eqb c) ["version"; "size"; "border"] then IntegerAff
  else if String.eqb c "logo_scale" then RealAff
  else if existsb (String.eqb c) base_columns then TextAff
  else NoAff.

(** The row the engine keeps of the values bound to the columns [cols]:
    each value as the affinity of its column converts it. *)
Fixpoint store_row {nt : NumText} (cols : list string) (vals : list value)
  : row :=
  match cols, vals with
  | c :: cols', v :: vals' =>
      apply_affinity (column_affinity c) v :: store_row cols' vals'
  | _, _ => vals
  end.

(** A local variable [conn] of a method: not yet assigned, [None], or a
    connection. *)
Inductive conn_var : Type :=
| Unbound
| ConnNone
| Conn.

(** What a method runs in: the file [store], the open connection's view
    of it ([txn], lost at [close] unless committed), the method's local
    [conn], and the number of engine calls made so far. *)
Record world : Type := mkWorld {
  store : tables;
  txn : option tables;
  conn : conn_var;
  calls : nat
}.

(** What the engine decides: which of its calls fail, and the answers to
    the aggregate queries of [get_statistics]. *)
Class Engine : Type := {
  (** its conversions between numbers and text *)
  num_text :: NumText;
  (** the [n]-th engine call raises [sqlite3.Error] *)
  faults : nat -> bool;
  (** [SELECT qr_type, COUNT( * ) ... GROUP BY qr_type ORDER BY COUNT( * ) DESC] *)
  q_by_type : list row -> list (value * Z);
  (** the per-day counts of the last 7 days *)
  q_recent_7_days : list row -> list (value * Z);
  (** [SELECT AVG(LENGTH(data))]: a float, or NULL ([None]) on an empty
      table *)
  q_avg_length : list row -> option float
}.

Definition M (A : Type) : Type := world -> result A * world.

Definition ret {A : Type} (a : A) : M A := fun w => (Ok a, w).

Definition raise {A : Type} (e : exn) : M A := fun w => (Raise e, w).

Definition bindM {A B : Type} (c : M A) (k : A -> M B) : M B :=
  fun w =>
    match c w with
    | (Ok a, w') => k a w'
    | (Raise e, w') => (Raise e, w')
    end.

Definition lift {A : Type} (c : result A) : M A := fun w => (c, w).

Declare Scope db_scope.
Delimit Scope db_scope with db.
Notation "x <-- c ;; k" := (bindM c (fun x => k))
  (at level 61, c at next level, right associativity) : db_scope.
Notation "c ;;; k" := (bindM c (fun _ => k))
  (at level 61, right associativity) : db_scope.
Local Open Scope db_scope.

(** [try: body  except sqlite3.Error (...): handler] *)
Definition try_exceptM {A : Type} (body : M A) (caught : list exn)
    (handler : M A) : M A :=
  fun w =>
    match body w with
    | (Ok a, w') => (Ok a, w')
    | (Raise e, w') =>
        if existsb (exn_eqb e) caught then handler w' else (Raise e, w')
    end.

(** [try: body  finally: cleanup]: the cleanup always runs; when it
    raises, its exception replaces the body's outcome. *)
Definition try_finally {A : Type} (body : M A) (cleanup : M unit) : M A :=
  fun w =>
    let '(r, w') := body w in
    match cleanup w' with
    | (Ok _, w'') => (r, w'')
    | (Raise e, w'') => (Raise e, w'')
    end.

Definition set_conn (c : conn_var) : M unit :=
  fun w => (Ok tt, mkWorld (store w) (txn w) c (calls w)).

(** Reading the local [conn]. *)
Definition get_conn : M conn_var :=
  fun w =>
    match conn w with
    | Unbound => (Raise UnboundLocalError, w)
    | c => (Ok c, w)
    end.

Definition conn_truthy (c : conn_var) : bool :=
  match c with Conn => true | _ => false end.

(** [conn.close()]: what was not committed is lost. *)
Definition close : M unit :=
  fun w => (Ok tt, mkWorld (store w) None (conn w) (calls w)).

(** [if conn: conn.close()], the body of every [finally]. *)
Definition close_if_conn : M unit :=
  c <-- get_conn ;;
  if conn_truthy c then close else ret tt.

Definition row_id (r : row) : value := nth 0 r VNone.

(** [id = ?] in a WHERE clause, on one row: the parameter is converted
    by the affinity of the [id] column, TEXT, before it is compared, so
    that the number 7 selects the row whose id is "7". *)
Definition has_id {nt : NumText} (qid : value) (r : row) : bool :=
  sql_eq (row_id r) (apply_affinity TextAff qid).

Section WithEngine.
Context {rt : PyRuntime} {eng : Engine}.

(** An engine call: it fails when the fault plan says so. *)
Definition engine_call {A : Type} (act : tables -> result (A * tables))
  : M A :=
  fun w =>
    let w1 := mkWorld (store w) (txn w) (conn w) (S (calls w)) in
    if faults (calls w) then (Raise SqliteError, w1)
    else
      match txn w with
      | None => (Raise SqliteError, w1)    (* no open connection *)
      | Some t =>
          match act t with
          | Ok (a, t') =>
              (Ok a, mkWorld (store w) (Some t') (conn w) (S (calls w)))
          | Raise e => (Raise e, w1)
          end
      end.

(** [sqlite3.connect(self.db_path)] *)
Definition sqlite3_connect : M unit :=
  fun w =>
    let n := S (calls w) in
    if faults (calls w) then (Raise SqliteError,
                              mkWorld (store w) (txn w) (conn w) n)
    else (Ok tt, mkWorld (store w) (Some (store w)) (conn w) n).

(** [conn.commit()] *)
Definition commit : M unit :=
  fun w =>
    let n := S (calls w) in
    if faults (calls w) then (Raise SqliteError,
                              mkWorld (store w) (txn w) (conn w) n)
    else
      match txn w with
      | Some t => (Ok tt, mkWorld t (Some t) (conn w) n)
      | None => (Raise SqliteError, mkWorld (store w) None (conn w) n)
      end.

(** [PRAGMA table_info(qrcodes)], then the column names. *)
Definition table_info : M (list string) :=
  engine_call (fun t => Ok (qr_columns t, t)).

(** The values [vals], one per column of the table, are converted by
    the affinity of their columns.  NOT NULL on [data] and [qr_type];
    the row replaces the rows with its primary key [id]. *)
Definition insert_or_replace_row (t : tables) (vals : list value)
  : result (unit * tables) :=
  let r := store_row (qr_columns t) vals in
  if is_none (nth 1 r VNone) || is_none (nth 2 r VNone)
  then Raise SqliteError
  else
    Ok (tt, mkTables (qr_columns t)
              (filter (fun x => negb (sql_eq (row_id x) (row_id r)))
                      (qrcodes t) ++ [r])
              (templates t)).

(** [INSERT OR REPLACE INTO qrcodes VALUES (?, ..., ?)]: one value per
    column of the table, in column order. *)
Definition insert_or_replace_values (params : list value) : M unit :=
  engine_call (fun t =>
    vals <- bind_params params ;;
    if Nat.eqb (List.length vals) (List.length (qr_columns t))
    then insert_or_replace_row t vals
    else Raise SqliteError).

Fixpoint assoc (cols : list string) (vals : list value) (c : string)
  : option value :=
  match cols, vals with
  | k :: cols', v :: vals' =>
      if String.eqb k c then Some v else assoc cols' vals' c
  | _, _ => None
  end.

(** [INSERT OR REPLACE INTO qrcodes (c1, ..., cn) VALUES (?, ..., ?)]:
    the columns not named get their default, NULL for the base columns
    and 0.2 for [logo_scale]. *)
Definition insert_or_replace_named (cols : list string)
    (params : list value) : M unit :=
  engine_call (fun t =>
    vals <- bind_params params ;;
    if forallb (fun c => existsb (String.eqb c) (qr_columns t)) cols
    then
      insert_or_replace_row t
        (map (fun c =>
                match assoc cols vals c with
                | Some v => v
                | None =>
                    if String.eqb c "logo_scale" then VFloat 0.2
                    else VNone
                end)
             (qr_columns t))
    else Raise SqliteError).

(** [SELECT * FROM qrcodes WHERE id = ?] and [fetchone()] *)
Definition select_by_id (qrcode_id : value) : M (option row) :=
  engine_call (fun t =>
    p <- bind_param qrcode_id ;;
    Ok (find (has_id p) (qrcodes t), t)).

Definition row_created_at (r : row) : value := nth 13 r VNone.

(** [SELECT * FROM qrcodes ORDER BY created_at DESC] and [fetchall()] *)
Definition select_all_ordered : M (list row) :=
  engine_call (fun t => Ok (order_by_desc row_created_at (qrcodes t), t)).

(** [DELETE FROM qrcodes WHERE id = ?]; the result is [cursor.rowcount]. *)
Definition delete_by_id (qrcode_id : value) : M Z :=
  engine_call (fun t =>
    p <- bind_param qrcode_id ;;
    let gone := filter (has_id p) (qrcodes t) in
    let kept := filter (fun r => negb (has_id p r)) (qrcodes t) in
    Ok (Z.of_nat (List.length gone),
        mkTables (qr_columns t) kept (templates t))).

(** *** [_row_to_qrcode_data] *)

(** [row[i]] *)
Definition row_get (r : row) (i : nat) : result value :=
  match nth_error r i with
  | Some v => Ok v
  | None => Raise IndexError
  end.

(** [v if v else d] *)
Definition if_truthy (v d : value) : value :=
  if truthy v then v else d.

(** [v if v is not None else d] *)
Definition if_not_none (v d : value) : value :=
  if is_none v then d else v.

(** [json.loads(v)]: TypeError unless [v] is a string; a string that
    is not JSON raises [json.JSONDecodeError], a ValueError. *)
Definition json_loads_value (v : value) : result value :=
  match v with
  | VStr s =>
      match json_loads s with
      | Some j => Ok j
      | None => Raise ValueError
      end
  | _ => Raise TypeError
  end.

(** Lines 571-576. *)
Definition decode_tags (cell : value) : result value :=
  if truthy cell
  then try_except (json_loads_value cell) [ValueError]
         (fun _ => Ok (VList []))
  else Ok (VList []).

(** Lines 579-582. *)
Definition decode_qr_type (cell : value) : QRCodeType :=
  match cell with
  | VStr s =>
      match QRCodeType_of_string s with
      | Some t => t
      | None => TEXT
      end
  | VQRCodeType t => t
  | _ => TEXT
  end.

(** [logo_scale = float(v); if logo_scale > 1: logo_scale /= 100.0] *)
Definition percent_to_fraction (f : float) : float :=
  if (1 <? f)%float then (f / 100.0)%float else f.

(** Lines 586-603. *)
Definition decode_logo_scale (r : row) : result float :=
  if Nat.ltb 17 (List.length r) then
    try_except
      (cell <- row_get r 17 ;;
       match if_truthy cell (VFloat 0.2) with
       | VStr s =>
           match float_of_str s with
           | Some f => Ok f
           | None => Raise ValueError
           end
       | VInt z =>
           f <- PyFloat.float_of_int z ;; Ok (percent_to_fraction f)
       | VBool b =>
           f <- PyFloat.float_of_int (if b then 1 else 0) ;;
           Ok (percent_to_fraction f)
       | VFloat f => Ok (percent_to_fraction f)
       | _ => Ok 0.2%float
       end)
      [ValueError; TypeError; IndexError]
      (fun _ => Ok 0.2%float)
  else Ok 0.2%float.

(** Line 626: [row[16] if len(row) > 16 and row[16] else "PNG"]. *)
Definition decode_output_format (r : row) : result value :=
  if Nat.ltb 16 (List.length r) then
    cell <- row_get r 16 ;; Ok (if_truthy cell (VStr "PNG"))
  else Ok (VStr "PNG").

Definition row_to_qrcode_data (r : row) : result (option QRCodeData) :=
  try_except
    (r14 <- row_get r 14 ;;
     tags <- decode_tags r14 ;;
     r2 <- row_get r 2 ;;
     let qr_type := decode_qr_type r2 in
     r9 <- row_get r 9 ;;
     let logo_path := if_truthy r9 VNone in
     logo_scale <- decode_logo_scale r ;;
     r10 <- row_get r 10 ;;
     let gradient_start := if_truthy r10 VNone in
     r11 <- row_get r 11 ;;
     let gradient_end := if_truthy r11 VNone in
     r0 <- row_get r 0 ;;
     r1 <- row_get r 1 ;;
     r3 <- row_get r 3 ;;
     r4 <- row_get r 4 ;;
     r5 <- row_get r 5 ;;
     r6 <- row_get r 6 ;;
     r7 <- row_get r 7 ;;
     r8 <- row_get r 8 ;;
     r12 <- row_get r 12 ;;
     r13 <- row_get r 13 ;;
     r15 <- row_get r 15 ;;
     output_format <- decode_output_format r ;;
     d <- QRCodeData_new
            {| id := r0;
               data := r1;
               qr_type := qr_type;
               version := if_not_none r3 (VInt 0);
               error_correction := if_truthy r4 (VStr "H");
               size := if_not_none r5 (VInt 10);
               border := if_not_none r6 (VInt 4);
               foreground_color := if_truthy r7 (VStr "#000000");
               background_color := if_truthy r8 (VStr "#FFFFFF");
               logo_path := logo_path;
               logo_scale := VFloat logo_scale;
               gradient_start := gradient_start;
               gradient_end := gradient_end;
               gradient_type := if_truthy r12 (VStr "linear");
               created_at := if_truthy r13 (VStr "");
               tags := tags;
               notes := if_truthy r15 (VStr "");
               output_format := output_format |} ;;
     Ok (Some d))
    [IndexError; ValueError; TypeError]
    (fun _ => Ok None).

(** The loop [for row in cursor.fetchall(): ...] of [get_all_qrcodes]
    and [search_qrcodes]: rows that decode to [None] are skipped. *)
Fixpoint decode_rows (rows : list row) : result (list QRCodeData) :=
  match rows with
  | [] => Ok []
  | r :: rest =>
      d <- row_to_qrcode_data r ;;
      ds <- decode_rows rest ;;
      Ok (match d with Some q => q :: ds | None => ds end)
  end.

(** *** The public methods *)

(** A run of statements inside [try: ... except sqlite3.Error: print(...)]
    that assign to a local [acc] read after the [try]: the statement
    that raises a caught error ends the run and [acc] keeps the value
    it had; any other exception propagates. *)
Fixpoint try_steps {L : Type} (steps : list (L -> M L)) (acc : L) : M L :=
  match steps with
  | [] => ret acc
  | s :: rest =>
      fun w =>
        match s acc w with
        | (Ok acc', w') => try_steps rest acc' w'
        | (Raise e, w') =>
            if exn_eqb e SqliteError then (Ok acc, w')
            else (Raise e, w')
        end
  end.

(** The parameters of the 18-value INSERT of [save_qrcode]. *)
Definition save_params (qr_data : QRCodeData) : list value :=
  [id qr_data; data qr_data; VStr (QRCodeType_value (qr_type qr_data));
   version qr_data; error_correction qr_data; size qr_data;
   border qr_data; foreground_color qr_data; background_color qr_data;
   logo_path qr_data; gradient_start qr_data; gradient_end qr_data;
   gradient_type qr_data; created_at qr_data;
   VStr (json_dumps (tags qr_data)); notes qr_data;
   output_format qr_data; logo_scale qr_data].

Definition save_qrcode (qr_data : QRCodeData) : M bool :=
  set_conn ConnNone ;;;
  try_finally
    (try_exceptM
       (sqlite3_connect ;;;
        set_conn Conn ;;;
        column_names <-- table_info ;;
        (if existsb (String.eqb "logo_scale") column_names
         then insert_or_replace_values (save_params qr_data)
         else insert_or_replace_named base_columns
                (firstn 17 (save_params qr_data))) ;;;
        commit ;;;
        ret true)
       [SqliteError]
       (ret false))
    close_if_conn.

Definition load_qrcode (qrcode_id : value) : M (option QRCodeData) :=
  set_conn ConnNone ;;;
  try_finally
    (try_exceptM
       (sqlite3_connect ;;;
        set_conn Conn ;;;
        r <-- select_by_id qrcode_id ;;
        match r with
        | Some (c :: cs) => lift (row_to_qrcode_data (c :: cs))
        | _ => ret None
        end)
       [SqliteError]
       (ret None))
    close_if_conn.

Definition get_all_qrcodes : M (list QRCodeData) :=
  set_conn Unbound ;;;
  try_finally
    (try_steps
       [ (fun acc => sqlite3_connect ;;; set_conn Conn ;;; ret acc);
         (fun acc => rows <-- select_all_ordered ;;
                     lift (decode_rows rows)) ]
       [])
    close_if_conn.

Definition delete_qrcode (qrcode_id : value) : M bool :=
  set_conn Unbound ;;;
  try_finally
    (try_exceptM
       (sqlite3_connect ;;;
        set_conn Conn ;;;
        rowcount <-- delete_by_id qrcode_id ;;
        commit ;;;
        ret (0 <? rowcount))
       [SqliteError]
       (ret false))
    close_if_conn.

Definition quote : string := String (ascii_of_N 34) EmptyString.

(** The WHERE clause [search_qrcodes] builds, on one row.  [data],
    [qr_type], [tags] and [notes] are columns 1, 2, 14 and 15. *)
Definition where_clause (keyword : option string)
    (qr_type : option QRCodeType) (tags : option (list string))
    (r : row) : bool :=
  (match keyword with
   | Some k =>
       if truthy (VStr k)
       then sql_like (nth 1 r VNone) ("%" ++ k ++ "%")
            || sql_like (nth 15 r VNone) ("%" ++ k ++ "%")
       else true
   | None => true
   end)
  && (match qr_type with
      | Some t => sql_eq (nth 2 r VNone) (VStr (QRCodeType_value t))
      | None => true
      end)
  && (match tags with
      | Some l =>
          forallb (fun tag =>
                     sql_like (nth 14 r VNone)
                       ("%" ++ quote ++ tag ++ quote ++ "%")) l
      | None => true
      end).

(** [SELECT COUNT( * ) FROM qrcodes WHERE ...] *)
Definition count_where (p : row -> bool) : M Z :=
  engine_call (fun t =>
    Ok (Z.of_nat (List.length (filter p (qrcodes t))), t)).

(** [SELECT * FROM qrcodes WHERE ... ORDER BY created_at DESC
    LIMIT ? OFFSET ?] *)
Definition select_where (p : row -> bool) (limit offset : Z)
  : M (list row) :=
  engine_call (fun t =>
    Ok (limit_offset limit offset
          (order_by_desc row_created_at (filter p (qrcodes t))), t)).

Definition search_qrcodes (keyword : option string)
    (qr_type : option QRCodeType) (tags : option (list string))
    (limit offset : Z) : M (list QRCodeData * Z) :=
  set_conn Unbound ;;;
  try_finally
    (try_steps
       [ (fun acc => sqlite3_connect ;;; set_conn Conn ;;; ret acc);
         (fun acc =>
            total <-- count_where (where_clause keyword qr_type tags) ;;
            ret (fst acc, total));
         (fun acc =>
            rows <-- select_where (where_clause keyword qr_type tags)
                       limit offset ;;
            qrcodes <-- lift (decode_rows rows) ;;
            ret (qrcodes, snd acc)) ]
       ([], 0))
    close_if_conn.

(** The dictionary [get_statistics] returns; a key not yet assigned
    is [None]. *)
Record stats : Type := mkStats {
  total_qrcodes : option Z;
  qrcodes_by_type : option (list (value * Z));
  total_templates : option Z;
  recent_7_days : option (list (value * Z));
  average_data_length : option value
}.

Definition empty_stats : stats := mkStats None None None None None.

(** [round(avg_length or 0, 2)] *)
Definition round_avg (avg : option float) : value :=
  match avg with
  | Some f =>
      if truthy (VFloat f) then VFloat (PyFloat.round2 f) else VInt 0
  | None => VInt 0
  end.

Definition get_statistics : M stats :=
  set_conn Unbound ;;;
  try_finally
    (try_steps
       [ (fun s => sqlite3_connect ;;; set_conn Conn ;;; ret s);
         (fun s =>
            n <-- engine_call (fun t =>
                    Ok (Z.of_nat (List.length (qrcodes t)), t)) ;;
            ret (mkStats (Some n) (qrcodes_by_type s) (total_templates s)
                   (recent_7_days s) (average_data_length s)));
         (fun s =>
            g <-- engine_call (fun t => Ok (q_by_type (qrcodes t), t)) ;;
            ret (mkStats (total_qrcodes s) (Some g) (total_templates s)
                   (recent_7_days s) (average_data_length s)));
         (fun s =>
            n <-- engine_call (fun t =>
                    Ok (Z.of_nat (List.length (templates t)), t)) ;;
            ret (mkStats (total_qrcodes s) (qrcodes_by_type s) (Some n)
                   (recent_7_days s) (average_data_length s)));
         (fun s =>
            d <-- engine_call (fun t =>
                    Ok (q_recent_7_days (qrcodes t), t)) ;;
            ret (mkStats (total_qrcodes s) (qrcodes_by_type s)
                   (total_templates s) (Some d) (average_data_length s)));
         (fun s =>
            a <-- engine_call (fun t => Ok (q_avg_length (qrcodes t), t)) ;;
            ret (mkStats (total_qrcodes s) (qrcodes_by_type s)
                   (total_templates s) (recent_7_days s)
                   (Some (round_avg a)))) ]
       empty_stats)
    close_if_conn.

(** A method call on a database object: the call starts with no local
    bound and no connection open. *)
Definition call {A : Type} (m : M A) (db : tables) : result A * tables :=
  let '(r, w) := m (mkWorld db None Unbound 0) in (r, store w).

(** [get_qrcodes_by_tag]: [self.search_qrcodes(tags=[tag])[0]], with the
    defaults [limit=100] and [offset=0] of [search_qrcodes]. *)
Definition get_qrcodes_by_tag (tag : string) : M (list QRCodeData) :=
  found <-- search_qrcodes None None (Some [tag]) 100 0 ;;
  ret (fst found).

(** *** [init_database] *)

(** A schema statement.  The [sqlite3] module opens a transaction only
    before INSERT, UPDATE, DELETE and REPLACE, so a CREATE TABLE or an
    ALTER TABLE run on a fresh connection is written to the file at
    once. *)
Definition schema_call (act : tables -> result tables) : M unit :=
  fun w =>
    let w1 := mkWorld (store w) (txn w) (conn w) (S (calls w)) in
    if faults (calls w) then (Raise SqliteError, w1)
    else
      match txn w with
      | None => (Raise SqliteError, w1)
      | Some t =>
          match act t with
          | Ok t' => (Ok tt, mkWorld t' (Some t') (conn w) (S (calls w)))
          | Raise e => (Raise e, w1)
          end
      end.

(** [CREATE TABLE IF NOT EXISTS qrcodes (...)]: a file without the
    table is one whose [qr_columns] is empty. *)
Definition create_qrcodes_table : M unit :=
  schema_call (fun t =>
    Ok (match qr_columns t with
        | [] => mkTables base_columns [] (templates t)
        | _ :: _ => t
        end)).

(** [ALTER TABLE qrcodes ADD COLUMN logo_scale REAL DEFAULT 0.2]: the
    rows already stored read the default in the new column. *)
Definition add_logo_scale_column : M unit :=
  schema_call (fun t =>
    if existsb (String.eqb "logo_scale") (qr_columns t)
    then Raise SqliteError                   (* duplicate column name *)
    else Ok (mkTables (List.app (qr_columns t) ["logo_scale"])
               (map (fun r => List.app r [VFloat 0.2]) (qrcodes t))
               (templates t))).

(** [CREATE TABLE IF NOT EXISTS templates (...)] *)
Definition create_templates_table : M unit :=
  schema_call (fun t => Ok t).

Definition init_database : M unit :=
  sqlite3_connect ;;;
  set_conn Conn ;;;
  try_finally
    (create_qrcodes_table ;;;
     column_names <-- table_info ;;
     (if negb (existsb (String.eqb "logo_scale") column_names)
      then try_exceptM add_logo_scale_column [SqliteError] (ret tt)
      else ret tt) ;;;
     create_templates_table ;;;
     commit)
    close.


End WithEngine.


(** *** Rows and tables the statements below speak of *)

(** A tags cell as the engine keeps it in a TEXT column. *)
Definition tags_cell_ok (v : value) : Prop :=
  v = VNone \/ exists s, v = VStr s.

(** A logo-scale cell as the engine keeps it in a REAL column. *)
Definition scale_cell_ok (v : value) : Prop :=
  v = VNone \/ exists f, v = VFloat f.

(** The constructor arguments [_row_to_qrcode_data] builds from a row,
    its decoded tags and its decoded logo scale (a column the row lacks
    reads as NULL). *)
Definition row_fields (r : row) (tg : value) (ls : float) : QRCodeData :=
  {| id := nth 0 r VNone;
     data := nth 1 r VNone;
     qr_type := decode_qr_type (nth 2 r VNone);
     version := if_not_none (nth 3 r VNone) (VInt 0);
     error_correction := if_truthy (nth 4 r VNone) (VStr "H");
     size := if_not_none (nth 5 r VNone) (VInt 10);
     border := if_not_none (nth 6 r VNone) (VInt 4);
     foreground_color := if_truthy (nth 7 r VNone) (VStr "#000000");
     background_color := if_truthy (nth 8 r VNone) (VStr "#FFFFFF");
     logo_path := if_truthy (nth 9 r VNone) VNone;
     logo_scale := VFloat ls;
     gradient_start := if_truthy (nth 10 r VNone) VNone;
     gradient_end := if_truthy (nth 11 r VNone) VNone;
     gradient_type := if_truthy (nth 12 r VNone) (VStr "linear");
     created_at := if_truthy (nth 13 r VNone) (VStr "");
     tags := tg;
     notes := if_truthy (nth 15 r VNone) (VStr "");
     output_format := if_truthy (nth 16 r VNone) (VStr "PNG") |}.

(** The table after an upsert of the stored row [new]. *)
Definition upsert (db : tables) (new : row) : tables :=
  mkTables (qr_columns db)
    (filter (fun x => negb (sql_eq (row_id x) (row_id new))) (qrcodes db)
     ++ [new])
    (templates db).

(** The schema [init_database] leaves: the base columns and [logo_scale]. *)
Definition full_schema (db : tables) : Prop :=
  qr_columns db = (base_columns ++ ["logo_scale"])%list.


(** A computation that leaves the file as it found it. *)
Definition keeps_store {A : Type} (m : M A) : Prop :=
  forall w, store (snd (m w)) = store w.

(** The table without the rows whose [id] is [qid]. *)
Definition without_id {nt : NumText} (db : tables) (qid : value)
  : tables :=
  mkTables (qr_columns db)
    (filter (fun r => negb (has_id qid r)) (qrcodes db))
    (templates db).

(** The first schema: the 17 base columns, no [logo_scale]. *)
Definition first_schema (db : tables) : Prop :=
  qr_columns db = base_columns
  /\ Forall (fun r => List.length r = 17%nat) (qrcodes db).

(** The table [init_database] makes of one in the first schema. *)
Definition migrated (db : tables) : tables :=
  mkTables (List.app base_columns ["logo_scale"])
    (map (fun r => List.app r [VFloat 0.2]) (qrcodes db))
    (templates db).

(** The dictionary of [get_statistics] when the [j]-th query is the
    first statement to fail ([j] from 1; all five keys for [j > 5]). *)
Definition stats_before {eng : Engine} (j : nat) (db : tables) : stats :=
  let rows := qrcodes db in
  mkStats
    (if Nat.ltb 1 j then Some (Z.of_nat (List.length rows)) else None)
    (if Nat.ltb 2 j then Some (q_by_type rows) else None)
    (if Nat.ltb 3 j then Some (Z.of_nat (List.length (templates db)))
     else None)
    (if Nat.ltb 4 j then Some (q_recent_7_days rows) else None)
    (if Nat.ltb 5 j then Some (round_avg (q_avg_length rows)) else None).


End Database.

(* ------------------------------------------------------------------ *)
(** ** core/scanner.py *)

Module Scanner.

(** What [pyzbar] returns for one hit, as far as [_calculate_confidence]
    reads it; an attribute the object lacks is [None]. *)
Record Rect : Type := mkRect {
  left : Z; top : Z; width : Z; height : Z
}.

Record Decoded : Type := mkDecoded {
  rect : option Rect;
  polygon : option (list (Z * Z))
}.

Definition calculate_confidence (decoded_obj : Decoded) : result float :=
  let confidence := 1.0%float in
  confidence <-
    match rect decoded_obj with
    | Some rect =>
        if (0 <? width rect) && (0 <? height rect) then
          q <- PyFloat.int_truediv (width rect * height rect) 10000 ;;
          let size_factor := PyFloat.min q 1.0 in
          Ok (confidence * size_factor)%float
        else Ok confidence
    | None => Ok confidence
    end ;;
  confidence <-
    match polygon decoded_obj with
    | Some polygon =>
        if 4 <=? Z.of_nat (List.length polygon) then
          q <- PyFloat.int_truediv (Z.of_nat (List.length polygon)) 4 ;;
          let point_factor := PyFloat.min q 1.0 in
          Ok (confidence * point_factor)%float
        else Ok confidence
    | None => Ok confidence
    end ;;
  Ok (PyFloat.round2 confidence).

(** Python's [max(a, b)] on two floats: [b] when [b > a], else [a]. *)
Definition py_max (a b : float) : float :=
  if (a <? b)%float then b else a.

(** [set_min_confidence]: the threshold [max(0.0, min(1.0, confidence))]
    the scanner keeps. *)
Definition set_min_confidence (confidence : float) : float :=
  py_max 0.0 (PyFloat.min 1.0 confidence).

(** An entry of the result list of [_scan_image], as far as it is read
    from the hit: its box, its polygon and its confidence. *)
Record scan_result : Type := mkScanResult {
  res_rect : Rect;
  res_polygon : list (Z * Z);
  res_confidence : float
}.

(** The body of the loop of [_scan_image] for one hit, lines 443-469:
    [None] when the hit is below the threshold or when the body raises
    (a hit without box or polygon raises AttributeError at lines 457 and
    462), which the loop answers with [continue]. *)
Definition scan_object (min_confidence : float) (obj : Decoded)
  : option scan_result :=
  match calculate_confidence obj with
  | Raise _ => None
  | Ok confidence =>
      if (min_confidence <=? confidence)%float then
        match rect obj, polygon obj with
        | Some r, Some p => Some (mkScanResult r p confidence)
        | _, _ => None
        end
      else None
  end.

(** The loop [for obj in decoded_objects] of [_scan_image]. *)
Fixpoint scan_objects (min_confidence : float) (objs : list Decoded)
  : list scan_result :=
  match objs with
  | [] => []
  | obj :: rest =>
      match scan_object min_confidence obj with
      | Some r => r :: scan_objects min_confidence rest
      | None => scan_objects min_confidence rest
      end
  end.


End Scanner.

(* ------------------------------------------------------------------ *)
(** ** core/engine.py *)

Module QREngine.
Import Models.

(** The characters of a string, each with its UTF-8 bytes: a byte
    followed by continuation bytes (10xxxxxx) is one character. *)
Fixpoint utf8_chars (s : list ascii) : list (list ascii) :=
  match s with
  | [] => []
  | c :: rest =>
      match utf8_chars rest with
      | (d :: ds) :: more =>
          if byte_in d 128 191 then (c :: d :: ds) :: more
          else [c] :: (d :: ds) :: more
      | other => [c] :: other
      end
  end.

Definition chars_to_string (cs : list (list ascii)) : string :=
  string_of_list_ascii (List.concat cs).

(** [s[:n]] on a string. *)
Definition str_prefix (n : nat) (s : string) : string :=
  chars_to_string (firstn n (utf8_chars (list_ascii_of_string s))).

(** [v[:8]]: TypeError on a value that cannot be sliced. *)
Definition slice8 (v : value) : result value :=
  match v with
  | VStr s => Ok (VStr (str_prefix 8 s))
  | VList l => Ok (VList (firstn 8 l))
  | _ => Raise TypeError
  end.

(** *** The gradient fill *)

Definition rgb : Type := (Z * Z * Z)%type.

(** One [draw.rectangle([x0, y0, x1, y1], fill=...)]. *)
Record rectangle : Type := mkRectangle {
  x0 : Z; y0 : Z; x1 : Z; y1 : Z;
  fill : rgb
}.

(** A PIL image: the canvas [Image.new] makes and the rectangles drawn
    on it, in drawing order. *)
Record image : Type := mkImage {
  img_width : Z;
  img_height : Z;
  img_background : rgb;
  img_rects : list rectangle
}.

Section WithRuntime.
Context {rt : PyRuntime}.

Definition int16 (cs : list (list ascii)) : result Z :=
  match int_base16 (chars_to_string cs) with
  | Some z => Ok z
  | None => Raise ValueError
  end.

Definition parse_color (color_str : value) : result rgb :=
  match color_str with
  | VStr s =>
      match utf8_chars (list_ascii_of_string s) with
      | hash :: body =>
          if negb (String.eqb (chars_to_string [hash]) "#")
          then Raise ValueError
          else
            let body :=
              if Nat.eqb (List.length body) 3
              then flat_map (fun c => [c; c]) body else body in
            match body with
            | [c0; c1; c2; c3; c4; c5] =>
                r <- int16 [c0; c1] ;;
                g <- int16 [c2; c3] ;;
                b <- int16 [c4; c5] ;;
                Ok (r, g, b)
            | _ => Raise ValueError
            end
      | [] => Raise ValueError
      end
  | _ => Raise ValueError
  end.

(** Lines 358-364: the mix ratio of the module at column [x], row [y]
    of a matrix of [n] rows. *)
Definition module_ratio (gradient_type : value) (n x y : Z)
  : result float :=
  if eq_str gradient_type "radial" then
    let center_x := n / 2 in
    let center_y := n / 2 in
    distance <-
      int_pow_half ((x - center_x) ^ 2 + (y - center_y) ^ 2) ;;
    max_distance <- int_pow_half (n ^ 2 * 2) ;;
    Ok (if (0 <? max_distance)%float
        then (distance / max_distance)%float else 0%float)
  else PyFloat.int_truediv (x + y) (n * 2).

(** Lines 367-369: [int(start * (1 - ratio) + end * ratio)]. *)
Definition interpolate (c_start c_end : Z) (ratio : float) : result Z :=
  fs <- PyFloat.float_of_int c_start ;;
  fe <- PyFloat.float_of_int c_end ;;
  PyFloat.int_of_float (fs * (1 - ratio) + fe * ratio)%float.

Definition module_color (gradient_type : value) (n : Z)
    (color_start color_end : rgb) (x y : Z) : result rgb :=
  ratio <- module_ratio gradient_type n x y ;;
  let '(rs, gs, bs) := color_start in
  let '(re, ge, be) := color_end in
  r <- interpolate rs re ratio ;;
  g <- interpolate gs ge ratio ;;
  b <- interpolate bs be ratio ;;
  Ok (r, g, b).

Definition module_rectangle (s x y : Z) (c : rgb) : rectangle :=
  mkRectangle (x * s) (y * s) ((x + 1) * s) ((y + 1) * s) c.

(** The inner loop [for x in range(len(matrix[y]))], from column [x]. *)
Fixpoint draw_row (gradient_type : value) (n s : Z)
    (color_start color_end : rgb) (y : Z) (cells : list bool) (x : Z)
  : result (list rectangle) :=
  match cells with
  | [] => Ok []
  | on :: rest =>
      here <-
        (if on : bool then
           c <- module_color gradient_type n color_start color_end x y ;;
           Ok [module_rectangle s x y c]
         else Ok []) ;;
      more <- draw_row gradient_type n s color_start color_end y rest
                (x + 1) ;;
      Ok (List.app here more)
  end.

(** The outer loop [for y in range(len(matrix))], from row [y]. *)
Fixpoint draw_rows (gradient_type : value) (n s : Z)
    (color_start color_end : rgb) (rows : list (list bool)) (y : Z)
  : result (list rectangle) :=
  match rows with
  | [] => Ok []
  | cells :: rest =>
      here <- draw_row gradient_type n s color_start color_end y cells 0 ;;
      more <- draw_rows gradient_type n s color_start color_end rest
                (y + 1) ;;
      Ok (List.app here more)
  end.

(** [Image.new("RGB", (size, size), color)] with
    [size = len(matrix) * data.size]: an exception unless [data.size]
    is an int and the size is not negative. *)
Definition new_canvas (n : Z) (data_size : value) (color : value)
  : result (Z * image) :=
  match as_num data_size with
  | Some (PyFloat.NInt s) =>
      if n * s <? 0 then Raise ValueError
      else
        match pil_getrgb color with
        | Some c => Ok (s, mkImage (n * s) (n * s) c [])
        | None => Raise ValueError
        end
  | _ => Raise TypeError
  end.

(** [_generate_gradient_qr(qr, qr_data)], [matrix] being
    [qr.get_matrix()] and [self_qr_data] the engine's [self.qr_data]. *)
Definition generate_gradient_qr (self_qr_data : option QRCodeData)
    (matrix : list (list bool)) (qr_data : option QRCodeData)
  : result image :=
  match (match qr_data with Some d => Some d | None => self_qr_data end)
  with
  | None => Raise ValueError
  | Some data =>
      match matrix with
      | [] => Raise ValueError
      | _ :: _ =>
          let n := Z.of_nat (List.length matrix) in
          canvas <- new_canvas n (size data) (background_color data) ;;
          let '(s, img) := canvas in
          if negb (truthy (gradient_start data))
             || negb (truthy (gradient_end data))
          then Raise ValueError
          else
            color_start <- parse_color (gradient_start data) ;;
            color_end <- parse_color (gradient_end data) ;;
            rects <- draw_rows (gradient_type data) n s color_start
                       color_end matrix 0 ;;
            Ok (mkImage (img_width img) (img_height img)
                  (img_background img) rects)
      end
  end.

End WithRuntime.

(** *** Batch generation *)

(** The text of a [progress_updated] signal. *)
Inductive progress_msg : Type :=
| MsgStart (total : Z)                       (* "开始批量生成，共 {total} 个二维码" *)
| MsgCancelled                               (* "批量生成已取消" *)
| MsgGenerating (k total : Z) (id8 : value)  (* "正在生成 {i+1}/{total}: {id[:8]}" *)
| MsgFinished (successful total : Z).        (* "批量生成完成，成功 {successful}/{total}" *)

(** What made one item fail: an exception of the libraries, with its
    message, or one raised by the engine's own statements. *)
Inductive failure : Type :=
| LibraryError (msg : string)
| EngineError (e : exn).

(** The signals of the engine. *)
Inductive event : Type :=
| ProgressUpdated (percent : Z) (msg : progress_msg)
| ErrorOccurred (id8 : value) (why : failure)
| BatchCompleted (completed total : Z).

(** What a batch run depends on outside the engine. *)
Class BatchEnv : Type := {
  (** generating and saving item [i] (the code between the progress
      signal and [successful += 1]): [None], or the message of the
      exception raised *)
  work : nat -> QRCodeData -> option string;
  (** [stop()] is called from the other thread while item [i] is being
      generated *)
  stops : nat -> bool
}.

(** The engine object during a run: the [running] flag, the signals
    emitted so far (oldest first) and the local [successful]. *)
Record engine : Type := mkEngine {
  running : bool;
  emitted : list event;
  successful : Z
}.

Definition emit (e : event) (st : engine) : engine :=
  mkEngine (running st) (List.app (emitted st) [e]) (successful st).

Section WithBatchEnv.
Context {env : BatchEnv}.

(** Line 174: [int((i + 1) / total * 100) if total > 0 else 0]. *)
Definition progress_percent (i : nat) (total : Z) : result Z :=
  if 0 <? total then
    q <- PyFloat.int_truediv (Z.of_nat i + 1) total ;;
    PyFloat.int_of_float (q * PyFloat.of_int 100)%float
  else Ok 0.

(** The [try] block of one iteration, lines 173-255: the outcome and
    the engine as the block leaves it. *)
Definition try_item (i : nat) (qr_data : QRCodeData) (total : Z)
    (st : engine) : option failure * engine :=
  match progress_percent i total with
  | Raise e => (Some (EngineError e), st)
  | Ok progress =>
      match slice8 (id qr_data) with
      | Raise e => (Some (EngineError e), st)
      | Ok id8 =>
          let st :=
            emit (ProgressUpdated progress
                    (MsgGenerating (Z.of_nat i + 1) total id8)) st in
          match work i qr_data with
          | Some msg => (Some (LibraryError msg), st)
          | None =>
              let st :=
                mkEngine (running st) (emitted st) (successful st + 1) in
              (None, emit (BatchCompleted (Z.of_nat i + 1) total) st)
          end
      end
  end.

(** [str(e)[:50]] *)
Definition clip (why : failure) : failure :=
  match why with
  | LibraryError msg => LibraryError (str_prefix 50 msg)
  | EngineError e => EngineError e
  end.

(** One iteration that passed the [running] check: the [try] block and
    its [except Exception] handler, lines 172-261. *)
Definition item_body (i : nat) (qr_data : QRCodeData) (total : Z)
    (st : engine) : result engine :=
  match try_item i qr_data total st with
  | (None, st') => Ok st'
  | (Some why, st') =>
      id8 <- slice8 (id qr_data) ;;
      Ok (emit (BatchCompleted (Z.of_nat i + 1) total)
            (emit (ErrorOccurred id8 (clip why)) st'))
  end.

(** The other thread's [stop()] during iteration [i]: [running] is
    cleared; the engine reads the flag only at the loop's check. *)
Definition other_thread (i : nat) (st : engine) : engine :=
  mkEngine (running st && negb (stops i)) (emitted st) (successful st).

(** [for i, qr_data in enumerate(self.batch_data)], from index [i]. *)
Fixpoint batch_loop (items : list QRCodeData) (i : nat) (total : Z)
    (st : engine) : result engine :=
  match items with
  | [] => Ok st
  | qr_data :: rest =>
      if negb (running st) then
        Ok (emit (BatchCompleted (Z.of_nat i) total)
              (emit (ProgressUpdated 0 MsgCancelled) st))
      else
        st' <- item_body i qr_data total st ;;
        batch_loop rest (S i) total (other_thread i st')
  end.

(** [_generate_batch] *)
Definition generate_batch_inner (batch_data : list QRCodeData)
    (st : engine) : result engine :=
  let total := Z.of_nat (List.length batch_data) in
  let st := mkEngine (running st) (emitted st) 0 in
  let st := emit (ProgressUpdated 0 (MsgStart total)) st in
  st <- batch_loop batch_data 0 total st ;;
  Ok (if running st
      then emit (ProgressUpdated 100
                   (MsgFinished (successful st) total)) st
      else st).

End WithBatchEnv.


(** *** What the statements about a batch run speak of *)

(** The signals one iteration emits for the item numbered [k] (from 1)
    of [total]: its progress line, an error line, its completion count. *)
Definition signal_of_item (k total : Z) (e : event) : Prop :=
  match e with
  | ProgressUpdated _ (MsgGenerating j t _) => j = k /\ t = total
  | ErrorOccurred _ _ => True
  | BatchCompleted j t => j = k /\ t = total
  | _ => False
  end.

(** An item whose [id] can be sliced ([id[:8]]), as a string can. *)
Definition sliceable (d : QRCodeData) : Prop :=
  exists v, slice8 (id d) = Ok v.

(** The 100% summary of a run that was not stopped. *)
Definition is_finished (e : event) : Prop :=
  exists s t, e = ProgressUpdated 100 (MsgFinished s t).

(** *** The logo, lines 437-459 of [_add_logo] *)

(** [logo_size = int(min(qr_image.size) * scale_ratio)] for a float
    scale: ValueError on NaN, OverflowError on an infinity. *)
Definition raw_logo_size (min_side : Z) (scale_ratio : float) : result Z :=
  side <- PyFloat.float_of_int min_side ;;
  PyFloat.int_of_float (side * scale_ratio)%float.

(** The two guards of lines 441-444, in their order. *)
Definition guard_logo_size (min_side logo_size : Z) : Z :=
  let logo_size := if logo_size <? 20 then 20 else logo_size in
  if min_side / 2 <? logo_size then min_side / 2 else logo_size.

(** Where the logo is pasted, lines 456-459. *)
Definition logo_position (w h logo_size : Z) : Z * Z :=
  ((w - logo_size) / 2, (h - logo_size) / 2).

(** What [_add_logo] pastes on an image of [w] by [h] pixels once the
    logo file is open: the size and the position of the logo, or
    nothing when a statement of the [try] block raises (the handler
    returns the image as it is).  [logo.resize] raises ValueError on a
    size that is not positive. *)
Definition logo_placement (w h : Z) (scale_ratio : float)
  : option (Z * (Z * Z)) :=
  match raw_logo_size (Z.min w h) scale_ratio with
  | Ok raw =>
      let logo_size := guard_logo_size (Z.min w h) raw in
      if logo_size <=? 0 then None
      else Some (logo_size, logo_position w h logo_size)
  | Raise _ => None
  end.

(** *** The file of one batch item, lines 206-250 *)

(** How [image.save] is told to write. *)
Inductive save_format : Type := SavePNG | SaveJPEG | SaveBMP.

(** [ext_map.get(output_format, ".png")] on the upper-cased format. *)
Definition file_extension (output_format : string) : string :=
  if String.eqb output_format "PNG" then ".png"
  else if String.eqb output_format "JPEG" then ".jpg"
  else if String.eqb output_format "JPG" then ".jpg"
  else if String.eqb output_format "BMP" then ".bmp"
  else if String.eqb output_format "SVG" then ".svg"
  else if String.eqb output_format "PDF" then ".pdf"
  else if String.eqb output_format "GIF" then ".gif"
  else ".png".

(** The [if]/[elif] chain of lines 233-250 on the upper-cased format. *)
Definition written_as (output_format : string) : save_format :=
  if String.eqb output_format "PNG" then SavePNG
  else if String.eqb output_format "JPEG"
          || String.eqb output_format "JPG" then SaveJPEG
  else if String.eqb output_format "BMP" then SaveBMP
  else SavePNG.

(** *** The count of the summary *)

(** Whether the [try] block of item [i] reaches [successful += 1]: the
    progress is computed, the [id] is sliced and the generation raises
    nothing. *)
Definition item_succeeds {env : BatchEnv} (i : nat) (qr_data : QRCodeData)
    (total : Z) : bool :=
  match progress_percent i total, slice8 (id qr_data), work i qr_data with
  | Ok _, Ok _, None => true
  | _, _, _ => false
  end.

(** The items that succeed, counted from index [i]. *)
Fixpoint count_successes {env : BatchEnv} (items : list QRCodeData)
    (i : nat) (total : Z) : Z :=
  match items with
  | [] => 0
  | qr_data :: rest =>
      (if item_succeeds i qr_data total then 1 else 0)
      + count_successes rest (S i) total
  end.


End QREngine.

(* ------------------------------------------------------------------ *)
(** ** gui/batch_processor.py *)

Module BatchProcessor.

(** [_get_color_code]: [color_map.get(color_name, "#000000")]. *)
Definition get_color_code (color_name : string) (is_background : bool)
  : string :=
  if String.eqb color_name "黑色" then "#000000"
  else if String.eqb color_name "蓝色" then "#0000FF"
  else if String.eqb color_name "绿色" then "#00FF00"
  else if String.eqb color_name "红色" then "#FF0000"
  else if String.eqb color_name "紫色" then "#800080"
  else if String.eqb color_name "白色" then "#FFFFFF"
  else if String.eqb color_name "浅灰" then "#F0F0F0"
  else if String.eqb color_name "浅蓝" then "#E6F3FF"
  else if String.eqb color_name "浅绿" then "#E6FFE6"
  else if String.eqb color_name "透明"
       then (if is_background then "#FFFFFF" else "#000000")
  else "#000000".

End BatchProcessor.


(* ------------------------------------------------------------------ *)
(** ** The claims' own formulas, to compare the code with *)

Module Claimed.

(** Follows the spec's words: the product of the size factor
    [min(area / 10000, 1)] and the corner-count factor
    [min(points / 4, 1)]. *)
Definition claimed_confidence (area points : Z) : result float :=
  sf <- PyFloat.int_truediv area 10000 ;;
  pf <- PyFloat.int_truediv points 4 ;;
  Ok (PyFloat.min sf 1.0 * PyFloat.min pf 1.0)%float.

(** Follows the spec's words: the distance from the matrix center
    divided by the matrix's diagonal half-length. *)
Definition claimed_radial_ratio {rt : PyRuntime} (n x y : Z)
  : result float :=
  distance <- int_pow_half ((x - n / 2) ^ 2 + (y - n / 2) ^ 2) ;;
  diagonal <- int_pow_half (n ^ 2 * 2) ;;
  Ok (distance / (diagonal / 2))%float.





End Claimed.

(* ------------------------------------------------------------------ *)
(** ** A runtime to run the models on concrete inputs *)

Module Example.

Definition hex_value (c : ascii) : option Z :=
  let n := Z.of_N (N_of_ascii c) in
  if byte_in c 48 57 then Some (n - 48)
  else if byte_in c 65 70 then Some (n - 55)
  else if byte_in c 97 102 then Some (n - 87)
  else None.

(** [int(s, 16)] on strings of hexadecimal digits. *)
Fixpoint hex_digits (l : list ascii) (acc : Z) : option Z :=
  match l with
  | [] => Some acc
  | c :: rest =>
      match hex_value c with
      | Some d => hex_digits rest (16 * acc + d)
      | None => None
      end
  end.

Definition hex_string (s : string) : option Z :=
  match list_ascii_of_string s with
  | [] => None
  | l => hex_digits l 0
  end.

(** The named colours and [#rrggbb] strings the examples use. *)
Definition getrgb (v : value) : option (Z * Z * Z) :=
  match v with
  | VStr "#FFFFFF" => Some (255, 255, 255)
  | VStr "#000000" => Some (0, 0, 0)
  | _ => None
  end.

(** C's [pow(x, 0.5)] as glibc computes it on the whole numbers up to
    [2 * 177 ^ 2], the largest a QR matrix gives: the correctly rounded
    square root, except at the 55 numbers of this table. *)
Definition pow_half_table : list (Z * float) :=
  [(2921, 54.046276467486635%float); (3541, 59.506302187247364%float);
   (5579, 74.69270379361025%float); (7827, 88.47033401089881%float);
   (8414, 91.72785836374902%float); (8415, 91.73330910852394%float);
   (11271, 106.16496597277276%float); (11684, 108.09255293497327%float);
   (12855, 113.37989239719714%float); (13614, 116.67904696216883%float);
   (13823, 117.57125499032492%float); (14170, 119.03780911962383%float);
   (14317, 119.65366688906781%float); (16049, 126.68464784653268%float);
   (17745, 133.21035995747476%float); (19125, 138.29316685939332%float);
   (20481, 143.1118443735528%float); (22316, 149.3854075872205%float);
   (22810, 151.02979838429238%float); (23653, 153.79531852432962%float);
   (23965, 154.80633061990716%float); (24143, 155.3801789161024%float);
   (24405, 156.22099730830038%float); (29203, 170.8888527669374%float);
   (30949, 175.92327873252023%float); (31237, 176.73992191918612%float);
   (31308, 176.94066802179762%float); (31626, 177.83700402334716%float);
   (33258, 182.3677603086686%float); (33289, 182.4527336051724%float);
   (33635, 183.3984732760881%float); (33656, 183.45571672749804%float);
   (33660, 183.46661821704788%float); (34085, 184.62123388169627%float);
   (37525, 193.71370627810518%float); (45077, 212.31344752511555%float);
   (45162, 212.51352898109806%float); (45541, 213.40337391897063%float);
   (46603, 215.87727995321785%float); (46617, 215.90970334841367%float);
   (46736, 216.18510586994654%float); (48697, 220.67396765364057%float);
   (48765, 220.8279873566754%float); (49509, 222.5061796894639%float);
   (50569, 224.8755211222422%float); (50666, 225.09109267138936%float);
   (54054, 232.49516123997077%float); (54456, 233.35809392433765%float);
   (55238, 235.02765794688932%float); (55292, 235.14250998064983%float);
   (57311, 239.3971595487298%float); (57386, 239.553751796961%float);
   (60462, 245.89021940695403%float); (60638, 246.24784263014365%float);
   (61106, 247.19627828913607%float)].

(** [pow(x, y)] for [y = 0.5], the one power the sources take. *)
Definition pow_half (x y : float) : float :=
  match find (fun p => (PyFloat.of_int (fst p) =? x)%float) pow_half_table
  with
  | Some p => snd p
  | None => sqrt x
  end.

(** A JSON reader and writer for the empty list of tags only. *)
#[export] Instance runtime : PyRuntime := {|
  now_isoformat := "2026-01-10T12:00:00";
  generate_id := fun _ => "0a1b2c3d";
  json_loads := fun s => if String.eqb s "[]" then Some (VList []) else None;
  json_dumps := fun _ => "[]";
  float_of_str := fun _ => None;
  int_base16 := hex_string;
  pil_getrgb := getrgb;
  c_pow := pow_half
|}.

(** The engine's conversions, for the numbers and texts of the examples
    only: a whole REAL below 10^15 in size is written with one decimal
    ("60.0"), and a text of decimal digits, with or without a minus
    sign, spells an integer (a REAL when it does not fit 64 bits).  The
    other reals and the other spellings of a number (a plus sign, spaces,
    a fraction, an exponent) are not covered. *)
Definition whole_real_text (f : float) : string :=
  match PyFloat.int_of_float f with
  | Ok z =>
      if (PyFloat.of_int z =? f)%float && (Z.abs z <? 10 ^ 15)
      then Sqlite.text_of_int z ++ ".0" else ""
  | Raise _ => ""
  end.

Definition digits_number (s : string) : option PyFloat.num :=
  match NilZero.int_of_string s with
  | Some d =>
      let z := Z.of_int d in
      Some (if (- 2 ^ 63 <=? z) && (z <? 2 ^ 63) then PyFloat.NInt z
            else PyFloat.NFloat (PyFloat.of_int z))
  | None => None
  end.

Definition num_text : Sqlite.NumText := {|
  Sqlite.text_of_real := whole_real_text;
  Sqlite.number_of_text := digits_number
|}.

(** An engine that never fails, one whose first call (the connection)
    fails, and empty aggregates. *)
Definition engine_ok : Database.Engine := {|
  Database.num_text := num_text;
  Database.faults := fun _ => false;
  Database.q_by_type := fun _ => [];
  Database.q_recent_7_days := fun _ => [];
  Database.q_avg_length := fun _ => None
|}.

Definition engine_no_connection : Database.Engine := {|
  Database.num_text := num_text;
  Database.faults := fun n => Nat.eqb n 0;
  Database.q_by_type := fun _ => [];
  Database.q_recent_7_days := fun _ => [];
  Database.q_avg_length := fun _ => None
|}.

(** The file [init_database] leaves: the 17 base columns and
    [logo_scale], no rows. *)
Definition fresh_db : Database.tables :=
  Database.mkTables (List.app Database.base_columns ["logo_scale"]) [] [].


Import Models.

(** A record as the interactive shell builds it. *)
Definition record (i payload note stamp : string) : QRCodeData :=
  {| id := VStr i;
     data := VStr payload;
     qr_type := URL;
     version := VInt 0;
     error_correction := VStr "H";
     size := VInt 10;
     border := VInt 4;
     foreground_color := VStr "#000000";
     background_color := VStr "#FFFFFF";
     logo_path := VNone;
     logo_scale := VFloat 0.2;
     gradient_start := VNone;
     gradient_end := VNone;
     gradient_type := VStr "linear";
     created_at := VStr stamp;
     tags := VList [];
     notes := VStr note;
     output_format := VStr "PNG" |}.

Definition saved (r : QRCodeData) (db : Database.tables) : Database.tables :=
  snd (Database.call (Database.save_qrcode (eng := engine_ok) r) db).

(** Three stored records with payloads "test-A", "test-B" and "other". *)
Definition three_records : Database.tables :=
  saved (record "0000000c" "other" "" "2026-01-10T12:00:03")
    (saved (record "0000000b" "test-B" "" "2026-01-10T12:00:02")
       (saved (record "0000000a" "test-A" "" "2026-01-10T12:00:01")
          fresh_db)).

(** A record with a logo whose scale is not a number. *)
Definition nan_logo_args : QRCodeData :=
  {| id := VStr "0000000f";
     data := VStr "https://example.com";
     qr_type := URL;
     version := VInt 0;
     error_correction := VStr "H";
     size := VInt 10;
     border := VInt 4;
     foreground_color := VStr "#000000";
     background_color := VStr "#FFFFFF";
     logo_path := VStr "logo.png";
     logo_scale := VFloat nan;
     gradient_start := VNone;
     gradient_end := VNone;
     gradient_type := VStr "linear";
     created_at := VStr "2026-01-10T12:00:06";
     tags := VList [];
     notes := VStr "";
     output_format := VStr "PNG" |}.

(** A dictionary whose logo scale is the int 1, and the record
    [from_dict] makes of it. *)
Definition dict_int_one : dict :=
  [("id", VStr "00000010"); ("data", VStr "https://example.com");
   ("logo_path", VStr "logo.png"); ("logo_scale", VInt 1)].

Definition record_int_one : QRCodeData :=
  {| id := VStr "00000010";
     data := VStr "https://example.com";
     qr_type := TEXT;
     version := VInt 0;
     error_correction := VStr "H";
     size := VInt 10;
     border := VInt 4;
     foreground_color := VStr "#000000";
     background_color := VStr "#FFFFFF";
     logo_path := VStr "logo.png";
     logo_scale := VFloat 0.05;
     gradient_start := VNone;
     gradient_end := VNone;
     gradient_type := VStr "linear";
     created_at := VStr "2026-01-10T12:00:00";
     tags := VList [];
     notes := VStr "";
     output_format := VStr "PNG" |}.

(** A stored row with a logo and the scale kept as the percentage 60:
    the row the table keeps of an INSERT whose last value is the integer
    60.  The column [logo_scale] is REAL and holds it as 60.0. *)
Definition row_percent_60 : Sqlite.row :=
  Database.store_row (nt := num_text)
    (List.app Database.base_columns ["logo_scale"])
    [VStr "00000011"; VStr "https://example.com"; VStr "URL"; VInt 0;
     VStr "H"; VInt 10; VInt 4; VStr "#000000"; VStr "#FFFFFF";
     VStr "logo.png"; VNone; VNone; VStr "linear";
     VStr "2026-01-10T12:00:07"; VStr "[]"; VStr ""; VStr "PNG"; VInt 60].

(** The row of [INSERT INTO qrcodes (id, data, qr_type) VALUES
    ("test123", "数据", "TEXT")]: the other base columns are NULL and
    [logo_scale] has its default. *)
Definition row_three_columns : Sqlite.row :=
  [VStr "test123"; VStr "数据"; VStr "TEXT"; VNone; VNone; VNone; VNone;
   VNone; VNone; VNone; VNone; VNone; VNone; VNone; VNone; VNone; VNone;
   VFloat 0.2].

(** Five items, and a stop that arrives while the second is generated. *)
Definition five_items : list QRCodeData :=
  [record "00000001" "item-1" "" "2026-01-10T12:00:01";
   record "00000002" "item-2" "" "2026-01-10T12:00:02";
   record "00000003" "item-3" "" "2026-01-10T12:00:03";
   record "00000004" "item-4" "" "2026-01-10T12:00:04";
   record "00000005" "item-5" "" "2026-01-10T12:00:05"].

Definition stop_during_second : QREngine.BatchEnv := {|
  QREngine.work := fun _ _ => None;
  QREngine.stops := fun i => Nat.eqb i 1
|}.

Definition started : QREngine.engine := QREngine.mkEngine true [] 0.

(** A record with a gradient from black to white. *)
Definition gradient_record (kind : string) : QRCodeData :=
  {| id := VStr "0000000e";
     data := VStr "https://example.com";
     qr_type := URL;
     version := VInt 0;
     error_correction := VStr "H";
     size := VInt 10;
     border := VInt 4;
     foreground_color := VStr "#000000";
     background_color := VStr "#FFFFFF";
     logo_path := VNone;
     logo_scale := VFloat 0.2;
     gradient_start := VStr "#000000";
     gradient_end := VStr "#FFFFFF";
     gradient_type := VStr kind;
     created_at := VStr "2026-01-10T12:00:05";
     tags := VList [];
     notes := VStr "";
     output_format := VStr "PNG" |}.

Definition matrix2 : list (list bool) := [[true; false]; [false; true]].

(** A matrix of the size of a version-1 code without border, 21 by 21,
    with every module on, so that every position is drawn. *)
Definition matrix21 : list (list bool) := repeat (repeat true 21%nat) 21%nat.

(** The image of [matrix2] with the linear gradient. *)
Definition linear_image : QREngine.image :=
  QREngine.mkImage 20 20 (255, 255, 255)
    [QREngine.mkRectangle 0 0 10 10 (0, 0, 0);
     QREngine.mkRectangle 10 10 20 20 (127, 127, 127)].

(** An engine whose call number [k] (from 0, the connection) fails. *)
Definition engine_failing_at (k : nat) : Database.Engine := {|
  Database.num_text := num_text;
  Database.faults := fun n => Nat.eqb n k;
  Database.q_by_type := fun _ => [];
  Database.q_recent_7_days := fun _ => [];
  Database.q_avg_length := fun _ => None
|}.

(** Constructor arguments with a logo and a scale above the bound. *)
Definition logo_args : QRCodeData :=
  {| id := VStr "00000012";
     data := VStr "https://example.com";
     qr_type := URL;
     version := VInt 0;
     error_correction := VStr "H";
     size := VInt 10;
     border := VInt 4;
     foreground_color := VStr "#000000";
     background_color := VStr "#FFFFFF";
     logo_path := VStr "logo.png";
     logo_scale := VFloat 0.8;
     gradient_start := VNone;
     gradient_end := VNone;
     gradient_type := VStr "linear";
     created_at := VStr "2026-01-10T12:00:08";
     tags := VList [];
     notes := VStr "";
     output_format := VStr "PNG" |}.

(** A row of the first schema (17 columns, no [logo_scale]) and a file
    that holds it. *)
Definition row_first_schema : Sqlite.row :=
  [VStr "00000013"; VStr "https://example.com"; VStr "URL"; VInt 0;
   VStr "H"; VInt 10; VInt 4; VStr "#000000"; VStr "#FFFFFF";
   VNone; VNone; VNone; VStr "linear";
   VStr "2026-01-10T12:00:09"; VStr "[]"; VStr ""; VStr "PNG"].

Definition first_schema_db : Database.tables :=
  Database.mkTables Database.base_columns [row_first_schema] [].

(** A row whose tags cell is not JSON. *)
Definition row_bad_tags : Sqlite.row :=
  [VStr "00000014"; VStr "https://example.com"; VStr "URL"; VInt 0;
   VStr "H"; VInt 10; VInt 4; VStr "#000000"; VStr "#FFFFFF";
   VStr "logo.png"; VNone; VNone; VStr "linear";
   VStr "2026-01-10T12:00:10"; VStr "a,b"; VStr ""; VStr "PNG";
   VFloat 0.4].

(** An item whose [id] is an int, which cannot be sliced. *)
Definition item_int_id : QRCodeData :=
  {| id := VInt 7;
     data := VStr "item-7";
     qr_type := URL;
     version := VInt 0;
     error_correction := VStr "H";
     size := VInt 10;
     border := VInt 4;
     foreground_color := VStr "#000000";
     background_color := VStr "#FFFFFF";
     logo_path := VNone;
     logo_scale := VFloat 0.2;
     gradient_start := VNone;
     gradient_end := VNone;
     gradient_type := VStr "linear";
     created_at := VStr "2026-01-10T12:00:11";
     tags := VList [];
     notes := VStr "";
     output_format := VStr "PNG" |}.

(** A run nobody stops, in which the second item fails. *)
Definition never_stopped : QREngine.BatchEnv := {|
  QREngine.work := fun i _ => if Nat.eqb i 1 then Some "disk full" else None;
  QREngine.stops := fun _ => false
|}.

(** A dictionary that names the type by its value, and one whose scale
    is the percentage 20.0. *)
Definition dict_wifi : dict :=
  [("data", VStr "net"); ("qr_type", VStr "WiFi")].

Definition dict_percent_20 : dict :=
  [("data", VStr "net"); ("logo_path", VStr "logo.png");
   ("logo_scale", VFloat 20)].

(** A hit of 100 by 100 pixels with its four corners. *)
Definition square_hit : Scanner.Decoded :=
  Scanner.mkDecoded (Some (Scanner.mkRect 0 0 100 100))
    (Some [(0, 0); (100, 0); (100, 100); (0, 100)]).


End Example.

(* ================================================================== *)
(** * Properties *)

Module FloatFacts.

Lemma Prim2SF_005 : Prim2SF 0.05 = S754_finite false 7205759403792794 (-57).
Proof. vm_compute. reflexivity. Qed.
Lemma Prim2SF_05 : Prim2SF 0.5 = S754_finite false 4503599627370496 (-53).
Proof. vm_compute. reflexivity. Qed.
Lemma Prim2SF_1 : Prim2SF 1 = S754_finite false 4503599627370496 (-52).
Proof. vm_compute. reflexivity. Qed.
Lemma Prim2SF_0 : Prim2SF 0 = S754_zero false.
Proof. vm_compute. reflexivity. Qed.

Ltac cmp_cases :=
  repeat (match goal with
          | |- context [Pos.compare ?a ?b] => rewrite (Pos2Z.inj_compare a b)
          | |- context [Z.compare ?a ?b] => destruct (Z.compare_spec a b)
          end; try (exfalso; lia)).

(** Comparisons of a float [f] with the constants 0, 0.05, 0.5 and 1,
    decided on the specification of the binary64 format. *)
Ltac float_cmp f :=
  unfold is_nan;
  rewrite ?leb_spec, ?ltb_spec, ?eqb_spec;
  rewrite ?Prim2SF_005, ?Prim2SF_05, ?Prim2SF_1, ?Prim2SF_0;
  let s := fresh "s" in
  let m := fresh "m" in
  let e := fresh "e" in
  destruct (Prim2SF f) as [s|s| |s m e];
  try destruct s;
  unfold SFleb, SFltb, SFeqb, SFcompare;
  rewrite ?Pos.compare_cont_spec; unfold Pos.switch_Eq;
  cmp_cases;
  intros; repeat split; try reflexivity; try discriminate.

Lemma in_range_facts (f : float) :
  (0.05 <=? f)%float = true -> (f <=? 0.5)%float = true ->
  (f <? 0.05)%float = false /\ (0.5 <? f)%float = false
  /\ (1 <? f)%float = false /\ (f =? 0)%float = false /\ is_nan f = false.
Proof. float_cmp f. Qed.

Lemma not_clamped_in_range (f : float) :
  is_nan f = false ->
  (f <? 0.05)%float = false -> (0.5 <? f)%float = false ->
  (0.05 <=? f)%float = true /\ (f <=? 0.5)%float = true.
Proof. float_cmp f. Qed.

(** Two floats that compare equal are the same float, unless they are
    the two zeros. *)
Lemma eqb_nonzero_eq (x y : float) :
  (x =? y)%float = true -> (y =? 0)%float = false -> x = y.
Proof.
  rewrite !eqb_spec, Prim2SF_0. intros H H0.
  apply Prim2SF_inj.
  destruct (Prim2SF x) as [s1|s1| |s1 m1 e1],
           (Prim2SF y) as [s2|s2| |s2 m2 e2];
    unfold SFeqb, SFcompare in H, H0; try discriminate;
    try (destruct s1, s2; try discriminate; reflexivity);
    try (destruct s1; discriminate); try (destruct s2; discriminate).
  destruct s1, s2; try discriminate;
      destruct (Z.compare_spec e1 e2); try discriminate; subst;
      rewrite Pos.compare_cont_spec in H; unfold Pos.switch_Eq in H;
      destruct (Pos.compare_spec m1 m2); try discriminate; subst;
      reflexivity.
Qed.

End FloatFacts.

Module ModelsFacts.
Import Models FloatFacts.

Lemma bind_ok {A B : Type} (c : result A) (k : A -> result B) (b : B) :
  bind c k = Ok b -> exists a, c = Ok a /\ k a = Ok b.
Proof. destruct c as [a|e]; simpl; intros H; [eauto | discriminate]. Qed.

Ltac red_record :=
  cbv [id data qr_type version error_correction size border
       foreground_color background_color logo_path logo_scale
       gradient_start gradient_end gradient_type created_at tags notes
       output_format set_created_at set_tags set_logo_scale
       bind lt_lit gt_lit].

Section WithRuntime.
Context {rt : PyRuntime}.

(** The scale [__post_init__] leaves, given the scale and the logo path
    it was handed. *)
Lemma post_init_fields (r r' : QRCodeData) :
  post_init r = Ok r' ->
  id r' = id r /\ data r' = data r /\ qr_type r' = qr_type r
  /\ version r' = version r /\ error_correction r' = error_correction r
  /\ size r' = size r /\ border r' = border r
  /\ foreground_color r' = foreground_color r
  /\ background_color r' = background_color r
  /\ logo_path r' = logo_path r
  /\ gradient_start r' = gradient_start r
  /\ gradient_end r' = gradient_end r
  /\ gradient_type r' = gradient_type r
  /\ notes r' = notes r /\ output_format r' = output_format r
  /\ created_at r' =
       (if eq_str (created_at r) "" then VStr now_isoformat
        else created_at r)
  /\ tags r' = (if is_none (tags r) then VList [] else tags r)
  /\ exists n below,
       as_num (logo_scale r) = Some n
       /\ below = PyFloat.num_lt n (PyFloat.NFloat 0.05)
       /\ logo_scale r' =
            if negb (truthy (logo_path r)) then VFloat 0.2
            else if below then VFloat 0.05
            else if PyFloat.num_gt n (PyFloat.NFloat 0.5) then VFloat 0.5
            else logo_scale r.
Proof.
  destruct r as [i d t v ec sz b fg bg lp ls gs ge gt ca tg nt ofmt].
  unfold post_init.
  red_record. destruct (eq_str ca "");
    red_record; destruct (is_none tg);
    red_record; (destruct (as_num ls) as [n|]; [|discriminate]);
    red_record;
    destruct (PyFloat.num_lt n (PyFloat.NFloat 0.05)) eqn:Eb;
    red_record;
    try (destruct (PyFloat.num_gt n (PyFloat.NFloat 0.5)) eqn:Ea;
         red_record);
    destruct (truthy lp) eqn:Et; cbv [negb];
    intros H; injection H as <-; red_record;
    repeat (match goal with |- _ /\ _ => split; [reflexivity|] end);
    exists n; eexists; (split; [reflexivity|]); (split; [reflexivity|]);
    rewrite ?Eb, ?Ea; reflexivity.
Qed.

Lemma post_init_no_logo (r r' : QRCodeData) :
  post_init r = Ok r' ->
  truthy (logo_path r) = false ->
  logo_scale r' = VFloat 0.2.
Proof.
  intros H Hp. apply post_init_fields in H.
  destruct H as (_&_&_&_&_&_&_&_&_&_&_&_&_&_&_&_&_& n & b & _ & _ & Hs).
  rewrite Hs, Hp. reflexivity.
Qed.

Lemma int_cmp_005 (z : Z) :
  PyFloat.int_cmp_float z 0.05
  = Some (z * 144115188075855872 ?= 7205759403792794).
Proof.
  unfold PyFloat.int_cmp_float. rewrite Prim2SF_005. reflexivity.
Qed.

Lemma int_cmp_05 (z : Z) :
  PyFloat.int_cmp_float z 0.5
  = Some (z * 9007199254740992 ?= 4503599627370496).
Proof.
  unfold PyFloat.int_cmp_float. rewrite Prim2SF_05. reflexivity.
Qed.

(** An int is never strictly between the two bounds: it is clamped. *)
Lemma int_scale_clamped (z : Z) :
  PyFloat.num_lt (PyFloat.NInt z) (PyFloat.NFloat 0.05) = false ->
  PyFloat.num_gt (PyFloat.NInt z) (PyFloat.NFloat 0.5) = true.
Proof.
  unfold PyFloat.num_gt, PyFloat.num_lt.
  rewrite int_cmp_005, int_cmp_05.
  destruct (Z.compare_spec (z * 144115188075855872) 7205759403792794);
    destruct (Z.compare_spec (z * 9007199254740992) 4503599627370496);
    try reflexivity; try discriminate; intros _; exfalso; lia.
Qed.

(** The clamp holds for every input that is not NaN. *)
Lemma post_init_scale_in_range (r r' : QRCodeData) :
  post_init r = Ok r' ->
  (forall f, logo_scale r = VFloat f -> is_nan f = false) ->
  exists f, logo_scale r' = VFloat f
            /\ (0.05 <=? f)%float = true /\ (f <=? 0.5)%float = true.
Proof.
  intros H Hnan. apply post_init_fields in H.
  destruct H as (_&_&_&_&_&_&_&_&_&_&_&_&_&_&_&_&_& n & b & Hn & Hb & Hs).
  rewrite Hs.
  destruct (negb (truthy (logo_path r))).
  { eexists; split; [reflexivity|]. split; reflexivity. }
  destruct b.
  { eexists; split; [reflexivity|]. split; reflexivity. }
  destruct (PyFloat.num_gt n (PyFloat.NFloat 0.5)) eqn:Ea.
  { eexists; split; [reflexivity|]. split; reflexivity. }
  symmetry in Hb.
  destruct (logo_scale r) as [|bb|z|f|s|l|t|o]; try discriminate;
    cbn in Hn; injection Hn as <-.
  - rewrite (int_scale_clamped _ Hb) in Ea. discriminate.
  - rewrite (int_scale_clamped _ Hb) in Ea. discriminate.
  - exists f. split; [reflexivity|].
    apply not_clamped_in_range; auto.
Qed.

Lemma try_except_all_ok {A : Type} (c : result A) (h : exn -> result A)
    (a : A) :
  (forall e, h e <> Ok a) -> try_except_all c h = Ok a -> c = Ok a.
Proof.
  destruct c as [x|e]; cbn; intros Hh H; [assumption|].
  exfalso. exact (Hh e H).
Qed.

(** C10: when the dictionary's logo scale is an int [z], [from_dict]
    hands the constructor [float(z) / 100.0] whatever the magnitude: 0
    becomes 0.0 and 1 becomes 0.01, so that with a logo path the int 1
    yields the scale 0.05. *)
Theorem from_dict_int_logo_scale (d : dict) (z : Z) (r : QRCodeData) :
  dict_get d "logo_scale" = Some (VInt z) ->
  from_dict d = Ok r ->
  let f := (PyFloat.of_int z / 100)%float in
  from_dict_logo_scale d = Ok (VFloat f)
  /\ logo_scale r =
       VFloat (if truthy (dict_get_default d "logo_path" VNone)
               then clamp_scale f else 0.2%float)
  /\ (z = 0 -> f = 0%float)
  /\ (z = 1 -> f = 0.01%float
                /\ (truthy (dict_get_default d "logo_path" VNone) = true ->
                    logo_scale r = VFloat 0.05)).
Proof.
  intros Hget H f.
  unfold from_dict in H.
  apply try_except_all_ok in H; [|discriminate].
  apply bind_ok in H. destruct H as (t & _ & H).
  apply bind_ok in H. destruct H as (tg & _ & H).
  apply bind_ok in H. destruct H as (ls & Hls & H).
  unfold from_dict_logo_scale, dict_get_default in Hls.
  rewrite Hget in Hls. cbn [is_none] in Hls.
  apply bind_ok in Hls. destruct Hls as (f0 & Hf0 & Hls).
  unfold PyFloat.float_of_int in Hf0.
  destruct (is_infinity (PyFloat.of_int z)) eqn:Einf; [discriminate|].
  injection Hf0 as <-. injection Hls as <-.
  assert (Hscale : logo_scale r =
            VFloat (if truthy (dict_get_default d "logo_path" VNone)
                    then clamp_scale f else 0.2%float)).
  { unfold QRCodeData_new in H. apply post_init_fields in H.
    destruct H as (_&_&_&_&_&_&_&_&_&_&_&_&_&_&_&_&_& n & b & Hn & Hb & Hs).
    cbn in Hn. injection Hn as <-. subst b.
    rewrite Hs. cbn [logo_path logo_scale].
    unfold clamp_scale, PyFloat.num_gt, PyFloat.num_lt. fold f.
    destruct (truthy (dict_get_default d "logo_path" VNone)); cbn [negb];
      [|reflexivity].
    destruct (f <? 0.05)%float; [reflexivity|].
    destruct (0.5 <? f)%float; reflexivity. }
  split.
  { unfold from_dict_logo_scale, dict_get_default. rewrite Hget.
    cbn [is_none]. unfold PyFloat.float_of_int. rewrite Einf.
    reflexivity. }
  split; [exact Hscale|].
  split.
  { intros ->. reflexivity. }
  intros ->. split; [reflexivity|].
  intros Hp. rewrite Hscale, Hp. reflexivity.
Qed.

End WithRuntime.
End ModelsFacts.

Module DecodeFacts.
Import Models Sqlite Database FloatFacts ModelsFacts.

(** A row of at least [n] columns, column by column. *)
Ltac row_columns r H :=
  repeat (let c := fresh "c" in
          destruct r as [|c r]; [cbn in H; try discriminate; try lia|]).

Section WithRuntime.
Context {rt : PyRuntime}.

Lemma decode_tags_ok (cell : value) :
  tags_cell_ok cell -> exists t, decode_tags cell = Ok t.
Proof.
  intros [->|[s ->]]; unfold decode_tags.
  - eexists; reflexivity.
  - destruct (truthy (VStr s)); [|eexists; reflexivity].
    cbn. destruct (json_loads s); eexists; reflexivity.
Qed.

Lemma post_init_float_ok (a : QRCodeData) (f : float) :
  logo_scale a = VFloat f -> exists d, post_init a = Ok d.
Proof.
  intros Hf. unfold post_init.
  set (a1 := if eq_str (created_at a) "" then _ else a).
  set (a2 := if is_none (tags a1) then _ else a1).
  assert (H2 : logo_scale a2 = VFloat f).
  { subst a2 a1.
    destruct a as [i d0 t v ec sz b fg bg lp ls0 gs ge gt ca tg0 nt ofmt].
    cbn in *.
    destruct (eq_str ca ""); cbn; destruct (is_none tg0); cbn; exact Hf. }
  unfold lt_lit, gt_lit. rewrite H2. cbn [as_num bind].
  destruct (PyFloat.num_lt _ _); cbn [bind]; [eexists; reflexivity|].
  destruct (PyFloat.num_gt _ _); eexists; reflexivity.
Qed.

(** A row of the 16 columns of the first schema or more, whose tags
    decode and whose logo scale decodes, yields a record: the one the
    constructor makes of [row_fields]. *)
Lemma row_to_qrcode_data_ok (r : row) (tg : value) (ls : float) :
  (16 <= List.length r)%nat ->
  decode_tags (nth 14 r VNone) = Ok tg ->
  decode_logo_scale r = Ok ls ->
  exists d, post_init (row_fields r tg ls) = Ok d
            /\ row_to_qrcode_data r = Ok (Some d).
Proof.
  intros Hlen Htg Hls.
  destruct (post_init_float_ok (row_fields r tg ls) ls eq_refl) as [d Hd].
  exists d. split; [exact Hd|].
  unfold row_to_qrcode_data. rewrite Hls. clear Hls.
  revert Hd Htg. unfold row_fields.
  do 16 (let c := fresh "c" in
         destruct r as [|c r]; [cbn in Hlen; lia|]).
  cbn [nth row_get nth_error bind]. intros Hd ->. cbn [bind].
  unfold decode_output_format, QRCodeData_new.
  destruct r as [|c16 r]; cbn [List.length Nat.ltb Nat.leb row_get nth_error bind nth] in *.
  - change (if_truthy VNone (VStr "PNG")) with (VStr "PNG") in Hd.
    rewrite Hd. reflexivity.
  - rewrite Hd. reflexivity.
Qed.

(** C7: a row whose logo-scale column holds 60 and whose logo path is
    set decodes the scale to 0.6 and yields a record whose scale is 0.5.
    The column is REAL, so the integer 60 stored in it is read back as
    the float 60.0; the same holds of a cell read back as the int 60. *)
Theorem stored_percentage_60_loads_as_half (r : row) :
  nth_error r 17 = Some (VFloat 60) \/ nth_error r 17 = Some (VInt 60) ->
  truthy (nth 9 r VNone) = true ->
  tags_cell_ok (nth 14 r VNone) ->
  decode_logo_scale r = Ok 0.6%float
  /\ exists d, row_to_qrcode_data r = Ok (Some d)
               /\ logo_scale d = VFloat 0.5
               /\ logo_path d = nth 9 r VNone.
Proof.
  intros H17 H9 H14.
  assert (Hlen17 : (17 < List.length r)%nat)
    by (apply nth_error_Some; destruct H17 as [H17 | H17]; rewrite H17;
        discriminate).
  assert (Hls : decode_logo_scale r = Ok 0.6%float).
  { destruct H17 as [H17 | H17];
      do 18 (let c := fresh "c" in
             destruct r as [|c r]; [discriminate H17|]);
      cbn in H17; injection H17 as ->; reflexivity. }
  split; [exact Hls|].
  destruct (decode_tags_ok _ H14) as [tg Htg].
  assert (Hlen : (16 <= List.length r)%nat) by lia.
  destruct (row_to_qrcode_data_ok r tg _ Hlen Htg Hls) as (d & Hd & Hrow).
  exists d. split; [exact Hrow|].
  apply post_init_fields in Hd.
  destruct Hd as (_&_&_&_&_&_&_&_&_& Hlp &_&_&_&_&_&_&_& n & b & Hn & Hb & Hs).
  cbn in Hn. injection Hn as <-. subst b.
  cbn [row_fields logo_path logo_scale] in Hs, Hlp.
  unfold if_truthy in Hs, Hlp. rewrite H9 in Hs, Hlp.
  rewrite H9 in Hs. split; [exact Hs | exact Hlp].
Qed.

Lemma row_get_nth (r : row) (i : nat) :
  (i < List.length r)%nat -> row_get r i = Ok (nth i r VNone).
Proof.
  intros H. unfold row_get.
  rewrite (nth_error_nth' r VNone H). reflexivity.
Qed.

Lemma decode_logo_scale_real (r : row) :
  scale_cell_ok (nth 17 r VNone) ->
  exists ls, decode_logo_scale r = Ok ls.
Proof.
  intros H. unfold decode_logo_scale.
  destruct (Nat.ltb 17 (List.length r)) eqn:E; [|eexists; reflexivity].
  apply Nat.ltb_lt in E. rewrite (row_get_nth r 17 E). cbn [bind].
  destruct H as [-> | [f ->]].
  - eexists; reflexivity.
  - unfold if_truthy. destruct (truthy (VFloat f)); eexists; reflexivity.
Qed.

(** C6: a row of the 16 base columns or more whose [qr_type] is not a
    recognized value and whose optional columns are NULL or missing
    decodes, without raising, to a record with the fallback type TEXT
    and the defaults: error correction H, size 10, border 4, foreground
    #000000, background #FFFFFF, gradient type linear, output format
    PNG. *)
Theorem row_decode_defaults (r : row) (s : string) :
  (16 <= List.length r)%nat ->
  nth 2 r VNone = VStr s ->
  QRCodeType_of_string s = None ->
  (forall i, (3 <= i <= 16)%nat -> nth i r VNone = VNone) ->
  scale_cell_ok (nth 17 r VNone) ->
  exists d, row_to_qrcode_data r = Ok (Some d)
            /\ id d = nth 0 r VNone /\ data d = nth 1 r VNone
            /\ qr_type d = TEXT
            /\ version d = VInt 0
            /\ error_correction d = VStr "H"
            /\ size d = VInt 10
            /\ border d = VInt 4
            /\ foreground_color d = VStr "#000000"
            /\ background_color d = VStr "#FFFFFF"
            /\ gradient_type d = VStr "linear"
            /\ output_format d = VStr "PNG"
            /\ logo_path d = VNone /\ logo_scale d = VFloat 0.2
            /\ gradient_start d = VNone /\ gradient_end d = VNone
            /\ tags d = VList [] /\ notes d = VStr ""
            /\ created_at d = VStr now_isoformat.
Proof.
  intros Hlen H2 Hs Hnull Hscale.
  destruct (decode_logo_scale_real r Hscale) as [ls Hls].
  assert (Htg : decode_tags (nth 14 r VNone) = Ok (VList [])).
  { rewrite Hnull by lia. reflexivity. }
  destruct (row_to_qrcode_data_ok r _ ls Hlen Htg Hls) as (d & Hd & Hrow).
  exists d. split; [exact Hrow|].
  pose proof (post_init_no_logo _ _ Hd) as Hno.
  apply post_init_fields in Hd.
  destruct Hd as (Hid & Hdata & Hty & Hver & Hec & Hsz & Hb & Hfg & Hbg
                  & Hlp & Hgs & Hge & Hgt & Hnt & Hof & Hca & Htags & _).
  unfold row_fields in *.
  cbn [id data qr_type version error_correction size border
       foreground_color background_color logo_path logo_scale
       gradient_start gradient_end gradient_type created_at tags notes
       output_format] in *.
  rewrite !Hnull in * by lia. rewrite H2 in Hty.
  unfold decode_qr_type in Hty. rewrite Hs in Hty.
  repeat split; try assumption.
  apply Hno. reflexivity.
Qed.

End WithRuntime.
End DecodeFacts.

Module ValidateFacts.
Import Models FloatFacts ModelsFacts.

Ltac invert_checks :=
  repeat match goal with
         | H : bind ?c ?k = Ok _ |- _ =>
             apply bind_ok in H;
             let a := fresh "a" in
             let E := fresh "E" in
             destruct H as (a & E & H)
         | H : (if ?b then _ else _) = Ok _ |- _ =>
             let E := fresh "E" in
             destruct b eqn:E; try discriminate
         | H : Ok _ = Ok _ |- _ => injection H as H; try subst
         end.

(** What a record that passes [validate] satisfies. *)
Lemma validate_valid_inv (r : QRCodeData) :
  validate r = Ok Valid ->
  truthy (data r) = true
  /\ strip_is_empty (data r) = Ok false
  /\ out_of_range (size r) (PyFloat.NInt 1) (PyFloat.NInt 50) = Ok false
  /\ out_of_range (border r) (PyFloat.NInt 0) (PyFloat.NInt 10) = Ok false
  /\ out_of_range (version r) (PyFloat.NInt 0) (PyFloat.NInt 40) = Ok false
  /\ in_strs (error_correction r) ["L"; "M"; "Q"; "H"] = true
  /\ out_of_range (logo_scale r) (PyFloat.NFloat 0.05) (PyFloat.NFloat 0.5)
     = Ok false
  /\ is_valid_color_value (foreground_color r) = Ok true
  /\ is_valid_color_value (background_color r) = Ok true
  /\ (truthy (gradient_start r) = true ->
      is_valid_color_value (gradient_start r) = Ok true)
  /\ (truthy (gradient_end r) = true ->
      is_valid_color_value (gradient_end r) = Ok true)
  /\ truthy (gradient_start r) = truthy (gradient_end r)
  /\ in_strs (gradient_type r) ["linear"; "radial"] = true.
Proof.
  unfold validate, validate_colors. intros H.
  invert_checks;
    repeat match goal with
           | H : negb _ = false |- _ => apply negb_false_iff in H
           end;
    subst; repeat split; auto; discriminate.
Qed.

Lemma out_of_range_int (z lo hi : Z) :
  out_of_range (VInt z) (PyFloat.NInt lo) (PyFloat.NInt hi) = Ok false ->
  lo <= z <= hi.
Proof.
  unfold out_of_range, lt_lit, gt_lit, PyFloat.num_gt; cbn.
  destruct (Z.ltb_spec z lo); [discriminate|].
  destruct (Z.ltb_spec hi z); [discriminate|]. lia.
Qed.

Lemma out_of_range_float (f lo hi : float) :
  out_of_range (VFloat f) (PyFloat.NFloat lo) (PyFloat.NFloat hi)
  = Ok false ->
  (f <? lo)%float = false /\ (hi <? f)%float = false.
Proof.
  unfold out_of_range, lt_lit, gt_lit, PyFloat.num_gt; cbn.
  destruct (f <? lo)%float; [discriminate|].
  destruct (hi <? f)%float; [discriminate|]. auto.
Qed.

End ValidateFacts.

Module StoreFacts.
Import Models Sqlite Database FloatFacts ModelsFacts DecodeFacts ValidateFacts.

Section WithEngine.
Context {rt : PyRuntime} {eng : Engine}.
Hypothesis no_faults : forall n, faults n = false.

Lemma bind_params_valid (r : QRCodeData) :
  well_typed r -> validate r = Ok Valid ->
  bind_params (save_params r) = Ok (save_params r).
Proof.
  intros [[i Hi] [d Hd] [v Hv] [ec Hec] [sz Hsz] [b Hb] [fg Hfg] [bg Hbg]
           Hlp [f [Hf Hnan]] Hgs Hge [gt Hgt] [ca Hca] Hnt [ofmt Hof]] Hval.
  apply validate_valid_inv in Hval.
  destruct Hval as (_ & _ & Hsize & Hborder & Hversion & _).
  rewrite Hsz in Hsize. apply out_of_range_int in Hsize.
  rewrite Hb in Hborder. apply out_of_range_int in Hborder.
  rewrite Hv in Hversion. apply out_of_range_int in Hversion.
  unfold save_params.
  rewrite Hi, Hd, Hv, Hec, Hsz, Hb, Hfg, Hbg, Hf, Hgt, Hca, Hof.
  assert (Hopt : forall x, is_opt_str x -> bind_param x = Ok x)
    by (intros x [-> | [s ->]]; reflexivity).
  assert (Hint : forall z, 0 <= z <= 50 -> bind_param (VInt z) = Ok (VInt z)).
  { intros z Hz. unfold bind_param.
    destruct (Z.leb_spec (- 2 ^ 63) z); [|lia].
    destruct (Z.ltb_spec z (2 ^ 63)); [reflexivity|lia]. }
  cbn [bind_params].
  rewrite (Hopt _ Hlp), (Hopt _ Hgs), (Hopt _ Hge), (Hopt _ Hnt).
  rewrite !Hint by lia.
  cbn [bind_param bind]. rewrite Hnan. reflexivity.
Qed.

(** *** What the columns keep of a record's values *)

Lemma real_to_integer_not_none (f : float) :
  is_none (real_to_integer f) = false.
Proof.
  unfold real_to_integer.
  destruct (PyFloat.int_of_float f) as [z|e]; [|reflexivity].
  destruct (_ && _); reflexivity.
Qed.

(** Every affinity keeps NULL and makes no NULL. *)
Lemma is_none_affinity (a : affinity) (v : value) :
  is_none (apply_affinity a v) = is_none v.
Proof.
  assert (Hnum : is_none (to_numeric v) = is_none v).
  { destruct v as [|b|z|f|s|l|t|o]; try reflexivity.
    - apply real_to_integer_not_none.
    - cbn [to_numeric].
      destruct (number_of_text s) as [[z|f]|]; try reflexivity.
      apply real_to_integer_not_none. }
  destruct a; cbn [apply_affinity].
  - destruct v; reflexivity.
  - exact Hnum.
  - destruct (to_numeric v); try exact Hnum; rewrite <- Hnum; reflexivity.
  - reflexivity.
Qed.

(** A REAL column gives back the float it was given, unless it is a
    zero. *)
Lemma real_column_keeps (f : float) :
  (f =? 0)%float = false -> apply_affinity RealAff (VFloat f) = VFloat f.
Proof.
  intros H0. unfold apply_affinity, to_numeric, real_to_integer.
  destruct (PyFloat.int_of_float f) as [z|e]; [|reflexivity].
  destruct (PyFloat.of_int z =? f)%float eqn:E; [|reflexivity].
  destruct (_ <? z); [|reflexivity].
  destruct (z <? _); [|reflexivity].
  cbn [andb]. f_equal. apply eqb_nonzero_eq; assumption.
Qed.

(** The row of 18 values on the schema of [init_database]. *)
Lemma store_row_full (v0 v1 v2 v3 v4 v5 v6 v7 v8 v9 v10 v11 v12 v13 v14
    v15 v16 v17 : value) :
  store_row (base_columns ++ ["logo_scale"])%list
    [v0; v1; v2; v3; v4; v5; v6; v7; v8; v9; v10; v11; v12; v13; v14;
     v15; v16; v17]
  = [apply_affinity TextAff v0; apply_affinity TextAff v1;
     apply_affinity TextAff v2; apply_affinity IntegerAff v3;
     apply_affinity TextAff v4; apply_affinity IntegerAff v5;
     apply_affinity IntegerAff v6; apply_affinity TextAff v7;
     apply_affinity TextAff v8; apply_affinity TextAff v9;
     apply_affinity TextAff v10; apply_affinity TextAff v11;
     apply_affinity TextAff v12; apply_affinity TextAff v13;
     apply_affinity TextAff v14; apply_affinity TextAff v15;
     apply_affinity TextAff v16; apply_affinity RealAff v17].
Proof. reflexivity. Qed.

(** The values of a record of the annotated types that passes
    [validate] are kept as they are. *)
Lemma store_row_valid (r : QRCodeData) :
  well_typed r -> validate r = Ok Valid ->
  store_row (base_columns ++ ["logo_scale"])%list (save_params r)
  = save_params r.
Proof.
  intros [[i Hi] [d Hd] [v Hv] [ec Hec] [sz Hsz] [b Hb] [fg Hfg] [bg Hbg]
           Hlp [f [Hf Hnan]] Hgs Hge [gt Hgt] [ca Hca] Hnt [ofmt Hof]] Hval.
  apply validate_valid_inv in Hval.
  destruct Hval as (_ & _ & _ & _ & _ & _ & Hscale & _).
  rewrite Hf in Hscale. apply out_of_range_float in Hscale.
  destruct Hscale as [Hlo Hhi].
  destruct (not_clamped_in_range f Hnan Hlo Hhi) as [Hge' Hle'].
  destruct (in_range_facts f Hge' Hle') as (_ & _ & _ & H0 & _).
  unfold save_params. rewrite store_row_full.
  rewrite Hi, Hd, Hv, Hec, Hsz, Hb, Hfg, Hbg, Hf, Hgt, Hca, Hof.
  assert (Hopt : forall x, is_opt_str x -> apply_affinity TextAff x = x)
    by (intros x [-> | [s ->]]; reflexivity).
  rewrite (Hopt _ Hlp), (Hopt _ Hgs), (Hopt _ Hge), (Hopt _ Hnt).
  rewrite (real_column_keeps f H0). reflexivity.
Qed.

Lemma connect_ok (w : world) :
  sqlite3_connect w
  = (Ok tt, mkWorld (store w) (Some (store w)) (conn w) (S (calls w))).
Proof. unfold sqlite3_connect. rewrite no_faults. reflexivity. Qed.

Lemma engine_call_ok {A : Type} (act : tables -> result (A * tables))
    (w : world) (t : tables) :
  txn w = Some t ->
  engine_call act w
  = match act t with
    | Ok (a, t') =>
        (Ok a, mkWorld (store w) (Some t') (conn w) (S (calls w)))
    | Raise e =>
        (Raise e, mkWorld (store w) (txn w) (conn w) (S (calls w)))
    end.
Proof.
  intros H. unfold engine_call. rewrite no_faults, H. reflexivity.
Qed.

Lemma commit_ok (w : world) (t : tables) :
  txn w = Some t ->
  commit w = (Ok tt, mkWorld t (Some t) (conn w) (S (calls w))).
Proof. intros H. unfold commit. rewrite no_faults, H. reflexivity. Qed.

Ltac run_step :=
  first [ rewrite connect_ok
        | erewrite commit_ok by reflexivity
        | erewrite engine_call_ok by reflexivity
        | progress unfold call, try_finally, try_exceptM, close_if_conn,
            get_conn, close, set_conn, ret, lift, bindM
        | progress cbn [store txn conn calls conn_truthy fst snd bind
                        existsb exn_eqb orb] ].

Ltac run_method := repeat run_step.

Lemma save_qrcode_stores (db : tables) (r : QRCodeData) :
  full_schema db ->
  bind_params (save_params r) = Ok (save_params r) ->
  is_none (data r) = false ->
  call (save_qrcode r) db
  = (Ok true, upsert db (store_row (qr_columns db) (save_params r))).
Proof.
  intros Hsch Hbind Hdata.
  unfold save_qrcode, table_info, insert_or_replace_values.
  run_method.
  rewrite Hsch.
  change (existsb (String.eqb "logo_scale")
            (base_columns ++ ["logo_scale"])%list) with true.
  cbn iota. run_method.
  rewrite Hbind. cbn [bind]. rewrite Hsch.
  change (Nat.eqb (List.length (save_params r))
            (List.length (base_columns ++ ["logo_scale"])%list)) with true.
  cbn iota. unfold insert_or_replace_row. cbv zeta.
  cbn [qr_columns]. rewrite Hsch.
  change (nth 1 (store_row (base_columns ++ ["logo_scale"])%list
                   (save_params r)) VNone)
    with (apply_affinity TextAff (data r)).
  change (nth 2 (store_row (base_columns ++ ["logo_scale"])%list
                   (save_params r)) VNone)
    with (VStr (QRCodeType_value (qr_type r))).
  rewrite is_none_affinity, Hdata. cbn [is_none orb]. run_method.
  unfold upsert. rewrite Hsch. reflexivity.
Qed.

Lemma load_qrcode_found (db : tables) (qid p : value) (c : value)
    (cs : row) (d : option QRCodeData) :
  bind_param qid = Ok p ->
  find (has_id p) (qrcodes db) = Some (c :: cs) ->
  row_to_qrcode_data (c :: cs) = Ok d ->
  call (load_qrcode qid) db = (Ok d, db).
Proof.
  intros Hb Hfind Hdec.
  unfold load_qrcode, select_by_id.
  run_method. rewrite Hb. cbn [bind]. rewrite Hfind.
  run_method. rewrite Hdec. run_method. reflexivity.
Qed.

Lemma load_qrcode_absent (db : tables) (qid p : value) :
  bind_param qid = Ok p ->
  find (has_id p) (qrcodes db) = None ->
  call (load_qrcode qid) db = (Ok None, db).
Proof.
  intros Hb Hfind.
  unfold load_qrcode, select_by_id.
  run_method. rewrite Hb. cbn [bind]. rewrite Hfind.
  run_method. reflexivity.
Qed.

Lemma find_upsert (l : list row) (new : row) :
  sql_eq (row_id new) (row_id new) = true ->
  find (fun x => sql_eq (row_id x) (row_id new))
    (filter (fun x => negb (sql_eq (row_id x) (row_id new))) l ++ [new])
  = Some new.
Proof.
  intros Hnew. induction l as [|x l IH]; cbn.
  - rewrite Hnew. reflexivity.
  - destruct (sql_eq (row_id x) (row_id new)) eqn:E; cbn.
    + exact IH.
    + rewrite E. exact IH.
Qed.

Lemma sql_eq_str_refl (s : string) : sql_eq (VStr s) (VStr s) = true.
Proof. cbn. apply String.eqb_refl. Qed.

Lemma QRCodeType_roundtrip (t : QRCodeType) :
  QRCodeType_of_string (QRCodeType_value t) = Some t.
Proof. destruct t; reflexivity. Qed.

Lemma if_truthy_same_or_default (v dflt : value) :
  same_or_default v (if_truthy v dflt) dflt.
Proof.
  unfold same_or_default, if_truthy.
  destruct (truthy v); [left | right]; auto.
Qed.

Lemma in_strs_is_str (v : value) (l : list string) :
  in_strs v l = true -> exists s, v = VStr s.
Proof.
  unfold in_strs. intros H.
  destruct v as [|b|z|f|s|vs|t|o]; try (eexists; reflexivity);
    exfalso; induction l; cbn in H; try discriminate; auto.
Qed.

Lemma in_strs_truthy (v : value) (l : list string) :
  in_strs v l = true -> existsb (String.eqb "") l = false ->
  truthy v = true.
Proof.
  intros H Hl. destruct (in_strs_is_str v l H) as [s ->].
  destruct s as [|a s]; [|reflexivity].
  unfold in_strs in H. cbn [eq_str] in H.
  assert (E : existsb (eq_str (VStr "")) l = existsb (String.eqb "") l)
    by reflexivity.
  rewrite E, Hl in H. discriminate.
Qed.

Lemma valid_color_truthy (v : value) :
  is_valid_color_value v = Ok true -> truthy v = true.
Proof.
  destruct v as [|b|z|f|s|vs|t|o]; try discriminate.
  destruct s as [|a s]; [discriminate | reflexivity].
Qed.

(** The round trip of the records whose scale is a number: when the
    engine raises no error, saving a record of the annotated types that
    passes [validate] and loading it by its identifier returns a record
    equal to it in every field, except that an unset field comes back as
    its default ([None], "", "PNG", the current time, the empty tag list,
    and the scale 0.2 of a record without logo). *)
Theorem save_then_load_roundtrip (db : tables) (r : QRCodeData) :
  full_schema db ->
  well_typed r ->
  validate r = Ok Valid ->
  json_loads (json_dumps (tags r)) = Some (tags r) ->
  json_dumps (tags r) <> "" ->
  exists db' d,
    call (save_qrcode r) db = (Ok true, db')
    /\ call (load_qrcode (id r)) db' = (Ok (Some d), db')
    /\ id d = id r /\ data d = data r /\ qr_type d = qr_type r
    /\ version d = version r
    /\ error_correction d = error_correction r
    /\ size d = size r /\ border d = border r
    /\ foreground_color d = foreground_color r
    /\ background_color d = background_color r
    /\ gradient_type d = gradient_type r
    /\ same_or_default (logo_path r) (logo_path d) VNone
    /\ (logo_scale d = logo_scale r
        \/ (truthy (logo_path r) = false /\ logo_scale d = VFloat 0.2))
    /\ same_or_default (gradient_start r) (gradient_start d) VNone
    /\ same_or_default (gradient_end r) (gradient_end d) VNone
    /\ same_or_default (created_at r) (created_at d) (VStr now_isoformat)
    /\ (tags d = tags r \/ (tags r = VNone /\ tags d = VList []))
    /\ same_or_default (notes r) (notes d) (VStr "")
    /\ same_or_default (output_format r) (output_format d) (VStr "PNG").
Proof.
  intros Hsch Hwt Hval Hjson Hdump.
  pose proof (bind_params_valid r Hwt Hval) as Hbind.
  pose proof (validate_valid_inv r Hval) as
    (_ & _ & _ & _ & _ & Hec & Hscale & Hfg & Hbg & _ & _ & _ & Hgt).
  pose proof Hwt as Hwt'.
  destruct Hwt as [[i Hi] [dt Hd] [v Hv] _ [sz Hsz] [b Hb] _ _ _
                     [f [Hf Hnan]] _ _ _ [ca Hca] _ _].
  rewrite Hf in Hscale. apply out_of_range_float in Hscale.
  destruct Hscale as [Hlo Hhi].
  destruct (not_clamped_in_range f Hnan Hlo Hhi) as [Hge Hle].
  destruct (in_range_facts f Hge Hle) as (_ & _ & H1 & H0 & _).
  exists (upsert db (save_params r)).
  pose proof (store_row_valid r Hwt' Hval) as Hkept.
  assert (Hdec : decode_logo_scale (save_params r) = Ok f).
  { unfold decode_logo_scale, save_params. cbn [List.length Nat.ltb Nat.leb].
    cbn [row_get nth_error bind]. rewrite Hf.
    unfold if_truthy. cbn [truthy]. rewrite H0. cbn [negb].
    unfold percent_to_fraction. rewrite H1. reflexivity. }
  assert (Htags : decode_tags (nth 14 (save_params r) VNone) = Ok (tags r)).
  { cbn [nth save_params]. unfold decode_tags. cbn [truthy].
    destruct (String.eqb_spec (json_dumps (tags r)) ""); [contradiction|].
    cbn [negb json_loads_value]. rewrite Hjson. reflexivity. }
  destruct (row_to_qrcode_data_ok (save_params r) (tags r) f
              ltac:(cbn; lia) Htags Hdec) as (d & Hpost & Hrow).
  exists d.
  split.
  { rewrite (save_qrcode_stores db r Hsch Hbind)
      by (rewrite Hd; reflexivity).
    rewrite Hsch, Hkept. reflexivity. }
  split.
  { eapply load_qrcode_found.
    - rewrite Hi. reflexivity.
    - cbn [qrcodes upsert].
      assert (Hid : row_id (save_params r) = VStr i)
        by (cbn [row_id nth save_params]; exact Hi).
      change (has_id (VStr i)) with (fun x => sql_eq (row_id x) (VStr i)).
      rewrite <- Hid.
      apply find_upsert. cbn [row_id nth save_params]. rewrite Hi.
      apply sql_eq_str_refl.
    - exact Hrow. }
  apply post_init_fields in Hpost.
  destruct Hpost as (Pid & Pdata & Pty & Pver & Pec & Psz & Pb & Pfg & Pbg
                     & Plp & Pgs & Pge & Pgt & Pnt & Pof & Pca & Ptags
                     & n & bl & Hn & Hbl & Pscale).
  cbn [row_fields save_params nth id data qr_type version error_correction
       size border foreground_color background_color logo_path logo_scale
       gradient_start gradient_end gradient_type created_at tags notes
       output_format] in *.
  injection Hn as <-. subst bl.
  unfold PyFloat.num_gt, PyFloat.num_lt in Pscale.
  rewrite Hlo, Hhi in Pscale.
  unfold decode_qr_type in Pty. rewrite QRCodeType_roundtrip in Pty.
  unfold if_truthy in Pec, Pfg, Pbg, Pgt.
  rewrite (in_strs_truthy _ _ Hec eq_refl) in Pec.
  rewrite (in_strs_truthy _ _ Hgt eq_refl) in Pgt.
  rewrite (valid_color_truthy _ Hfg) in Pfg.
  rewrite (valid_color_truthy _ Hbg) in Pbg.
  rewrite Hv in Pver. rewrite Hsz in Psz. rewrite Hb in Pb.
  cbn [if_not_none is_none] in Pver, Psz, Pb.
  rewrite <- Hv in Pver. rewrite <- Hsz in Psz. rewrite <- Hb in Pb.
  repeat (split; [assumption|]).
  split. { rewrite Plp. apply if_truthy_same_or_default. }
  split.
  { rewrite Pscale. unfold if_truthy.
    destruct (truthy (logo_path r)) eqn:E; cbn [truthy negb].
    - rewrite E. left. cbn [negb]. symmetry. exact Hf.
    - right. split; reflexivity. }
  split. { rewrite Pgs. apply if_truthy_same_or_default. }
  split. { rewrite Pge. apply if_truthy_same_or_default. }
  split.
  { rewrite Pca, Hca. unfold same_or_default, if_truthy.
    destruct ca as [|a ca]; [right | left]; split; reflexivity. }
  split.
  { rewrite Ptags. destruct (tags r); cbn [is_none]; auto. }
  split. { rewrite Pnt. apply if_truthy_same_or_default. }
  rewrite Pof. apply if_truthy_same_or_default.
Qed.

End WithEngine.
End StoreFacts.

Module ScannerFacts.
Import Scanner Claimed.

(** A polygon of fewer than four points changes nothing: the
    corner-count factor is computed only under [len(polygon) >= 4]. *)
Lemma short_polygon_is_ignored (r : option Rect) (pts : list (Z * Z)) :
  (List.length pts < 4)%nat ->
  calculate_confidence (mkDecoded r (Some pts))
  = calculate_confidence (mkDecoded r None).
Proof.
  intros H. unfold calculate_confidence. cbn [rect polygon].
  destruct (Z.leb_spec 4 (Z.of_nat (List.length pts))); [lia|].
  reflexivity.
Qed.

(** C8 (the code at the failing input): a 100x100 box with 3 polygon
    points has confidence 1.0, that of the box alone, and not the
    product 0.75 of the size factor 1 and the corner-count factor 3/4. *)
Theorem confidence_not_scaled_below_four_points :
  let hit := mkDecoded (Some (mkRect 0 0 100 100))
               (Some [(0, 0); (100, 0); (100, 100)]) in
  calculate_confidence hit = Ok 1.0%float
  /\ calculate_confidence (mkDecoded (rect hit) None) = Ok 1.0%float
  /\ claimed_confidence (100 * 100) 3 = Ok 0.75%float
  /\ calculate_confidence hit <> claimed_confidence (100 * 100) 3.
Proof.
  cbv zeta. split; [vm_compute; reflexivity|].
  split; [vm_compute; reflexivity|].
  split; [vm_compute; reflexivity|].
  vm_compute. intros H. discriminate H.
Qed.

(** From four points on the code computes the product, rounded: for a
    hit whose bounding box has positive width and height and whose
    polygon has at least 4 points, the confidence is
    [1.0 * min(area/10000, 1) * min(points/4, 1)] rounded to two
    decimals. *)
Theorem confidence_rounded_product (l t w h : Z) (pts : list (Z * Z))
    (sf pf : float) :
  0 < w -> 0 < h -> (4 <= List.length pts)%nat ->
  PyFloat.int_truediv (w * h) 10000 = Ok sf ->
  PyFloat.int_truediv (Z.of_nat (List.length pts)) 4 = Ok pf ->
  calculate_confidence (mkDecoded (Some (mkRect l t w h)) (Some pts))
  = Ok (PyFloat.round2
          (1.0 * PyFloat.min sf 1.0 * PyFloat.min pf 1.0)%float).
Proof.
  intros Hw Hh Hp Hsf Hpf. unfold calculate_confidence.
  cbn [rect polygon width height].
  destruct (Z.ltb_spec 0 w); [|lia]. destruct (Z.ltb_spec 0 h); [|lia].
  cbn [andb]. rewrite Hsf. cbn [bind].
  destruct (Z.leb_spec 4 (Z.of_nat (List.length pts))); [|lia].
  rewrite Hpf. reflexivity.
Qed.

(** A 5x10 box with 4 points has confidence 0.01, the product 0.005
    rounded to two decimals. *)
Lemma confidence_rounded_product_witness :
  calculate_confidence
    (mkDecoded (Some (mkRect 0 0 5 10))
       (Some [(0, 0); (5, 0); (5, 10); (0, 10)]))
  = Ok 0.01%float.
Proof.
  exact (confidence_rounded_product 0 0 5 10
           [(0, 0); (5, 0); (5, 10); (0, 10)]
           0.005%float 1.0%float
           ltac:(lia) ltac:(lia) ltac:(cbn; lia) eq_refl eq_refl).
Defined.
End ScannerFacts.

Module FaultFacts.
Import Models Database Example.

(** C4 (the code at the failing input): when the connection cannot be
    opened, [delete_qrcode], [get_all_qrcodes], [get_statistics] and
    [search_qrcodes] raise UnboundLocalError from their [finally] block,
    while [save_qrcode] and [load_qrcode], which set [conn = None] first,
    return [False] and [None]. *)
Theorem connection_failure_escapes :
  fst (call (delete_qrcode (eng := engine_no_connection) (VStr "0000000a"))
         three_records) = Raise UnboundLocalError
  /\ fst (call (get_all_qrcodes (eng := engine_no_connection))
            three_records) = Raise UnboundLocalError
  /\ fst (call (get_statistics (eng := engine_no_connection))
            three_records) = Raise UnboundLocalError
  /\ fst (call (search_qrcodes (eng := engine_no_connection)
                  (Some "test") None None 100 0) three_records)
     = Raise UnboundLocalError
  /\ fst (call (save_qrcode (eng := engine_no_connection)
                  (record "0000000d" "new" "" "2026-01-10T12:00:04"))
            three_records) = Ok false
  /\ fst (call (load_qrcode (eng := engine_no_connection) (VStr "0000000a"))
            three_records) = Ok None.
Proof. repeat split; vm_compute; reflexivity. Qed.
End FaultFacts.

Module SearchFacts.
Import Models Sqlite Database Example StoreFacts.

Section WithEngine.
Context {rt : PyRuntime} {eng : Engine}.
Hypothesis no_faults : forall n, faults n = false.

Ltac run_step :=
  first [ rewrite (connect_ok no_faults)
        | erewrite (commit_ok no_faults) by reflexivity
        | erewrite (engine_call_ok no_faults) by reflexivity
        | progress unfold call, try_finally, try_exceptM, close_if_conn,
            get_conn, close, set_conn, ret, lift, bindM
        | progress cbn [store txn conn calls conn_truthy fst snd bind
                        existsb exn_eqb orb try_steps] ].

Ltac run_method := repeat run_step.


End WithEngine.
End SearchFacts.

Module BatchFacts.
Import Models QREngine.

Section WithBatchEnv.
Context {env : BatchEnv}.

Lemma item_body_signals (i : nat) (d : QRCodeData) (total : Z)
    (st : engine) :
  sliceable d ->
  exists evs st',
    item_body i d total st = Ok st'
    /\ emitted st' = (emitted st ++ evs)%list
    /\ running st' = running st
    /\ Forall (signal_of_item (Z.of_nat i + 1) total) evs
    /\ In (BatchCompleted (Z.of_nat i + 1) total) evs
    /\ successful st <= successful st' <= successful st + 1.
Proof.
  intros [v Hv]. unfold item_body, try_item. rewrite Hv.
  destruct (progress_percent i total) as [p|e]; cbn [bind].
  - destruct (work i d) as [msg|].
    + eexists [_; _; _], _. split; [reflexivity|].
      cbn [emit emitted running successful]. rewrite <- !app_assoc.
      repeat split; try reflexivity; try lia.
      * repeat constructor.
      * cbn. auto.
    + eexists [_; _], _. split; [reflexivity|].
      cbn [emit emitted running successful]. rewrite <- !app_assoc.
      repeat split; try reflexivity; try lia.
      * repeat constructor.
      * cbn. auto.
  - eexists [_; _], _. split; [reflexivity|].
    cbn [emit emitted running successful]. rewrite <- !app_assoc.
    repeat split; try reflexivity; try lia.
    + repeat constructor.
    + cbn. auto.
Qed.

(** The loop, entered at index [i] with the flag set, when the stop
    arrives during the item [k] places further on and that item is not
    the last. *)
Lemma batch_loop_stopped (k : nat) :
  forall (items : list QRCodeData) (i : nat) (total : Z) (st : engine),
    running st = true ->
    (S k < List.length items)%nat ->
    (forall j, (j < k)%nat -> stops (i + j) = false) ->
    stops (i + k) = true ->
    Forall sliceable items ->
    exists evs st',
      batch_loop items i total st = Ok st'
      /\ emitted st'
         = (emitted st ++ evs
            ++ [ProgressUpdated 0 MsgCancelled;
                BatchCompleted (Z.of_nat (i + k) + 1) total])%list
      /\ running st' = false
      /\ Forall (fun e => exists j, Z.of_nat i + 1 <= j <= Z.of_nat (i + k) + 1
                                    /\ signal_of_item j total e) evs
      /\ In (BatchCompleted (Z.of_nat (i + k) + 1) total) evs.
Proof.
  induction k as [|k IH]; intros items i total st Hrun Hlen Hbefore Hstop Hs.
  - destruct items as [|d [|d2 rest]]; cbn in Hlen; try lia.
    inversion Hs as [|? ? Hd Hrest]; subst.
    destruct (item_body_signals i d total st Hd)
      as (evs & st1 & Hbody & Hem & Hr & Hsig & Hin & _).
    exists evs. eexists.
    cbn [batch_loop]. rewrite Hrun. cbn [negb]. rewrite Hbody. cbn [bind].
    unfold other_thread. cbn [running emitted successful].
    rewrite Hr, Hrun. rewrite Nat.add_0_r in Hstop. rewrite Hstop.
    cbn [andb negb]. split; [reflexivity|].
    cbn [emit emitted running]. rewrite Hem.
    rewrite Nat.add_0_r.
    split. { rewrite <- !app_assoc. cbn. repeat f_equal. lia. }
    split; [reflexivity|].
    split; [|exact Hin].
    eapply Forall_impl; [|exact Hsig].
    intros e He. exists (Z.of_nat i + 1). split; [lia | exact He].
  - destruct items as [|d rest]; cbn in Hlen; try lia.
    inversion Hs as [|? ? Hd Hrest]; subst.
    destruct (item_body_signals i d total st Hd)
      as (evs & st1 & Hbody & Hem & Hr & Hsig & Hin & _).
    assert (H0 : stops i = false)
      by (rewrite <- (Nat.add_0_r i); apply Hbefore; lia).
    destruct (IH rest (S i) total (other_thread i st1)) as
      (evs2 & st2 & Hloop & Hem2 & Hr2 & Hsig2 & Hin2).
    + unfold other_thread. cbn [running]. rewrite Hr, Hrun, H0. reflexivity.
    + lia.
    + intros j Hj. replace (S i + j)%nat with (i + S j)%nat by lia.
      apply Hbefore. lia.
    + replace (S i + k)%nat with (i + S k)%nat by lia. exact Hstop.
    + exact Hrest.
    + exists (evs ++ evs2)%list, st2.
      cbn [batch_loop]. rewrite Hrun. cbn [negb]. rewrite Hbody. cbn [bind].
      split; [exact Hloop|].
      replace (S i + k)%nat with (i + S k)%nat in * by lia.
      split.
      { rewrite Hem2. unfold other_thread. cbn [emitted]. rewrite Hem.
        rewrite <- !app_assoc. reflexivity. }
      split; [exact Hr2|].
      split.
      { apply Forall_app. split.
        - eapply Forall_impl; [|exact Hsig].
          intros e He. exists (Z.of_nat i + 1). split; [lia | exact He].
        - eapply Forall_impl; [|exact Hsig2].
          intros e (j & Hj & He). exists j. split; [lia | exact He]. }
      apply in_or_app. right. exact Hin2.
Qed.

(** C9: in a run of [N] items where the stop arrives while item [k+1] is
    generated and that item is not the last, the engine ends with the
    cancellation notice and [batch_completed(k+1, N)], [k+1 < N]; the
    signals before them belong to the items 1 to [k+1] only, and the 100%
    summary is not emitted. *)
Theorem batch_stopped_after_item (k : nat) (batch_data : list QRCodeData)
    (st0 : engine) :
  running st0 = true ->
  (S k < List.length batch_data)%nat ->
  (forall j, (j < k)%nat -> stops j = false) ->
  stops k = true ->
  Forall sliceable batch_data ->
  let total := Z.of_nat (List.length batch_data) in
  let completed := Z.of_nat k + 1 in
  exists evs st,
    generate_batch_inner batch_data st0 = Ok st
    /\ emitted st
       = (emitted st0
          ++ ProgressUpdated 0 (MsgStart total) :: evs
          ++ [ProgressUpdated 0 MsgCancelled;
              BatchCompleted completed total])%list
    /\ completed < total
    /\ Forall (fun e => exists j, 1 <= j <= completed
                                  /\ signal_of_item j total e) evs
    /\ In (BatchCompleted completed total) evs
    /\ (forall e,
          In e (ProgressUpdated 0 (MsgStart total) :: evs
                ++ [ProgressUpdated 0 MsgCancelled;
                    BatchCompleted completed total])%list ->
          ~ is_finished e)
    /\ running st = false.
Proof.
  intros Hrun Hlen Hbefore Hstop Hs total completed.
  set (st1 := emit (ProgressUpdated 0 (MsgStart total))
                (mkEngine (running st0) (emitted st0) 0)).
  destruct (batch_loop_stopped k batch_data 0 total st1)
    as (evs & st & Hloop & Hem & Hr & Hsig & Hin); auto.
  cbn [Nat.add Z.of_nat Z.add] in Hem, Hsig, Hin.
  exists evs, st. unfold generate_batch_inner. fold total. fold st1.
  rewrite Hloop. cbn [bind]. rewrite Hr.
  split; [reflexivity|].
  split.
  { rewrite Hem. unfold st1. cbn [emit emitted].
    rewrite <- !app_assoc. reflexivity. }
  split; [unfold completed, total; lia|].
  split; [exact Hsig|].
  split; [exact Hin|].
  split; [|reflexivity].
  intros e He (s & t & ->).
  destruct He as [He | He]; [discriminate He|].
  apply in_app_or in He. destruct He as [He | He].
  - rewrite Forall_forall in Hsig. destruct (Hsig _ He) as (j & _ & Hj).
    exact Hj.
  - destruct He as [He | [He | []]]; discriminate He.
Qed.

End WithBatchEnv.
End BatchFacts.

Module GradientFacts.
Import Models QREngine ModelsFacts Example Claimed.

Section WithRuntime.
Context {rt : PyRuntime}.

Lemma draw_row_in (gt : value) (n s : Z) (cs ce : rgb) (y : Z) :
  forall (cells : list bool) (x : Z) (rects : list rectangle) (j : nat),
    draw_row gt n s cs ce y cells x = Ok rects ->
    nth_error cells j = Some true ->
    exists c, module_color gt n cs ce (x + Z.of_nat j) y = Ok c
              /\ In (module_rectangle s (x + Z.of_nat j) y c) rects.
Proof.
  induction cells as [|on rest IH]; intros x rects j H Hj.
  - destruct j; discriminate Hj.
  - cbn [draw_row] in H.
    apply bind_ok in H. destruct H as (here & Hhere & H).
    apply bind_ok in H. destruct H as (more & Hmore & H).
    injection H as <-.
    destruct j as [|j].
    + cbn in Hj. injection Hj as ->.
      apply bind_ok in Hhere. destruct Hhere as (c & Hc & Hhere).
      injection Hhere as <-.
      exists c. rewrite Z.add_0_r. split; [exact Hc|].
      cbn. auto.
    + cbn in Hj. destruct (IH _ _ _ Hmore Hj) as (c & Hc & Hin).
      exists c.
      replace (x + Z.of_nat (S j)) with (x + 1 + Z.of_nat j) by lia.
      split; [exact Hc|]. apply in_or_app. right. exact Hin.
Qed.

Lemma draw_rows_in (gt : value) (n s : Z) (cs ce : rgb) :
  forall (rows : list (list bool)) (y : Z) (rects : list rectangle)
         (i j : nat) (cells : list bool),
    draw_rows gt n s cs ce rows y = Ok rects ->
    nth_error rows i = Some cells ->
    nth_error cells j = Some true ->
    exists c,
      module_color gt n cs ce (Z.of_nat j) (y + Z.of_nat i) = Ok c
      /\ In (module_rectangle s (Z.of_nat j) (y + Z.of_nat i) c) rects.
Proof.
  induction rows as [|r rest IH]; intros y rects i j cells H Hi Hj.
  - destruct i; discriminate Hi.
  - cbn [draw_rows] in H.
    apply bind_ok in H. destruct H as (here & Hhere & H).
    apply bind_ok in H. destruct H as (more & Hmore & H).
    injection H as <-.
    destruct i as [|i].
    + cbn in Hi. injection Hi as ->.
      destruct (draw_row_in _ _ _ _ _ _ _ _ _ _ Hhere Hj) as (c & Hc & Hin).
      exists c. rewrite Z.add_0_r. cbn [Z.add] in Hc, Hin.
      split; [exact Hc|]. apply in_or_app. left. exact Hin.
    + cbn in Hi. destruct (IH _ _ _ _ _ Hmore Hi Hj) as (c & Hc & Hin).
      exists c.
      replace (y + Z.of_nat (S i)) with (y + 1 + Z.of_nat i) by lia.
      split; [exact Hc|]. apply in_or_app. right. exact Hin.
Qed.

(** What the code draws: for every "on" module at column [x], row [y]
    of a matrix of [n] rows, the image holds the rectangle
    [[x*s, y*s, (x+1)*s, (y+1)*s]] filled with the colour whose channels
    are [int(start*(1-ratio) + end*ratio)], where [ratio] is
    [(x + y) / (2*n)] for a linear gradient and, for a radial one, the
    distance from [(x, y)] to [(n//2, n//2)] divided by
    [(2*n^2) ** 0.5], the whole diagonal. *)
Theorem gradient_fill (self_qr_data qr_data : option QRCodeData)
    (matrix : list (list bool)) (img : image) (row col : nat)
    (cells : list bool) :
  generate_gradient_qr self_qr_data matrix qr_data = Ok img ->
  nth_error matrix row = Some cells ->
  nth_error cells col = Some true ->
  let n := Z.of_nat (List.length matrix) in
  let x := Z.of_nat col in
  let y := Z.of_nat row in
  exists data s rs gs bs re ge be ratio r g b,
    (match qr_data with Some d => Some d | None => self_qr_data end)
    = Some data
    /\ as_num (size data) = Some (PyFloat.NInt s)
    /\ parse_color (gradient_start data) = Ok (rs, gs, bs)
    /\ parse_color (gradient_end data) = Ok (re, ge, be)
    /\ (if eq_str (gradient_type data) "radial"
        then
          exists distance max_distance,
            int_pow_half ((x - n / 2) ^ 2 + (y - n / 2) ^ 2) = Ok distance
            /\ int_pow_half (n ^ 2 * 2) = Ok max_distance
            /\ ratio = (if (0 <? max_distance)%float
                        then (distance / max_distance)%float else 0%float)
        else PyFloat.int_truediv (x + y) (n * 2) = Ok ratio)
    /\ interpolate rs re ratio = Ok r
    /\ interpolate gs ge ratio = Ok g
    /\ interpolate bs be ratio = Ok b
    /\ In (mkRectangle (x * s) (y * s) ((x + 1) * s) ((y + 1) * s)
             (r, g, b)) (img_rects img).
Proof.
  intros H Hrow Hcol n x y.
  unfold generate_gradient_qr in H.
  destruct (match qr_data with Some d => Some d | None => self_qr_data end)
    as [data|] eqn:Edata; [|discriminate].
  assert (Hm : exists m0 ms, matrix = m0 :: ms).
  { destruct matrix as [|m0 ms]; [destruct row; discriminate Hrow|].
    eauto. }
  destruct Hm as (m0 & ms & Em). rewrite Em in H at 1.
  fold n in H.
  apply bind_ok in H. destruct H as ([s img0] & Hcanvas & H).
  destruct (negb (truthy (gradient_start data))
            || negb (truthy (gradient_end data))); [discriminate|].
  apply bind_ok in H. destruct H as ([[rs gs] bs] & Hcs & H).
  apply bind_ok in H. destruct H as ([[re ge] be] & Hce & H).
  apply bind_ok in H. destruct H as (rects & Hdraw & H).
  injection H as <-. cbn [img_rects].
  destruct (draw_rows_in _ _ _ _ _ _ _ _ _ _ _ Hdraw Hrow Hcol)
    as (c & Hc & Hin).
  cbn [Z.add] in Hc, Hin. fold x y in Hc, Hin.
  unfold module_color in Hc.
  apply bind_ok in Hc. destruct Hc as (ratio & Hratio & Hc).
  apply bind_ok in Hc. destruct Hc as (r & Hr & Hc).
  apply bind_ok in Hc. destruct Hc as (g & Hg & Hc).
  apply bind_ok in Hc. destruct Hc as (b & Hb & Hc).
  injection Hc as <-.
  exists data, s, rs, gs, bs, re, ge, be, ratio, r, g, b.
  split; [reflexivity|].
  split.
  { unfold new_canvas in Hcanvas.
    destruct (as_num (size data)) as [[z|f]|]; try discriminate.
    destruct (n * z <? 0); [discriminate|].
    destruct (pil_getrgb (background_color data)); [|discriminate].
    injection Hcanvas as -> _. reflexivity. }
  split; [exact Hcs|]. split; [exact Hce|].
  split.
  { unfold module_ratio in Hratio.
    destruct (eq_str (gradient_type data) "radial").
    - apply bind_ok in Hratio. destruct Hratio as (distance & Hd & Hratio).
      apply bind_ok in Hratio.
      destruct Hratio as (max_distance & Hm & Hratio).
      injection Hratio as <-. exists distance, max_distance. auto.
    - exact Hratio. }
  repeat (split; [assumption|]). exact Hin.
Qed.

End WithRuntime.

Lemma linear_image_generated :
  generate_gradient_qr None matrix2 (Some (gradient_record "linear"))
  = Ok linear_image.
Proof. vm_compute. reflexivity. Qed.

(** The module at column 1, row 1 of [matrix2]. *)
Lemma gradient_fill_witness :
  exists r g b,
    In (mkRectangle (1 * 10) (1 * 10) ((1 + 1) * 10) ((1 + 1) * 10)
          (r, g, b)) (img_rects linear_image).
Proof.
  destruct (gradient_fill None (Some (gradient_record "linear")) matrix2
              linear_image 1 1 [false; true] linear_image_generated
              eq_refl eq_refl)
    as (data & s & rs & gs & bs & re & ge & be & ratio & r & g & b
        & Hd & Hs & _ & _ & _ & _ & _ & _ & Hin).
  injection Hd as <-. injection Hs as <-.
  exists r, g, b. exact Hin.
Defined.

(** C1: a radial gradient stops half way.  With start colour black
    and end colour white on a matrix of 21 rows, the corner module at
    (0, 0), one of the four farthest from the centre, is filled with
    (121, 121, 121): its ratio is 0.476, the distance over the whole
    diagonal, where the distance over the diagonal's half-length is
    0.952 and gives 242.  No module gets a channel above 121, so the
    end colour is never approached. *)
Theorem radial_gradient_stops_half_way :
  exists img,
    generate_gradient_qr None matrix21 (Some (gradient_record "radial"))
    = Ok img
    /\ In (mkRectangle 0 0 10 10 (121, 121, 121)) (img_rects img)
    /\ module_ratio (VStr "radial") 21 0 0 = Ok 0.4761904761904762%float
    /\ claimed_radial_ratio 21 0 0 = Ok 0.9523809523809524%float
    /\ interpolate 0 255 0.9523809523809524 = Ok 242
    /\ forallb (fun rc =>
                  let '(r, g, b) := fill rc in
                  (r <=? 121) && (g <=? 121) && (b <=? 121))
         (img_rects img) = true.
Proof.
  eexists. split; [vm_compute; reflexivity|].
  split; [left; reflexivity|].
  split; [vm_compute; reflexivity|].
  split; [vm_compute; reflexivity|].
  split; vm_compute; reflexivity.
Qed.

End GradientFacts.


Module ClaimChecks.
Import Models Sqlite Database QREngine Example Claimed.
Import FloatFacts ModelsFacts DecodeFacts ValidateFacts StoreFacts SearchFacts BatchFacts.

(** C3 (the code at the failing input): constructed with a logo path and
    the scale NaN, the record keeps NaN, which is not within
    [0.05, 0.5]. *)
Theorem post_init_nan_escapes_clamp :
  exists d, post_init nan_logo_args = Ok d
            /\ logo_scale d = VFloat nan
            /\ (0.05 <=? nan)%float = false
            /\ (nan <=? 0.5)%float = false.
Proof.
  eexists. split; [vm_compute; reflexivity|].
  repeat split.
Qed.

(** C10, witness: [dict_int_one]. *)
Lemma from_dict_int_logo_scale_witness :
  from_dict dict_int_one = Ok record_int_one
  /\ logo_scale record_int_one = VFloat 0.05.
Proof.
  assert (H : from_dict dict_int_one = Ok record_int_one)
    by (vm_compute; reflexivity).
  split; [exact H|].
  destruct (from_dict_int_logo_scale dict_int_one 1 record_int_one
              eq_refl H) as (_ & _ & _ & H1).
  destruct (H1 eq_refl) as [_ H2]. exact (H2 eq_refl).
Defined.

(** C7, witness: [row_percent_60], the row kept of an INSERT whose
    scale is the integer 60: its REAL column holds 60.0. *)
Lemma stored_percentage_60_witness :
  nth_error row_percent_60 17 = Some (VFloat 60)
  /\ exists d, row_to_qrcode_data row_percent_60 = Ok (Some d)
               /\ logo_scale d = VFloat 0.5.
Proof.
  assert (H17 : nth_error row_percent_60 17 = Some (VFloat 60))
    by (vm_compute; reflexivity).
  split; [exact H17|].
  destruct (stored_percentage_60_loads_as_half row_percent_60
              (or_introl H17) eq_refl
              (or_intror (ex_intro _ "[]" eq_refl)))
    as (_ & d & H1 & H2 & _).
  exists d. split; assumption.
Defined.

(** C6, witness: the row of an INSERT that names only id, data and
    qr_type. *)
Lemma row_decode_defaults_witness :
  exists d, row_to_qrcode_data row_three_columns = Ok (Some d)
            /\ qr_type d = TEXT /\ output_format d = VStr "PNG".
Proof.
  assert (Hnull : forall i, (3 <= i <= 16)%nat ->
                            nth i row_three_columns VNone = VNone).
  { intros i Hi.
    do 17 (destruct i as [|i]; [try reflexivity; lia|]). lia. }
  destruct (row_decode_defaults row_three_columns "TEXT"
              ltac:(cbn; lia) eq_refl eq_refl Hnull
              (or_intror (ex_intro _ 0.2%float eq_refl)))
    as (d & H1 & _ & _ & H2 & _ & _ & _ & _ & _ & _ & _ & H3 & _).
  exists d. repeat split; assumption.
Defined.

Lemma example_record_well_typed :
  well_typed (record "0000000a" "test-A" "" "2026-01-10T12:00:01").
Proof.
  constructor; cbn;
    try (eexists; reflexivity);
    try (left; reflexivity);
    try (right; eexists; reflexivity).
  eexists. split; reflexivity.
Qed.

(** A record saved to the empty database and loaded back. *)
Lemma save_then_load_roundtrip_witness :
  exists db' d,
    call (save_qrcode (eng := engine_ok)
            (record "0000000a" "test-A" "" "2026-01-10T12:00:01")) fresh_db
    = (Ok true, db')
    /\ call (load_qrcode (eng := engine_ok) (VStr "0000000a")) db'
       = (Ok (Some d), db')
    /\ data d = VStr "test-A".
Proof.
  destruct (save_then_load_roundtrip (rt := runtime) (eng := engine_ok)
              (fun _ => eq_refl) fresh_db
              (record "0000000a" "test-A" "" "2026-01-10T12:00:01")
              eq_refl example_record_well_typed eq_refl eq_refl
              ltac:(discriminate))
    as (db' & d & H1 & H2 & _ & H3 & _).
  exists db', d. repeat split; assumption.
Defined.


(** C9, witness: five items and a stop during the second. *)
Lemma batch_stopped_after_item_witness :
  exists st,
    generate_batch_inner (env := stop_during_second) five_items started
    = Ok st
    /\ running st = false
    /\ In (BatchCompleted 2 5) (emitted st).
Proof.
  assert (Hs : Forall sliceable five_items)
    by (repeat constructor; eexists; reflexivity).
  assert (Hb : forall j, (j < 1)%nat ->
                         stops (BatchEnv := stop_during_second) j = false)
    by (intros [|j] Hj; [reflexivity | lia]).
  destruct (batch_stopped_after_item (env := stop_during_second) 1
              five_items started eq_refl ltac:(cbn; lia) Hb eq_refl Hs)
    as (evs & st & H1 & H2 & _ & _ & _ & _ & H3).
  exists st. split; [exact H1|]. split; [exact H3|].
  rewrite H2. apply in_or_app. right. right.
  apply in_or_app. right. right. left. reflexivity.
Defined.

End ClaimChecks.

Module SearchClaim.
Import Models Sqlite Database Example Claimed StoreFacts SearchFacts.

(** The engine on three rows: rows of equal [created_at] come in the
    order of the table, behind the newer row; and LIKE reads a text up
    to its first NUL character. *)
Lemma order_and_like_of_the_engine :
  let stamped (name stamp : string) : row :=
    (VStr name :: repeat VNone 12 ++ [VStr stamp])%list in
  order_by_desc row_created_at
    [stamped "first" "2026-01-10"; stamped "newer" "2026-01-11";
     stamped "last" "2026-01-10"]
  = [stamped "newer" "2026-01-11"; stamped "first" "2026-01-10";
     stamped "last" "2026-01-10"]
  /\ sql_like (nt := num_text) (VStr ("abc" ++ String Ascii.zero "needle"))
       "%needle%" = false
  /\ sql_like (nt := num_text) (VStr ("abc" ++ String Ascii.zero "needle"))
       "%abc%" = true
  /\ sql_like (nt := num_text) (VStr "abc") ("%c" ++ String Ascii.zero "x%")
     = true.
Proof. cbv zeta. repeat split; vm_compute; reflexivity. Qed.



End SearchClaim.

Module ConstructorFacts.
Import Models FloatFacts ModelsFacts ValidateFacts.

Lemma half_below_one (f : float) :
  (0.5 <? f)%float = false -> (1 <? f)%float = false.
Proof. float_cmp f. Qed.

Section WithRuntime.
Context {rt : PyRuntime}.

(** The scale the constructor leaves is a float that neither bound
    test of lines 60-63 fires on. *)
Lemma constructed_scale (args r : QRCodeData) :
  post_init args = Ok r ->
  exists f, logo_scale r = VFloat f
            /\ (f <? 0.05)%float = false /\ (0.5 <? f)%float = false
            /\ (truthy (logo_path r) = false -> f = 0.2%float).
Proof.
  intros H. apply post_init_fields in H.
  destruct H as (_&_&_&_&_&_&_&_&_& Hlp &_&_&_&_&_&_&_& n & b & Hn & Hb & Hs).
  rewrite Hs, Hlp.
  destruct (truthy (logo_path args)) eqn:Et; cbn [negb].
  2:{ exists 0.2%float. repeat split. }
  destruct b.
  { exists 0.05%float. repeat split. discriminate. }
  destruct (PyFloat.num_gt n (PyFloat.NFloat 0.5)) eqn:Ea.
  { exists 0.5%float. repeat split. discriminate. }
  symmetry in Hb.
  destruct (logo_scale args) as [|bb|z|f|s|l|t|o]; try discriminate;
    cbn in Hn; injection Hn as <-.
  - rewrite (int_scale_clamped _ Hb) in Ea. discriminate.
  - rewrite (int_scale_clamped _ Hb) in Ea. discriminate.
  - exists f. repeat split; auto. discriminate.
Qed.

(** Handing the constructor the fields of a record it made gives that
    record again. *)
Lemma post_init_fixed (args r : QRCodeData) :
  post_init args = Ok r -> post_init r = Ok r.
Proof.
  intros H.
  destruct (constructed_scale _ _ H) as (f & Hf & Hlo & Hhi & Hno).
  apply post_init_fields in H.
  destruct H as (_&_&_&_&_&_&_&_&_&_&_&_&_&_&_& Hca & Htg & _).
  destruct r as [i d t v ec sz b fg bg lp ls gs ge gt ca tg nt ofmt].
  cbn [created_at tags logo_scale logo_path] in *. subst ls.
  unfold post_init. red_record.
  assert (Eca : (if eq_str ca "" then VStr now_isoformat else ca) = ca).
  { destruct (eq_str (created_at args) "") eqn:E.
    - subst ca. destruct (eq_str (VStr now_isoformat) "") eqn:E2;
        [|reflexivity].
      cbn in E2. apply String.eqb_eq in E2. rewrite E2. reflexivity.
    - subst ca. rewrite E. reflexivity. }
  assert (Etg : is_none tg = false).
  { subst tg. destruct (tags args); reflexivity. }
  destruct (eq_str ca "") eqn:E1; red_record; rewrite Etg; red_record;
    cbn [as_num]; unfold PyFloat.num_gt, PyFloat.num_lt;
    rewrite Hlo, Hhi; red_record;
    destruct (truthy lp) eqn:El; cbn [negb]; red_record;
    rewrite ?(Hno eq_refl), ?Eca; reflexivity.
Qed.

Ltac dict_lookup r :=
  unfold dict_get_default;
  repeat match goal with
         | |- context [dict_get (to_dict r) ?k] =>
             let v := eval cbv [dict_get to_dict String.eqb Ascii.eqb
                                Bool.eqb] in (dict_get (to_dict r) k) in
             change (dict_get (to_dict r) k) with v
         end.

(** X1: for every input that is not NaN, the constructor leaves a scale
    within [0.05, 0.5], and the scale 0.2 when there is no logo path. *)
Theorem constructor_scale_within_bounds (args r : QRCodeData) :
  QRCodeData_new args = Ok r ->
  (forall f, logo_scale args = VFloat f -> is_nan f = false) ->
  scale_in_bounds (logo_scale r)
  /\ (truthy (logo_path args) = false -> logo_scale r = VFloat 0.2).
Proof.
  intros H Hnan. split.
  - exact (post_init_scale_in_range _ _ H Hnan).
  - intros Hp. exact (post_init_no_logo _ _ H Hp).
Qed.

(** X2: the scale test of [validate] never fires on a record the
    constructor returned, not even on the NaN the constructor lets
    through. *)
Theorem constructed_record_passes_scale_check (args r : QRCodeData) :
  QRCodeData_new args = Ok r ->
  out_of_range (logo_scale r) (PyFloat.NFloat 0.05) (PyFloat.NFloat 0.5)
  = Ok false
  /\ validate r <> Ok BadLogoScale.
Proof.
  intros H.
  destruct (constructed_scale _ _ H) as (f & Hf & Hlo & Hhi & _).
  assert (Hin : out_of_range (logo_scale r) (PyFloat.NFloat 0.05)
                  (PyFloat.NFloat 0.5) = Ok false).
  { rewrite Hf. unfold out_of_range, lt_lit, gt_lit, PyFloat.num_gt.
    cbn. rewrite Hlo, Hhi. reflexivity. }
  split; [exact Hin|].
  unfold validate. rewrite Hin. cbn [bind].
  intros Hv. unfold validate_colors in Hv.
  invert_checks; discriminate.
Qed.

(** X3: [from_dict(to_dict(r))] is [r] for every record [r] the
    constructor returned whose tags are not a string and whose output
    format is not an enumeration member. *)
Theorem from_dict_to_dict (r : QRCodeData) :
  constructed r ->
  (forall s, tags r <> VStr s) ->
  (forall o, output_format r <> VOutputFormat o) ->
  from_dict (to_dict r) = Ok r.
Proof.
  intros [args H] Htags Hof.
  pose proof (post_init_fixed _ _ H) as Hfix.
  destruct (constructed_scale _ _ H) as (f & Hf & Hlo & Hhi & _).
  apply post_init_fields in H.
  destruct H as (_&_&_&_&_&_&_&_&_&_&_&_&_&_&_&_& Htg & _).
  assert (Enone : is_none (tags r) = false).
  { rewrite Htg. destruct (tags args); reflexivity. }
  clear Htg.
  unfold from_dict, from_dict_qr_type, from_dict_tags,
    from_dict_output_format, from_dict_logo_scale, QRCodeData_new.
  dict_lookup r. cbv beta iota.
  rewrite StoreFacts.QRCodeType_roundtrip. cbn [bind].
  rewrite Hf. cbn [is_none]. rewrite (half_below_one f Hhi).
  rewrite <- Hf.
  destruct r as [i d t v ec sz b fg bg lp ls gs ge gt ca tg nt ofmt].
  cbn [id data qr_type version error_correction size border
       foreground_color background_color logo_path logo_scale
       gradient_start gradient_end gradient_type created_at tags notes
       output_format] in *.
  destruct tg; try discriminate Enone;
    try (exfalso; eapply Htags; reflexivity); cbn [bind];
    destruct ofmt; try (exfalso; eapply Hof; reflexivity);
    rewrite Hfix; reflexivity.
Qed.

(** X4: [from_dict] raises nothing but ValueError; a scale that is
    neither a number nor [None] (a string, say) makes the constructor's
    comparison raise TypeError, which comes out as ValueError. *)
Theorem from_dict_raises_value_error (d : dict) :
  (forall e, from_dict d = Raise e -> e = ValueError)
  /\ (forall v, dict_get d "logo_scale" = Some v ->
                as_num v = None -> is_none v = false ->
                from_dict d = Raise ValueError).
Proof.
  split.
  - intros e. unfold from_dict, try_except_all.
    destruct (bind _ _); intros He; [discriminate|].
    injection He as <-. reflexivity.
  - intros v Hget Hnum Hnone.
    unfold from_dict.
    destruct (from_dict_qr_type d) as [t|e]; [|reflexivity].
    cbn [bind].
    destruct (from_dict_tags d) as [tg|e]; [|reflexivity].
    cbn [bind].
    assert (Hls : from_dict_logo_scale d = Ok v).
    { unfold from_dict_logo_scale, dict_get_default. rewrite Hget, Hnone.
      destruct v; try reflexivity; discriminate. }
    rewrite Hls. cbn [bind].
    unfold QRCodeData_new, post_init.
    match goal with
    | |- context [eq_str ?c ""] => destruct (eq_str c "")
    end;
      red_record;
      match goal with
      | |- context [is_none ?c] => destruct (is_none c)
      end;
      red_record; rewrite Hnum; reflexivity.
Qed.

(** X5: a record [from_dict] returns has the type the dictionary names:
    the member itself, the member whose value the string is, or TEXT
    when the key is missing; any other entry is refused. *)
Theorem from_dict_qr_type_entry (d : dict) (r : QRCodeData) :
  from_dict d = Ok r ->
  match dict_get d "qr_type" with
  | None => qr_type r = TEXT
  | Some (VQRCodeType t) => qr_type r = t
  | Some (VStr s) => QRCodeType_value (qr_type r) = s
  | Some _ => False
  end.
Proof.
  intros H. unfold from_dict in H.
  apply try_except_all_ok in H; [|discriminate].
  apply bind_ok in H. destruct H as (t & Ht & H).
  apply bind_ok in H. destruct H as (tg & _ & H).
  apply bind_ok in H. destruct H as (ls & _ & H).
  unfold QRCodeData_new in H. apply post_init_fields in H.
  destruct H as (_ & _ & Hty & _). cbn [qr_type] in Hty.
  unfold from_dict_qr_type in Ht.
  destruct (dict_get d "qr_type") as [[|b|z|f|s|l|t0|o]|];
    try discriminate.
  - destruct (QRCodeType_of_string s) as [t1|] eqn:E; [|discriminate].
    injection Ht as <-. rewrite Hty.
    unfold QRCodeType_of_string in E. apply find_some in E.
    destruct E as [_ E]. apply String.eqb_eq in E. exact E.
  - injection Ht as <-. exact Hty.
  - injection Ht as <-. exact Hty.
Qed.

(** X6: a float scale above 1 in the dictionary is read as a percentage:
    the record holds the clamp of [f / 100.0], the clamp of [f] itself
    when [f] is not above 1, and 0.2 without a logo path. *)
Theorem from_dict_float_logo_scale (d : dict) (f : float)
    (r : QRCodeData) :
  dict_get d "logo_scale" = Some (VFloat f) ->
  from_dict d = Ok r ->
  logo_scale r =
    VFloat (if truthy (dict_get_default d "logo_path" VNone)
            then clamp_scale (if (1 <? f)%float then (f / 100.0)%float
                              else f)
            else 0.2%float).
Proof.
  intros Hget H. unfold from_dict in H.
  apply try_except_all_ok in H; [|discriminate].
  apply bind_ok in H. destruct H as (t & _ & H).
  apply bind_ok in H. destruct H as (tg & _ & H).
  apply bind_ok in H. destruct H as (ls & Hls & H).
  unfold from_dict_logo_scale, dict_get_default in Hls.
  rewrite Hget in Hls. cbn [is_none] in Hls.
  assert (Els : ls = VFloat (if (1 <? f)%float then (f / 100.0)%float
                             else f)).
  { destruct (1 <? f)%float; injection Hls as <-; reflexivity. }
  subst ls. clear Hls.
  unfold QRCodeData_new in H. apply post_init_fields in H.
  destruct H as (_&_&_&_&_&_&_&_&_&_&_&_&_&_&_&_&_& n & b & Hn & Hb & Hs).
  cbn in Hn. injection Hn as <-. subst b.
  rewrite Hs. cbn [logo_path logo_scale].
  unfold clamp_scale, PyFloat.num_gt, PyFloat.num_lt.
  destruct (truthy (dict_get_default d "logo_path" VNone)); cbn [negb];
    [|reflexivity].
  match goal with
  | |- context [(?x <? 0.05)%float] => destruct (x <? 0.05)%float
  end; [reflexivity|].
  match goal with
  | |- context [(0.5 <? ?x)%float] => destruct (0.5 <? x)%float
  end; reflexivity.
Qed.

(** X7: on a record whose fields have the annotated types, [validate]
    raises no exception: it returns a verdict. *)
Theorem validate_well_typed_no_exception (r : QRCodeData) :
  well_typed r -> exists v, validate r = Ok v.
Proof.
  intros [[i Hi] [d Hd] [v Hv] [ec Hec] [sz Hsz] [b Hb] [fg Hfg] [bg Hbg]
           Hlp [f [Hf Hnan]] Hgs Hge [gt Hgt] [ca Hca] Hnt [ofmt Hof]].
  unfold validate, validate_colors, out_of_range, lt_lit, gt_lit,
    strip_is_empty.
  rewrite Hd, Hsz, Hb, Hv, Hf, Hfg, Hbg.
  cbn [as_num is_valid_color_value bind].
  assert (Hpath : exists u,
             (if truthy (logo_path r)
              then path_exists_check (logo_path r) else Ok tt) = Ok u).
  { destruct Hlp as [-> | [s ->]]; cbn [truthy].
    - eexists; reflexivity.
    - destruct (negb (String.eqb s "")); eexists; reflexivity. }
  destruct Hpath as [u Hpath]. rewrite Hpath.
  assert (Hcol : forall c, is_opt_str c ->
             exists bad,
               (if truthy c
                then ok <- is_valid_color_value c;; Ok (negb ok)
                else Ok false) = Ok bad).
  { intros c [-> | [s ->]]; cbn [truthy].
    - eexists; reflexivity.
    - destruct (negb (String.eqb s "")); eexists; reflexivity. }
  destruct (Hcol _ Hgs) as [b1 H1]. destruct (Hcol _ Hge) as [b2 H2].
  rewrite H1, H2. cbn [bind].
  repeat match goal with
         | |- exists v, bind (if ?c then _ else _) _ = Ok v =>
             destruct c; cbn [bind]
         | |- exists v, (if ?c then _ else _) = Ok v => destruct c
         | |- exists v, Ok _ = Ok v => eexists; reflexivity
         end.
Qed.

End WithRuntime.
End ConstructorFacts.

Module FileFacts.
Import Models Sqlite Database.

Section WithEngine.
Context {rt : PyRuntime} {eng : Engine}.

Lemma keeps_ret {A : Type} (a : A) : keeps_store (ret a).
Proof. intros w. reflexivity. Qed.

Lemma keeps_lift {A : Type} (c : result A) : keeps_store (lift c).
Proof. intros w. reflexivity. Qed.

Lemma keeps_set_conn (c : conn_var) : keeps_store (set_conn c).
Proof. intros w. reflexivity. Qed.

Lemma keeps_close_if_conn : keeps_store close_if_conn.
Proof.
  intros w. unfold close_if_conn, bindM, get_conn, close, ret.
  destruct (conn w); reflexivity.
Qed.

Lemma keeps_connect : keeps_store sqlite3_connect.
Proof.
  intros w. unfold sqlite3_connect. destruct (faults (calls w)); reflexivity.
Qed.

Lemma keeps_engine_call {A : Type} (act : tables -> result (A * tables)) :
  keeps_store (engine_call act).
Proof.
  intros w. unfold engine_call.
  destruct (faults (calls w)); [reflexivity|].
  destruct (txn w) as [t|]; [|reflexivity].
  destruct (act t) as [[a t']|e]; reflexivity.
Qed.

Lemma keeps_bind {A B : Type} (c : M A) (k : A -> M B) :
  keeps_store c -> (forall a, keeps_store (k a)) -> keeps_store (bindM c k).
Proof.
  intros Hc Hk w. unfold bindM. specialize (Hc w).
  destruct (c w) as [[a|e] w1]; cbn [snd] in *.
  - rewrite Hk. exact Hc.
  - exact Hc.
Qed.

Lemma keeps_try_exceptM {A : Type} (body : M A) (caught : list exn)
    (handler : M A) :
  keeps_store body -> keeps_store handler ->
  keeps_store (try_exceptM body caught handler).
Proof.
  intros Hb Hh w. unfold try_exceptM. specialize (Hb w).
  destruct (body w) as [[a|e] w1]; cbn [snd] in *; [exact Hb|].
  destruct (existsb (exn_eqb e) caught); [|exact Hb].
  rewrite Hh. exact Hb.
Qed.

Lemma keeps_try_finally {A : Type} (body : M A) (cleanup : M unit) :
  keeps_store body -> keeps_store cleanup ->
  keeps_store (try_finally body cleanup).
Proof.
  intros Hb Hc w. unfold try_finally. specialize (Hb w).
  destruct (body w) as [r w1]. specialize (Hc w1).
  destruct (cleanup w1) as [[u|e] w2]; cbn [snd] in *; congruence.
Qed.

Lemma keeps_try_steps {L : Type} (steps : list (L -> M L)) :
  Forall (fun s => forall a, keeps_store (s a)) steps ->
  forall acc, keeps_store (try_steps steps acc).
Proof.
  induction 1 as [|s rest Hs _ IH]; intros acc w; cbn [try_steps].
  - reflexivity.
  - specialize (Hs acc w). destruct (s acc w) as [[a|e] w1];
      cbn [snd] in *.
    + rewrite IH. exact Hs.
    + destruct (exn_eqb e SqliteError); exact Hs.
Qed.

Lemma call_keeps {A : Type} (m : M A) (db : tables) :
  keeps_store m -> snd (call m db) = db.
Proof.
  intros H. unfold call.
  specialize (H (mkWorld db None Unbound 0)).
  destruct (m _) as [r w]. exact H.
Qed.

Ltac keeps :=
  repeat match goal with
         | |- keeps_store close_if_conn => apply keeps_close_if_conn
         | |- keeps_store sqlite3_connect => apply keeps_connect
         | |- keeps_store (engine_call _) => apply keeps_engine_call
         | |- keeps_store (set_conn _) => apply keeps_set_conn
         | |- keeps_store (ret _) => apply keeps_ret
         | |- keeps_store (lift _) => apply keeps_lift
         | |- keeps_store (try_finally _ _) => apply keeps_try_finally
         | |- keeps_store (try_exceptM _ _ _) => apply keeps_try_exceptM
         | |- keeps_store (try_steps _ _) =>
             apply keeps_try_steps; repeat constructor; intros ?
         | |- keeps_store (bindM _ _) => apply keeps_bind; [|intros ?]
         | |- keeps_store (match ?x with _ => _ end) => destruct x
         end.

(** X8: the methods that read ([load_qrcode], [get_all_qrcodes],
    [search_qrcodes], [get_qrcodes_by_tag], [get_statistics]) leave the
    file as it was, whatever the engine does and whatever they return
    or raise. *)
Theorem reading_leaves_the_file_unchanged (db : tables) :
  (forall qid, snd (call (load_qrcode qid) db) = db)
  /\ snd (call get_all_qrcodes db) = db
  /\ (forall keyword qr_type tags limit offset,
        snd (call (search_qrcodes keyword qr_type tags limit offset) db)
        = db)
  /\ (forall tag, snd (call (get_qrcodes_by_tag tag) db) = db)
  /\ snd (call get_statistics db) = db.
Proof.
  repeat split; intros; apply call_keeps.
  - unfold load_qrcode, select_by_id. keeps.
  - unfold get_all_qrcodes, select_all_ordered. keeps.
  - unfold search_qrcodes, count_where, select_where. keeps.
  - unfold get_qrcodes_by_tag, search_qrcodes, count_where, select_where.
    keeps.
  - unfold get_statistics. keeps.
Qed.

End WithEngine.
End FileFacts.

Module SaveFacts.
Import Models Sqlite Database.

Section WithEngine.
Context {rt : PyRuntime} {eng : Engine}.

Ltac run_any :=
  cbv [call save_qrcode delete_qrcode bindM try_finally try_exceptM
       close_if_conn get_conn close set_conn ret lift sqlite3_connect
       table_info engine_call insert_or_replace_values
       insert_or_replace_named delete_by_id commit conn_truthy
       store txn conn calls fst snd].

Ltac crack :=
  match goal with
  | |- context [if faults ?n then _ else _] =>
      destruct (faults n) eqn:?
  | |- context [if existsb ?f (qr_columns ?d) then _ else _] =>
      destruct (existsb f (qr_columns d)) eqn:?
  | |- context [match bind ?c ?k with _ => _ end] =>
      destruct (bind c k) as [[? ?]|?] eqn:?
  | |- context [existsb (exn_eqb ?e) [SqliteError]] =>
      destruct e; cbn [existsb exn_eqb orb]
  end.

(** X9: [save_qrcode] writes all or nothing: unless it returns [True]
    the file is as it was, whatever the engine does; and when it
    returns [True] on the schema of [init_database], the file holds the
    row its columns keep of the record's bound values (an int id 7 is
    kept as the text "7") in place of any row with that id. *)
Theorem save_is_all_or_nothing (db : tables) (r : QRCodeData) :
  (fst (call (save_qrcode r) db) = Ok true
   \/ snd (call (save_qrcode r) db) = db)
  /\ (fst (call (save_qrcode r) db) = Ok true ->
      full_schema db ->
      exists new,
        bind_params (save_params r) = Ok new
        /\ snd (call (save_qrcode r) db)
           = upsert db (store_row (base_columns ++ ["logo_scale"])%list
                          new)).
Proof.
  run_any.
  repeat (crack; run_any);
    try (split; [right; reflexivity | discriminate]).
  - split; [left; reflexivity|]. intros _ Hsch.
    apply ModelsFacts.bind_ok in Heqr0. destruct Heqr0 as (new & Hnew & H).
    exists new. split; [exact Hnew|].
    destruct (Nat.eqb _ _); [|discriminate].
    unfold insert_or_replace_row in H. cbv zeta in H.
    destruct (is_none _ || is_none _); [discriminate|].
    injection H as _ <-. unfold full_schema in Hsch. rewrite <- Hsch.
    reflexivity.
  - split; [left; reflexivity|]. intros _ Hsch.
    unfold full_schema in Hsch. rewrite Hsch in Heqb1. discriminate.
Qed.

End WithEngine.
End SaveFacts.

Module QueryFacts.
Import Models Sqlite Database.

Section WithEngine.
Context {rt : PyRuntime} {eng : Engine}.

Lemma decode_rows_length (rows : list row) (ds : list QRCodeData) :
  decode_rows rows = Ok ds -> (List.length ds <= List.length rows)%nat.
Proof.
  revert ds. induction rows as [|r rest IH]; intros ds H; cbn in H.
  - injection H as <-. cbn. lia.
  - apply ModelsFacts.bind_ok in H. destruct H as (d & _ & H).
    apply ModelsFacts.bind_ok in H. destruct H as (ds' & Hds & H).
    injection H as <-. specialize (IH _ Hds).
    destruct d; cbn; lia.
Qed.

Lemma limit_offset_length (limit offset : Z) (l : list row) :
  0 <= limit ->
  (List.length (limit_offset limit offset l) <= Z.to_nat limit)%nat.
Proof.
  intros H. unfold limit_offset.
  destruct (Z.ltb_spec limit 0); [lia|].
  rewrite length_firstn. lia.
Qed.

Ltac run_any :=
  cbv [call get_qrcodes_by_tag search_qrcodes get_statistics
       count_where select_where try_steps bindM try_finally try_exceptM
       close_if_conn get_conn close set_conn ret lift sqlite3_connect
       engine_call conn_truthy store txn conn calls fst snd].

Ltac crack :=
  match goal with
  | |- context [if faults ?n then _ else _] =>
      destruct (faults n) eqn:?
  | |- context [match decode_rows ?l with _ => _ end] =>
      destruct (decode_rows l) as [?|[]] eqn:?
  | |- context [exn_eqb ?e SqliteError] => cbn [exn_eqb]
  end.

(** X10: [get_qrcodes_by_tag] never returns more than 100 records,
    however many carry the tag: it takes the first page of
    [search_qrcodes] with the default limit. *)
Theorem tag_lookup_returns_at_most_100 (db : tables) (tag : string) :
  match fst (call (get_qrcodes_by_tag tag) db) with
  | Ok found => (List.length found <= 100)%nat
  | Raise _ => True
  end.
Proof.
  run_any.
  repeat (crack; run_any); try exact I; try (cbn; lia).
  apply decode_rows_length in Heqr.
  etransitivity; [exact Heqr|].
  apply (limit_offset_length 100 0). lia.
Qed.

(** X11: [get_statistics] returns the keys it had assigned when the
    first statement failed: when the connection opens and query [j] is
    the first to fail, the dictionary holds the keys of the queries
    before [j] and no other; it holds all five when none fails. *)
Theorem statistics_up_to_first_failure (db : tables) (j : nat) :
  (1 <= j)%nat ->
  (forall n, (n < j)%nat -> faults n = false) ->
  ((j <= 5)%nat -> faults j = true) ->
  call get_statistics db = (Ok (stats_before j db), db).
Proof.
  intros Hj Hbefore Hfail.
  destruct j as [|[|[|[|[|[|j]]]]]]; [lia| | | | | |];
    repeat (run_any;
            match goal with
            | |- context [faults ?n] =>
                first [ rewrite (Hbefore n) by lia
                      | rewrite Hfail by lia ]
            end);
    run_any; cbn [exn_eqb]; reflexivity.
Qed.

End WithEngine.
End QueryFacts.

Module SchemaFacts.
Import Models Sqlite Database StoreFacts.

Section WithEngine.
Context {rt : PyRuntime} {eng : Engine}.
Hypothesis no_faults : forall n, faults n = false.

Lemma schema_call_ok (act : tables -> result tables) (w : world)
    (t : tables) :
  txn w = Some t ->
  schema_call act w
  = match act t with
    | Ok t' => (Ok tt, mkWorld t' (Some t') (conn w) (S (calls w)))
    | Raise e => (Raise e, mkWorld (store w) (txn w) (conn w) (S (calls w)))
    end.
Proof.
  intros H. unfold schema_call. rewrite no_faults, H. reflexivity.
Qed.

Ltac run_step :=
  first [ rewrite (connect_ok no_faults)
        | erewrite (commit_ok no_faults) by reflexivity
        | erewrite (engine_call_ok no_faults) by reflexivity
        | erewrite schema_call_ok by reflexivity
        | progress unfold call, try_finally, try_exceptM, close_if_conn,
            get_conn, close, set_conn, ret, lift, bindM
        | progress cbn [store txn conn calls conn_truthy fst snd bind
                        existsb exn_eqb orb qr_columns qrcodes templates
                        negb] ].

Ltac run_method := repeat run_step.

(** The outcome of CREATE TABLE IF NOT EXISTS once the columns are
    known. *)
Ltac created H :=
  repeat match goal with
         | |- context [match qr_columns ?d with
                       | [] => ?a
                       | _ :: _ => ?b
                       end] =>
             first [ replace (match qr_columns d with
                              | [] => a
                              | _ :: _ => b
                              end) with b by (rewrite H; reflexivity)
                   | replace (match qr_columns d with
                              | [] => a
                              | _ :: _ => b
                              end) with a by (rewrite H; reflexivity) ]
         end.

Lemma init_database_on_full (db : tables) :
  full_schema db -> call init_database db = (Ok tt, db).
Proof.
  intros Hsch. unfold full_schema in Hsch.
  unfold init_database, create_qrcodes_table, table_info,
    add_logo_scale_column, create_templates_table.
  run_method. created Hsch. rewrite ?Hsch.
  change (existsb (String.eqb "logo_scale")
            (base_columns ++ ["logo_scale"])%list) with true.
  run_method. reflexivity.
Qed.

Lemma init_database_on_first (db : tables) :
  qr_columns db = base_columns ->
  call init_database db = (Ok tt, migrated db).
Proof.
  intros Hsch.
  unfold init_database, create_qrcodes_table, table_info,
    add_logo_scale_column, create_templates_table.
  run_method. created Hsch. rewrite ?Hsch.
  change (existsb (String.eqb "logo_scale") base_columns) with false.
  run_method. rewrite ?Hsch.
  change (existsb (String.eqb "logo_scale") base_columns) with false.
  run_method. reflexivity.
Qed.

Lemma init_database_on_empty (db : tables) :
  qr_columns db = [] ->
  call init_database db
  = (Ok tt, mkTables (base_columns ++ ["logo_scale"])%list [] (templates db)).
Proof.
  intros Hsch.
  unfold init_database, create_qrcodes_table, table_info,
    add_logo_scale_column, create_templates_table.
  run_method. created Hsch. cbn [qr_columns].
  change (existsb (String.eqb "logo_scale") base_columns) with false.
  run_method.
  change (existsb (String.eqb "logo_scale") base_columns) with false.
  run_method. reflexivity.
Qed.

(** X12: on a file without the table, with the first schema or with the
    full one, [init_database] leaves the full schema and the templates;
    it keeps the rows, giving those of the first schema the scale 0.2
    in the new column; on the full schema it changes nothing, so that
    running it again changes nothing. *)
Theorem init_database_builds_the_schema (db : tables) :
  qr_columns db = [] \/ qr_columns db = base_columns \/ full_schema db ->
  exists db',
    call init_database db = (Ok tt, db')
    /\ full_schema db'
    /\ templates db' = templates db
    /\ (qr_columns db = [] -> qrcodes db' = [])
    /\ (qr_columns db = base_columns -> db' = migrated db)
    /\ (full_schema db -> db' = db)
    /\ call init_database db' = (Ok tt, db').
Proof.
  intros [H | [H | H]].
  - eexists. split; [apply (init_database_on_empty db H)|].
    split; [reflexivity|]. split; [reflexivity|].
    split; [reflexivity|].
    split; [rewrite H; discriminate|].
    split; [unfold full_schema; rewrite H; discriminate|].
    apply init_database_on_full. reflexivity.
  - exists (migrated db). split; [apply (init_database_on_first db H)|].
    split; [reflexivity|]. split; [reflexivity|].
    split; [rewrite H; discriminate|].
    split; [reflexivity|].
    split; [unfold full_schema; rewrite H; discriminate|].
    apply init_database_on_full. reflexivity.
  - exists db. split; [apply (init_database_on_full db H)|].
    split; [exact H|]. split; [reflexivity|].
    split; [unfold full_schema in H; rewrite H; discriminate|].
    split; [unfold full_schema in H; rewrite H; discriminate|].
    split; [reflexivity|].
    apply init_database_on_full. exact H.
Qed.

Lemma migrated_row_decodes_alike (r : row) :
  List.length r = 17%nat ->
  row_to_qrcode_data (r ++ [VFloat 0.2])%list = row_to_qrcode_data r.
Proof.
  intros H.
  do 17 (destruct r as [|? r]; [discriminate H|]).
  destruct r; [|discriminate H].
  reflexivity.
Qed.

Lemma find_migrated (p : value) (rows : list row) :
  Forall (fun r => List.length r = 17%nat) rows ->
  find (has_id p) (map (fun r => r ++ [VFloat 0.2])%list rows)
  = option_map (fun r => r ++ [VFloat 0.2])%list (find (has_id p) rows).
Proof.
  induction 1 as [|r rest Hr _ IH]; [reflexivity|].
  cbn [map find]. unfold has_id at 1 3.
  assert (E : row_id (r ++ [VFloat 0.2])%list = row_id r).
  { destruct r; [discriminate Hr | reflexivity]. }
  rewrite E. destruct (sql_eq (row_id r) _); [reflexivity | exact IH].
Qed.

(** X13: the migration of [init_database] changes no record: every
    [load_qrcode] on the migrated file returns what it returned on the
    file with the first schema. *)
Theorem migration_keeps_every_record (db : tables) (qrcode_id : value) :
  first_schema db ->
  fst (call (load_qrcode qrcode_id) (migrated db))
  = fst (call (load_qrcode qrcode_id) db).
Proof.
  intros [_ Hrows].
  unfold load_qrcode, select_by_id. run_method.
  destruct (bind_param qrcode_id) as [p|e]; cbn [bind];
    [|destruct e; reflexivity].
  unfold migrated. cbn [qrcodes]. rewrite (find_migrated p _ Hrows).
  destruct (find (has_id p) (qrcodes db))
    as [r|] eqn:E; cbn [option_map]; [|reflexivity].
  apply find_some in E. destruct E as [Hin _].
  rewrite Forall_forall in Hrows. specialize (Hrows _ Hin).
  pose proof (migrated_row_decodes_alike r Hrows) as Hdec.
  destruct r as [|c cs]; [discriminate Hrows|].
  cbn [List.app] in *. run_method. rewrite Hdec.
  destruct (row_to_qrcode_data (c :: cs)) as [?|[]]; reflexivity.
Qed.

Lemma filter_none {A : Type} (p : A -> bool) (l : list A) :
  existsb p l = false -> filter (fun x => negb (p x)) l = l.
Proof.
  induction l as [|x l IH]; cbn; [reflexivity|].
  destruct (p x); cbn; [discriminate|]. intros H. rewrite IH; auto.
Qed.

Lemma find_without {A : Type} (p : A -> bool) (l : list A) :
  find p (filter (fun x => negb (p x)) l) = None.
Proof.
  induction l as [|x l IH]; cbn; [reflexivity|].
  destruct (p x) eqn:E; cbn; [exact IH|]. rewrite E. exact IH.
Qed.

Lemma positive_length_exists {A : Type} (p : A -> bool) (l : list A) :
  (0 <? Z.of_nat (List.length (filter p l))) = existsb p l.
Proof.
  induction l as [|x l IH]; cbn [filter existsb]; [reflexivity|].
  destruct (p x); cbn [orb List.length]; [|exact IH].
  apply Z.ltb_lt. lia.
Qed.

(** X14: when the engine raises no error, [delete_qrcode] of an id
    that binds to the value [p] (a string to itself, an int to an
    INTEGER, [True] to 1) removes the rows [WHERE id = ?] selects, those
    whose id is [p] or, for a number [p], its text, and no other; it
    returns [True] exactly when there was one, changes nothing when
    there was none, and a [load_qrcode] of the id on the file it leaves
    returns [None]. *)
Theorem delete_then_load_finds_nothing (db : tables)
    (qrcode_id p : value) :
  bind_param qrcode_id = Ok p ->
  call (delete_qrcode qrcode_id) db
  = (Ok (existsb (has_id p) (qrcodes db)), without_id db p)
  /\ call (load_qrcode qrcode_id) (without_id db p)
     = (Ok None, without_id db p)
  /\ (existsb (has_id p) (qrcodes db) = false -> without_id db p = db).
Proof.
  intros Hb. split; [|split].
  - unfold delete_qrcode, delete_by_id. run_method.
    rewrite Hb. cbn [bind]. run_method.
    rewrite positive_length_exists. reflexivity.
  - apply (load_qrcode_absent no_faults _ _ p); [exact Hb|].
    apply (find_without (has_id p)).
  - intros H. unfold without_id.
    rewrite (filter_none (has_id p) _ H). destruct db; reflexivity.
Qed.




End WithEngine.
End SchemaFacts.

Module LikeFacts.
Import Models Sqlite Database Claimed.










Section WithEngine.
Context {rt : PyRuntime} {eng : Engine}.


End WithEngine.
End LikeFacts.

Module RowFacts.
Import Models Sqlite Database FloatFacts ModelsFacts DecodeFacts.

Section WithRuntime.
Context {rt : PyRuntime}.

(** X17: a row of fewer than the 16 columns the method indexes decodes
    to [None]; the IndexError is caught, whatever the cells hold. *)
Theorem short_row_decodes_to_none (r : row) :
  (List.length r < 16)%nat -> row_to_qrcode_data r = Ok None.
Proof.
  intros H. unfold row_to_qrcode_data.
  do 14 (destruct r as [|? r]; [reflexivity|]).
  destruct r as [|c14 r]; [reflexivity|].
  destruct r as [|c15 r]; [|cbn in H; lia].
  cbn [row_get nth_error bind]. unfold decode_tags.
  destruct (truthy c14); [|reflexivity].
  destruct c14; try reflexivity.
  cbn [json_loads_value]. destruct (json_loads s); reflexivity.
Qed.

(** X18: a row whose tags cell is text that is not JSON still decodes:
    the record has the empty tag list. *)
Theorem undecodable_tags_load_as_empty (r : row) (s : string) :
  (16 <= List.length r)%nat ->
  nth 14 r VNone = VStr s ->
  json_loads s = None ->
  scale_cell_ok (nth 17 r VNone) ->
  exists d, row_to_qrcode_data r = Ok (Some d) /\ tags d = VList [].
Proof.
  intros Hlen H14 Hjson Hscale.
  destruct (decode_logo_scale_real r Hscale) as [ls Hls].
  assert (Htg : decode_tags (nth 14 r VNone) = Ok (VList [])).
  { rewrite H14. unfold decode_tags.
    destruct (truthy (VStr s)); [|reflexivity].
    cbn [json_loads_value]. rewrite Hjson. reflexivity. }
  destruct (row_to_qrcode_data_ok r _ ls Hlen Htg Hls) as (d & Hd & Hrow).
  exists d. split; [exact Hrow|].
  apply post_init_fields in Hd.
  destruct Hd as (_&_&_&_&_&_&_&_&_&_&_&_&_&_&_&_& Htags & _).
  exact Htags.
Qed.

Lemma try_except_ok_some {A : Type} (c : result (option A)) (l : list exn)
    (d : A) :
  try_except c l (fun _ => Ok None) = Ok (Some d) -> c = Ok (Some d).
Proof.
  destruct c as [a|e]; cbn; [auto|].
  destruct (existsb (exn_eqb e) l); discriminate.
Qed.

(** X19: a record decoded from a row whose scale column is NULL or a
    REAL that is a number not above 1 (the engine keeps no NaN: it
    stores one as NULL) has its scale within [0.05, 0.5]. *)
Theorem loaded_scale_within_bounds (r : row) (d : QRCodeData) :
  row_to_qrcode_data r = Ok (Some d) ->
  nth 17 r VNone = VNone
  \/ (exists f, nth 17 r VNone = VFloat f /\ is_nan f = false
                /\ (1 <? f)%float = false) ->
  scale_in_bounds (logo_scale d).
Proof.
  intros H Hcell. unfold row_to_qrcode_data in H.
  apply try_except_ok_some in H.
  repeat (apply bind_ok in H;
          let a := fresh "a" in
          let E := fresh "E" in
          destruct H as (a & E & H);
          try match type of E with
              | decode_logo_scale _ = _ => idtac
              | QRCodeData_new _ = _ => idtac
              | _ => clear E
              end).
  injection H as <-.
  match goal with
  | E : QRCodeData_new _ = Ok ?x |- _ =>
      unfold QRCodeData_new in E;
      apply (post_init_scale_in_range _ _ E)
  end.
  cbn [logo_scale]. intros f Hf. injection Hf as <-.
  match goal with
  | E : decode_logo_scale r = Ok ?ls |- _ => rename E into Hls
  end.
  unfold decode_logo_scale in Hls.
  destruct (Nat.ltb 17 (List.length r)) eqn:E17.
  2:{ injection Hls as <-. reflexivity. }
  apply Nat.ltb_lt in E17. rewrite (row_get_nth r 17 E17) in Hls.
  cbn [bind] in Hls.
  destruct Hcell as [Hc | (g & Hc & Hnan & H1)]; rewrite Hc in Hls.
  - injection Hls as <-. reflexivity.
  - unfold if_truthy in Hls. destruct (truthy (VFloat g)).
    + cbn in Hls. unfold percent_to_fraction in Hls. rewrite H1 in Hls.
      injection Hls as <-. exact Hnan.
    + injection Hls as <-. reflexivity.
Qed.

End WithRuntime.
End RowFacts.

Module BatchRunFacts.
Import Models QREngine BatchFacts.

Section WithBatchEnv.
Context {env : BatchEnv}.

Lemma item_body_successful (i : nat) (d : QRCodeData) (total : Z)
    (st st' : engine) :
  item_body i d total st = Ok st' ->
  successful st'
  = successful st + (if item_succeeds i d total then 1 else 0).
Proof.
  unfold item_body, try_item, item_succeeds.
  destruct (progress_percent i total) as [p|e].
  - destruct (slice8 (id d)) as [v|e]; cbn [bind].
    + destruct (work i d) as [msg|]; intros H; injection H as <-;
        cbn [emit successful]; lia.
    + discriminate.
  - destruct (slice8 (id d)) as [v|e']; cbn [bind]; [|discriminate].
    intros H; injection H as <-. cbn [emit successful]. lia.
Qed.

(** The loop, entered at index [i] with the flag set, when nobody
    stops the engine. *)
Lemma batch_loop_runs (items : list QRCodeData) :
  forall (i : nat) (total : Z) (st : engine),
    running st = true ->
    (forall j, stops j = false) ->
    Forall sliceable items ->
    exists evs st',
      batch_loop items i total st = Ok st'
      /\ emitted st' = (emitted st ++ evs)%list
      /\ running st' = true
      /\ successful st' = successful st + count_successes items i total
      /\ 0 <= count_successes items i total <= Z.of_nat (List.length items)
      /\ (forall k, Z.of_nat i + 1 <= k
                    <= Z.of_nat i + Z.of_nat (List.length items) ->
                    In (BatchCompleted k total) evs)
      /\ Forall (fun e => exists j,
                   Z.of_nat i + 1 <= j
                   <= Z.of_nat i + Z.of_nat (List.length items)
                   /\ signal_of_item j total e) evs.
Proof.
  induction items as [|d rest IH]; intros i total st Hrun Hstops Hs.
  - exists [], st. cbn [batch_loop List.length Z.of_nat].
    rewrite app_nil_r.
    split; [reflexivity|]. split; [reflexivity|]. split; [exact Hrun|].
    cbn [count_successes].
    split; [lia|]. split; [lia|].
    split; [intros k Hk; lia | constructor].
  - inversion Hs as [|? ? Hd Hrest]; subst.
    destruct (item_body_signals i d total st Hd)
      as (evs & st1 & Hbody & Hem & Hr & Hsig & Hin & Hsucc).
    pose proof (item_body_successful _ _ _ _ _ Hbody) as Hone.
    destruct (IH (S i) total (other_thread i st1)) as
      (evs2 & st2 & Hloop & Hem2 & Hr2 & Hsucc2 & Hcount2 & Hall2 & Hsig2);
      auto.
    { unfold other_thread. cbn [running]. rewrite Hr, Hrun, Hstops.
      reflexivity. }
    exists (evs ++ evs2)%list, st2.
    cbn [batch_loop]. rewrite Hrun. cbn [negb]. rewrite Hbody. cbn [bind].
    split; [exact Hloop|].
    unfold other_thread in Hem2, Hsucc2. cbn [emitted successful] in *.
    split. { rewrite Hem2, Hem, <- app_assoc. reflexivity. }
    split; [exact Hr2|].
    cbn [count_successes].
    split. { lia. }
    split.
    { cbn [List.length]. destruct (item_succeeds i d total); lia. }
    split.
    { intros k Hk. cbn [List.length] in Hk. apply in_or_app.
      destruct (Z.eq_dec k (Z.of_nat i + 1)) as [-> | Hne].
      - left. exact Hin.
      - right. apply Hall2. lia. }
    apply Forall_app. split.
    + eapply Forall_impl; [|exact Hsig].
      intros e He. exists (Z.of_nat i + 1). cbn [List.length].
      split; [lia | exact He].
    + eapply Forall_impl; [|exact Hsig2].
      intros e (j & Hj & He). exists j. cbn [List.length].
      split; [lia | exact He].
Qed.

(** X20: a batch nobody stops runs through: every item, failed or not,
    is answered by its [batch_completed(k, N)], the engine ends with
    the one summary at 100%, and the count of successes it reports is
    the number of items whose generation raised nothing, between 0 and
    [N]. *)
Theorem batch_without_stop_completes (batch_data : list QRCodeData)
    (st0 : engine) :
  running st0 = true ->
  (forall j, stops j = false) ->
  Forall sliceable batch_data ->
  let total := Z.of_nat (List.length batch_data) in
  exists evs st,
    generate_batch_inner batch_data st0 = Ok st
    /\ running st = true
    /\ emitted st
       = (emitted st0
          ++ ProgressUpdated 0 (MsgStart total) :: evs
          ++ [ProgressUpdated 100 (MsgFinished (successful st) total)])%list
    /\ successful st = count_successes batch_data 0 total
    /\ 0 <= successful st <= total
    /\ (forall k, 1 <= k <= total -> In (BatchCompleted k total) evs)
    /\ Forall (fun e => exists j, 1 <= j <= total
                                  /\ signal_of_item j total e) evs.
Proof.
  intros Hrun Hstops Hs total.
  set (st1 := emit (ProgressUpdated 0 (MsgStart total))
                (mkEngine (running st0) (emitted st0) 0)).
  destruct (batch_loop_runs batch_data 0 total st1)
    as (evs & st & Hloop & Hem & Hr & Hsucc & Hcount & Hall & Hsig); auto.
  cbn [Z.of_nat Z.add] in Hall, Hsig.
  exists evs. eexists.
  unfold generate_batch_inner. fold total. fold st1.
  rewrite Hloop. cbn [bind]. rewrite Hr.
  split; [reflexivity|].
  cbn [emit running emitted successful].
  split; [exact Hr|].
  split.
  { rewrite Hem. unfold st1. cbn [emit emitted].
    rewrite <- !app_assoc. reflexivity. }
  unfold st1 in Hsucc. cbn [emit successful] in Hsucc.
  split; [lia|].
  split; [unfold total; lia|].
  split; [exact Hall | exact Hsig].
Qed.

(** The loop up to an item whose [id] cannot be sliced. *)
Lemma batch_loop_unsliceable (pre : list QRCodeData) :
  forall (post : list QRCodeData) (d : QRCodeData) (e : exn) (i : nat)
         (total : Z) (st : engine),
    running st = true ->
    (forall j, stops j = false) ->
    Forall sliceable pre ->
    slice8 (id d) = Raise e ->
    batch_loop (pre ++ d :: post) i total st = Raise e.
Proof.
  induction pre as [|p pre IH]; intros post d e i total st Hrun Hstops Hs He.
  - cbn [List.app batch_loop]. rewrite Hrun. cbn [negb].
    unfold item_body, try_item. rewrite He.
    destruct (progress_percent i total); cbn [bind]; rewrite ?He;
      reflexivity.
  - inversion Hs as [|? ? Hp Hrest]; subst.
    destruct (item_body_signals i p total st Hp)
      as (evs & st1 & Hbody & _ & Hr & _).
    cbn [List.app batch_loop]. rewrite Hrun. cbn [negb].
    rewrite Hbody. cbn [bind].
    apply IH; auto.
    unfold other_thread. cbn [running]. rewrite Hr, Hrun, Hstops.
    reflexivity.
Qed.

(** X21: an item whose [id] cannot be sliced (an int, say) ends the
    whole batch: the exception raised by [qr_data.id[:8]] is raised
    again inside the handler and leaves [_generate_batch]; the items
    after it are not generated. *)
Theorem batch_aborts_on_unsliceable_id (pre post : list QRCodeData)
    (d : QRCodeData) (e : exn) (st0 : engine) :
  running st0 = true ->
  (forall j, stops j = false) ->
  Forall sliceable pre ->
  slice8 (id d) = Raise e ->
  generate_batch_inner (pre ++ d :: post) st0 = Raise e.
Proof.
  intros Hrun Hstops Hs He. unfold generate_batch_inner.
  rewrite batch_loop_unsliceable with (e := e); auto.
Qed.

(** X22: a batch whose engine was stopped before the first item
    generates nothing: after the start notice come the cancellation
    notice and [batch_completed(0, N)], and no summary. *)
Theorem batch_stopped_before_first_item (d : QRCodeData)
    (rest : list QRCodeData) (st0 : engine) :
  running st0 = false ->
  let total := Z.of_nat (List.length (d :: rest)) in
  exists st,
    generate_batch_inner (d :: rest) st0 = Ok st
    /\ running st = false
    /\ successful st = 0
    /\ emitted st
       = (emitted st0
          ++ [ProgressUpdated 0 (MsgStart total);
              ProgressUpdated 0 MsgCancelled;
              BatchCompleted 0 total])%list.
Proof.
  intros Hrun total.
  exists (emit (BatchCompleted 0 total)
            (emit (ProgressUpdated 0 MsgCancelled)
               (emit (ProgressUpdated 0 (MsgStart total))
                  (mkEngine false (emitted st0) 0)))).
  unfold generate_batch_inner. fold total.
  cbn [batch_loop emit running emitted successful]. rewrite Hrun.
  cbn [negb bind running emit Z.of_nat].
  split; [reflexivity|].
  cbn [running emitted successful emit].
  rewrite <- !app_assoc.
  repeat split; reflexivity.
Qed.

End WithBatchEnv.
End BatchRunFacts.

Module LogoFacts.
Import Models QREngine.

(** X23: the logo [_add_logo] pastes fits the image: its side is at
    most half the shorter side of the image, it lies inside the image,
    and on an image of at least 40 pixels its side is at least 20. *)
Theorem logo_fits_the_image (w h : Z) (scale_ratio : float)
    (logo_size x y : Z) :
  0 <= w -> 0 <= h ->
  logo_placement w h scale_ratio = Some (logo_size, (x, y)) ->
  logo_size <= Z.min w h / 2
  /\ 0 <= x /\ x + logo_size <= w
  /\ 0 <= y /\ y + logo_size <= h
  /\ (40 <= Z.min w h -> 20 <= logo_size)
  /\ w - logo_size - 1 <= 2 * x <= w - logo_size
  /\ h - logo_size - 1 <= 2 * y <= h - logo_size.
Proof.
  intros Hw Hh H. unfold logo_placement in H.
  destruct (raw_logo_size (Z.min w h) scale_ratio) as [raw|e];
    [|discriminate].
  assert (Hsz : guard_logo_size (Z.min w h) raw <= Z.min w h / 2
                /\ (40 <= Z.min w h ->
                    20 <= guard_logo_size (Z.min w h) raw)).
  { unfold guard_logo_size. cbv zeta.
    destruct (Z.ltb_spec raw 20);
      match goal with
      | |- context [if ?a <? ?b then _ else _] => destruct (Z.ltb_spec a b)
      end; Z.div_mod_to_equations; lia. }
  revert H Hsz. generalize (guard_logo_size (Z.min w h) raw). intros sz H.
  destruct (sz <=? 0); [discriminate|].
  unfold logo_position in H. injection H as <- <- <-.
  intros [H1 H2]. repeat split; Z.div_mod_to_equations; lia.
Qed.

(** X24: with the scale NaN, which the constructor lets through,
    [_add_logo] pastes nothing: [int()] of the product raises, the
    handler returns the image as it is. *)
Theorem nan_scale_pastes_no_logo (w h : Z) :
  logo_placement w h nan = None.
Proof.
  unfold logo_placement, raw_logo_size, PyFloat.float_of_int.
  destruct (is_infinity (PyFloat.of_int (Z.min w h))); [reflexivity|].
  cbn [bind]. unfold PyFloat.int_of_float.
  rewrite mul_spec. unfold SF64mul, SFmul.
  change (Prim2SF nan) with S754_nan.
  destruct (Prim2SF (PyFloat.of_int (Z.min w h))); reflexivity.
Qed.

(** X25: whatever the requested format, a batch file is written as
    PNG, JPEG or BMP data; the files named ".svg", ".pdf" and ".gif"
    hold PNG data. *)
Theorem odd_formats_are_written_as_png (output_format : string) :
  match written_as output_format with
  | SaveJPEG => file_extension output_format = ".jpg"
  | SaveBMP => file_extension output_format = ".bmp"
  | SavePNG =>
      In (file_extension output_format) [".png"; ".svg"; ".pdf"; ".gif"]
  end
  /\ (In (file_extension output_format) [".svg"; ".pdf"; ".gif"] ->
      written_as output_format = SavePNG)
  /\ file_extension "SVG" = ".svg" /\ written_as "SVG" = SavePNG.
Proof.
  unfold written_as, file_extension.
  destruct (String.eqb output_format "PNG") eqn:E1.
  { cbn. repeat split; auto. }
  destruct (String.eqb output_format "JPEG") eqn:E2.
  { cbn. repeat split; auto.
    intros [H | [H | [H | []]]]; discriminate H. }
  destruct (String.eqb output_format "JPG") eqn:E3.
  { cbn. repeat split; auto.
    intros [H | [H | [H | []]]]; discriminate H. }
  destruct (String.eqb output_format "BMP") eqn:E4.
  { cbn. repeat split; auto.
    intros [H | [H | [H | []]]]; discriminate H. }
  cbn [orb].
  destruct (String.eqb output_format "SVG");
    [cbn; repeat split; auto|].
  destruct (String.eqb output_format "PDF");
    [cbn; repeat split; auto|].
  destruct (String.eqb output_format "GIF");
    cbn; repeat split; auto.
Qed.

End LogoFacts.

Module ColorFacts.
Import Models QREngine BatchProcessor Example.

Lemma hex_digit_value (c : ascii) :
  is_hex_digit c = true ->
  byte_in c 128 191 = false
  /\ exists d, hex_value c = Some d /\ 0 <= d <= 15.
Proof.
  unfold is_hex_digit, hex_value, byte_in.
  set (n := Z.of_N (N_of_ascii c)).
  intros H.
  destruct (Z.leb_spec 48 n); destruct (Z.leb_spec n 57);
    destruct (Z.leb_spec 65 n); destruct (Z.leb_spec n 70);
    destruct (Z.leb_spec 97 n); destruct (Z.leb_spec n 102);
    cbn in H; try discriminate H;
    destruct (Z.leb_spec 128 n); destruct (Z.leb_spec n 191);
    try lia; cbn [andb];
    (split; [reflexivity|]); eexists; (split; [reflexivity|]); lia.
Qed.

(** The characters of a string of hexadecimal digits are its bytes. *)
Lemma utf8_chars_hex (l : list ascii) :
  forallb is_hex_digit l = true ->
  utf8_chars l = map (fun c => [c]) l.
Proof.
  induction l as [|c l IH]; [reflexivity|].
  cbn [forallb]. intros H. apply andb_prop in H. destruct H as [Hc Hl].
  specialize (IH Hl). cbn [utf8_chars map]. rewrite IH.
  destruct l as [|d l]; [reflexivity|].
  cbn [map]. cbn [forallb] in Hl. apply andb_prop in Hl.
  destruct Hl as [Hd _].
  destruct (hex_digit_value d Hd) as [Hb _]. rewrite Hb. reflexivity.
Qed.

Lemma int16_hex (a b : ascii) :
  is_hex_digit a = true -> is_hex_digit b = true ->
  exists z, int16 (rt := runtime) [[a]; [b]] = Ok z /\ 0 <= z <= 255.
Proof.
  intros Ha Hb.
  destruct (hex_digit_value a Ha) as [_ (x & Hx & Hxr)].
  destruct (hex_digit_value b Hb) as [_ (y & Hy & Hyr)].
  exists (16 * (16 * 0 + x) + y). split; [|lia].
  unfold int16, chars_to_string. cbn [List.concat List.app].
  cbn [string_of_list_ascii int_base16 runtime].
  unfold hex_string. cbn [list_ascii_of_string hex_digits].
  rewrite Hx. cbn [hex_digits]. rewrite Hy. reflexivity.
Qed.

(** X26: a colour [is_valid_color] accepts, without the final newline
    the pattern's [$] tolerates, is one [_parse_color] reads: it
    returns three channels between 0 and 255. *)
Theorem valid_color_parses (s : string) :
  is_valid_color s = true ->
  drop_final_newline (list_ascii_of_string s) = list_ascii_of_string s ->
  exists r g b,
    parse_color (rt := runtime) (VStr s) = Ok (r, g, b)
    /\ 0 <= r <= 255 /\ 0 <= g <= 255 /\ 0 <= b <= 255.
Proof.
  destruct s as [|c rest]; [discriminate|].
  unfold is_valid_color. intros H Hnl.
  assert (Hbody : drop_final_newline (list_ascii_of_string rest)
                  = list_ascii_of_string rest).
  { cbn [list_ascii_of_string] in Hnl.
    destruct (list_ascii_of_string rest) as [|x l] eqn:E; [reflexivity|].
    cbn [drop_final_newline] in Hnl. injection Hnl as Hnl. exact Hnl. }
  rewrite Hbody in H.
  apply andb_prop in H. destruct H as [H Hhex].
  apply andb_prop in H. destruct H as [Hc Hlen].
  apply Ascii.eqb_eq in Hc. subst c.
  unfold parse_color. cbn [list_ascii_of_string].
  assert (Hchars : utf8_chars ("#"%char :: list_ascii_of_string rest)
                   = ["#"%char] :: map (fun c => [c])
                                     (list_ascii_of_string rest)).
  { cbn [utf8_chars]. rewrite (utf8_chars_hex _ Hhex).
    destruct (list_ascii_of_string rest) as [|d l]; [reflexivity|].
    cbn [map]. cbn [forallb] in Hhex. apply andb_prop in Hhex.
    destruct Hhex as [Hd _].
    destruct (hex_digit_value d Hd) as [Hb _]. rewrite Hb. reflexivity. }
  rewrite Hchars.
  change (negb (String.eqb (chars_to_string [["#"%char]]) "#")) with false.
  cbv iota. rewrite length_map.
  destruct (list_ascii_of_string rest) as [|c0 [|c1 [|c2 l]]];
    try discriminate Hlen.
  destruct l as [|c3 [|c4 [|c5 [|c6 l]]]]; try discriminate Hlen;
    cbn [forallb] in Hhex;
    repeat match goal with
           | H : _ && _ = true |- _ =>
               apply andb_prop in H;
               let Ha := fresh "Hd" in
               destruct H as [Ha H]
           end.
  - cbn [List.length Nat.eqb map flat_map List.app].
    destruct (int16_hex c0 c0 Hd Hd) as (r & Hr & Hrr).
    destruct (int16_hex c1 c1 Hd0 Hd0) as (g & Hg & Hgr).
    destruct (int16_hex c2 c2 Hd1 Hd1) as (b & Hb & Hbr).
    exists r, g, b. rewrite Hr. cbn [bind]. rewrite Hg. cbn [bind].
    rewrite Hb. cbn [bind]. auto.
  - cbn [List.length Nat.eqb map].
    destruct (int16_hex c0 c1 Hd Hd0) as (r & Hr & Hrr).
    destruct (int16_hex c2 c3 Hd1 Hd2) as (g & Hg & Hgr).
    destruct (int16_hex c4 c5 Hd3 Hd4) as (b & Hb & Hbr).
    exists r, g, b. rewrite Hr. cbn [bind]. rewrite Hg. cbn [bind].
    rewrite Hb. cbn [bind]. auto.
Qed.

(** X27: every colour code [_get_color_code] hands the constructor is
    one [is_valid_color] accepts, whatever the name and the side. *)
Theorem color_codes_are_valid (color_name : string)
    (is_background : bool) :
  is_valid_color (get_color_code color_name is_background) = true.
Proof.
  unfold get_color_code.
  repeat match goal with
         | |- context [if String.eqb color_name ?s then _ else _] =>
             destruct (String.eqb color_name s);
             [first [reflexivity | destruct is_background; reflexivity]|]
         end.
  reflexivity.
Qed.

End ColorFacts.

Module ThresholdFacts.
Import Scanner FloatFacts.

(** X29: [set_min_confidence] keeps a threshold between 0 and 1 for
    every float it is given; NaN becomes 1.0, since [min(1.0, nan)] is
    1.0. *)
Theorem threshold_is_between_0_and_1 (confidence : float) :
  (0 <=? set_min_confidence confidence)%float = true
  /\ (set_min_confidence confidence <=? 1)%float = true
  /\ is_nan (set_min_confidence confidence) = false
  /\ set_min_confidence nan = 1%float.
Proof.
  unfold set_min_confidence, py_max, PyFloat.min.
  split; [|split; [|split; [|reflexivity]]].
  - destruct (confidence <? 1)%float eqn:E1.
    + destruct (0 <? confidence)%float eqn:E2; [|reflexivity].
      revert E2. float_cmp confidence.
    + reflexivity.
  - destruct (confidence <? 1)%float eqn:E1.
    + destruct (0 <? confidence)%float eqn:E2; [|reflexivity].
      revert E1. float_cmp confidence.
    + reflexivity.
  - destruct (confidence <? 1)%float eqn:E1.
    + destruct (0 <? confidence)%float eqn:E2; [|reflexivity].
      revert E1. float_cmp confidence.
    + reflexivity.
Qed.

End ThresholdFacts.

Module ScanFacts.
Import Scanner.

Lemma scan_object_some (t : float) (obj : Decoded) (res : scan_result) :
  scan_object t obj = Some res ->
  (t <=? res_confidence res)%float = true
  /\ rect obj = Some (res_rect res)
  /\ polygon obj = Some (res_polygon res)
  /\ calculate_confidence obj = Ok (res_confidence res).
Proof.
  unfold scan_object.
  destruct (calculate_confidence obj) as [c|e]; [|discriminate].
  destruct (t <=? c)%float eqn:E; [|discriminate].
  destruct (rect obj) as [r|]; [|discriminate].
  destruct (polygon obj) as [p|]; [|discriminate].
  intros H. injection H as <-. cbn. auto.
Qed.

(** X30: every entry of the result list of [_scan_image] comes from a
    hit that has a box and a polygon and whose confidence, as
    [_calculate_confidence] computes it, is at least the threshold; a
    hit below the threshold, or one whose handling raises, leaves no
    entry; with the threshold NaN the list is empty. *)
Theorem scan_results_meet_the_threshold (min_confidence : float)
    (objs : list Decoded) (res : scan_result) :
  In res (scan_objects min_confidence objs) ->
  (min_confidence <=? res_confidence res)%float = true
  /\ is_nan min_confidence = false
  /\ exists obj,
       In obj objs
       /\ rect obj = Some (res_rect res)
       /\ polygon obj = Some (res_polygon res)
       /\ calculate_confidence obj = Ok (res_confidence res).
Proof.
  induction objs as [|obj rest IH]; cbn [scan_objects]; [intros []|].
  assert (Hnan : forall c, (min_confidence <=? c)%float = true ->
                           is_nan min_confidence = false).
  { intros c. unfold is_nan. rewrite leb_spec, eqb_spec.
    destruct (Prim2SF min_confidence) as [s|s| |s m e];
      destruct (Prim2SF c) as [s'|s'| |s' m' e'];
      try destruct s; try destruct s';
      cbn; try discriminate; try reflexivity;
      intros _; unfold SFeqb, SFcompare;
      rewrite ?Z.compare_refl, ?Pos.compare_cont_refl, ?Pos.compare_refl;
      reflexivity. }
  intros H.
  destruct (scan_object min_confidence obj) as [r|] eqn:E.
  - destruct H as [<- | H].
    + destruct (scan_object_some _ _ _ E) as (H1 & H2 & H3 & H4).
      split; [exact H1|]. split; [exact (Hnan _ H1)|].
      exists obj. cbn. auto.
    + destruct (IH H) as (H1 & H2 & o & Ho & H3).
      split; [exact H1|]. split; [exact H2|].
      exists o. cbn. auto.
  - destruct (IH H) as (H1 & H2 & o & Ho & H3).
    split; [exact H1|]. split; [exact H2|].
    exists o. cbn. auto.
Qed.

End ScanFacts.

Module ConnectionFacts.
Import Models Sqlite Database.

Section WithEngine.
Context {rt : PyRuntime} {eng : Engine}.

Ltac run_any :=
  cbv [call save_qrcode load_qrcode delete_qrcode get_all_qrcodes
       get_qrcodes_by_tag search_qrcodes get_statistics
       try_steps bindM try_finally try_exceptM
       close_if_conn get_conn close set_conn ret lift sqlite3_connect
       conn_truthy store txn conn calls fst snd].

(** X28: whenever the connection cannot be opened, on every file and
    for every argument, the methods that first assign [conn] inside
    their [try] raise UnboundLocalError from their [finally], while
    [save_qrcode] and [load_qrcode] return [False] and [None]; none of
    them changes the file. *)
Theorem connection_failure_always_escapes (db : tables) :
  faults 0 = true ->
  (forall qid, call (delete_qrcode qid) db = (Raise UnboundLocalError, db))
  /\ call get_all_qrcodes db = (Raise UnboundLocalError, db)
  /\ (forall keyword qr_type tags limit offset,
        call (search_qrcodes keyword qr_type tags limit offset) db
        = (Raise UnboundLocalError, db))
  /\ (forall tag,
        call (get_qrcodes_by_tag tag) db = (Raise UnboundLocalError, db))
  /\ call get_statistics db = (Raise UnboundLocalError, db)
  /\ (forall r, call (save_qrcode r) db = (Ok false, db))
  /\ (forall qid, call (load_qrcode qid) db = (Ok None, db)).
Proof.
  intros H.
  repeat split; intros; run_any; rewrite H; run_any; reflexivity.
Qed.

End WithEngine.
End ConnectionFacts.

Module ExtraChecks.
Import Models Sqlite Database QREngine Scanner Example.

(** X1, witness: a logo and the scale 0.8. *)
Lemma constructor_scale_within_bounds_witness :
  exists r, QRCodeData_new logo_args = Ok r
            /\ logo_scale r = VFloat 0.5
            /\ scale_in_bounds (logo_scale r).
Proof.
  assert (H : QRCodeData_new logo_args
              = Ok (set_logo_scale logo_args (VFloat 0.5)))
    by (vm_compute; reflexivity).
  eexists. split; [exact H|]. split; [reflexivity|].
  refine (proj1 (ConstructorFacts.constructor_scale_within_bounds
                   logo_args _ H _)).
  intros f Hf. injection Hf as <-. reflexivity.
Defined.

(** X2, witness: the record with the scale NaN. *)
Lemma constructed_record_passes_scale_check_witness :
  out_of_range (logo_scale nan_logo_args) (PyFloat.NFloat 0.05)
    (PyFloat.NFloat 0.5) = Ok false.
Proof.
  assert (H : QRCodeData_new nan_logo_args = Ok nan_logo_args)
    by (vm_compute; reflexivity).
  exact (proj1 (ConstructorFacts.constructed_record_passes_scale_check
                  nan_logo_args nan_logo_args H)).
Defined.

(** X3, witness: a record of the examples. *)
Lemma from_dict_to_dict_witness :
  from_dict (to_dict (record "0000000a" "test-A" "" "2026-01-10T12:00:01"))
  = Ok (record "0000000a" "test-A" "" "2026-01-10T12:00:01").
Proof.
  apply ConstructorFacts.from_dict_to_dict.
  - exists (record "0000000a" "test-A" "" "2026-01-10T12:00:01").
    vm_compute. reflexivity.
  - intros s. cbn. discriminate.
  - intros o. cbn. discriminate.
Defined.

(** X5, witness: a dictionary that names the type by its value. *)
Lemma from_dict_qr_type_entry_witness :
  exists r, from_dict dict_wifi = Ok r
            /\ QRCodeType_value (qr_type r) = "WiFi".
Proof.
  destruct (from_dict dict_wifi) as [r|e] eqn:E;
    [|vm_compute in E; discriminate E].
  exists r. split; [reflexivity|].
  exact (ConstructorFacts.from_dict_qr_type_entry dict_wifi r E).
Defined.

(** X6, witness: the percentage 20.0 with a logo. *)
Lemma from_dict_float_logo_scale_witness :
  exists r, from_dict dict_percent_20 = Ok r
            /\ logo_scale r = VFloat 0.2.
Proof.
  destruct (from_dict dict_percent_20) as [r|e] eqn:E;
    [|vm_compute in E; discriminate E].
  exists r. split; [reflexivity|].
  rewrite (ConstructorFacts.from_dict_float_logo_scale dict_percent_20 20
             r eq_refl E).
  vm_compute. reflexivity.
Defined.

(** X7, witness: a record of the examples. *)
Lemma validate_well_typed_no_exception_witness :
  exists v,
    validate (record "0000000a" "test-A" "" "2026-01-10T12:00:01") = Ok v.
Proof.
  exact (ConstructorFacts.validate_well_typed_no_exception _
           ClaimChecks.example_record_well_typed).
Defined.

(** X11, witness: the count of the templates fails. *)
Lemma statistics_up_to_first_failure_witness :
  call (get_statistics (eng := engine_failing_at 3)) three_records
  = (Ok (mkStats (Some 3) (Some []) None None None), three_records).
Proof.
  refine (QueryFacts.statistics_up_to_first_failure
            (eng := engine_failing_at 3) three_records 3 _ _ _).
  - lia.
  - intros [|[|[|n]]] Hn; [reflexivity | reflexivity | reflexivity | lia].
  - intros _. reflexivity.
Defined.

(** X12, witness: a file with the first schema. *)
Lemma init_database_builds_the_schema_witness :
  exists db',
    call (init_database (eng := engine_ok)) first_schema_db = (Ok tt, db')
    /\ full_schema db'.
Proof.
  destruct (SchemaFacts.init_database_builds_the_schema
              (eng := engine_ok) (fun _ => eq_refl) first_schema_db
              (or_intror (or_introl eq_refl)))
    as (db' & H1 & H2 & _).
  exists db'. split; assumption.
Defined.

Lemma first_schema_db_ok : first_schema first_schema_db.
Proof. split; [reflexivity | repeat constructor]. Qed.

(** X13, witness: the row of the first schema, before and after. *)
Lemma migration_keeps_every_record_witness :
  fst (call (load_qrcode (eng := engine_ok) (VStr "00000013"))
         (migrated first_schema_db))
  = fst (call (load_qrcode (eng := engine_ok) (VStr "00000013"))
           first_schema_db).
Proof.
  exact (SchemaFacts.migration_keeps_every_record (eng := engine_ok)
           (fun _ => eq_refl) first_schema_db (VStr "00000013")
           first_schema_db_ok).
Defined.

(** X14, witness: the record saved with the int id 7 is kept under
    the text "7"; deleting the id 7 removes it and leaves the file
    without rows. *)
Lemma delete_then_load_finds_nothing_witness :
  map row_id (qrcodes (saved item_int_id fresh_db)) = [VStr "7"]
  /\ call (delete_qrcode (eng := engine_ok) (VInt 7))
       (saved item_int_id fresh_db)
     = (Ok true, fresh_db)
  /\ call (load_qrcode (eng := engine_ok) (VInt 7)) fresh_db
     = (Ok None, fresh_db).
Proof.
  destruct (SchemaFacts.delete_then_load_finds_nothing (eng := engine_ok)
              (fun _ => eq_refl) (saved item_int_id fresh_db)
              (VInt 7) (VInt 7) eq_refl)
    as (H1 & H2 & _).
  split; [vm_compute; reflexivity|].
  split; [exact H1 | exact H2].
Defined.



(** X17, witness: a row of three columns. *)
Lemma short_row_decodes_to_none_witness :
  row_to_qrcode_data [VStr "test123"; VStr "数据"; VStr "TEXT"] = Ok None.
Proof.
  apply RowFacts.short_row_decodes_to_none. cbn. lia.
Defined.

(** X18, witness: the tags cell "a,b". *)
Lemma undecodable_tags_load_as_empty_witness :
  exists d, row_to_qrcode_data row_bad_tags = Ok (Some d)
            /\ tags d = VList [].
Proof.
  exact (RowFacts.undecodable_tags_load_as_empty row_bad_tags "a,b"
           ltac:(cbn; lia) eq_refl eq_refl
           (or_intror (ex_intro _ 0.4%float eq_refl))).
Defined.

(** X19, witness: the same row, whose scale is 0.4. *)
Lemma loaded_scale_within_bounds_witness :
  exists d, row_to_qrcode_data row_bad_tags = Ok (Some d)
            /\ scale_in_bounds (logo_scale d).
Proof.
  destruct (row_to_qrcode_data row_bad_tags) as [[d|]|e] eqn:E;
    try (vm_compute in E; discriminate E).
  exists d. split; [reflexivity|].
  refine (RowFacts.loaded_scale_within_bounds row_bad_tags d E _).
  right. exists 0.4%float. repeat split.
Defined.

(** X20, witness: five items, the second of which fails. *)
Lemma batch_without_stop_completes_witness :
  exists evs st,
    generate_batch_inner (env := never_stopped) five_items started = Ok st
    /\ running st = true
    /\ In (BatchCompleted 5 5) evs
    /\ successful st = 4.
Proof.
  assert (Hs : Forall sliceable five_items)
    by (repeat constructor; eexists; reflexivity).
  destruct (BatchRunFacts.batch_without_stop_completes
              (env := never_stopped) five_items started eq_refl
              (fun _ => eq_refl) Hs)
    as (evs & st & H1 & H2 & _ & H3 & _ & H4 & _).
  exists evs, st. split; [exact H1|]. split; [exact H2|].
  split; [apply H4; cbn; lia|].
  rewrite H3. vm_compute. reflexivity.
Defined.

(** X21, witness: the second of three items has the int 7 for id. *)
Lemma batch_aborts_on_unsliceable_id_witness :
  generate_batch_inner (env := never_stopped)
    ([record "00000001" "item-1" "" "2026-01-10T12:00:01"]
     ++ item_int_id
     :: [record "00000003" "item-3" "" "2026-01-10T12:00:03"])%list
    started
  = Raise TypeError.
Proof.
  apply BatchRunFacts.batch_aborts_on_unsliceable_id.
  - reflexivity.
  - intros j. reflexivity.
  - repeat constructor. eexists. reflexivity.
  - reflexivity.
Defined.

(** X22, witness: five items and an engine already stopped. *)
Lemma batch_stopped_before_first_item_witness :
  exists st,
    generate_batch_inner (env := never_stopped) five_items
      (mkEngine false [] 0) = Ok st
    /\ emitted st = [ProgressUpdated 0 (MsgStart 5);
                     ProgressUpdated 0 MsgCancelled;
                     BatchCompleted 0 5].
Proof.
  destruct (BatchRunFacts.batch_stopped_before_first_item
              (env := never_stopped)
              (record "00000001" "item-1" "" "2026-01-10T12:00:01")
              (tl five_items) (mkEngine false [] 0) eq_refl)
    as (st & H1 & _ & _ & H2).
  exists st. split; [exact H1 | exact H2].
Defined.

(** X23, witness: the scale 0.2 on an image of 300 by 300 pixels. *)
Lemma logo_fits_the_image_witness :
  logo_placement 300 300 0.2 = Some (60, (120, 120))
  /\ 60 <= Z.min 300 300 / 2.
Proof.
  assert (H : logo_placement 300 300 0.2 = Some (60, (120, 120)))
    by (vm_compute; reflexivity).
  split; [exact H|].
  exact (proj1 (LogoFacts.logo_fits_the_image 300 300 0.2 60 120 120
                  ltac:(lia) ltac:(lia) H)).
Defined.

(** X26, witness: a three-digit colour. *)
Lemma valid_color_parses_witness :
  exists r g b,
    parse_color (rt := runtime) (VStr "#1aF") = Ok (r, g, b)
    /\ 0 <= r <= 255 /\ 0 <= g <= 255 /\ 0 <= b <= 255.
Proof.
  exact (ColorFacts.valid_color_parses "#1aF" eq_refl eq_refl).
Defined.

(** X28, witness: the engine whose connection fails, on the three
    records. *)
Lemma connection_failure_always_escapes_witness :
  call (get_all_qrcodes (eng := engine_no_connection)) three_records
  = (Raise UnboundLocalError, three_records)
  /\ call (load_qrcode (eng := engine_no_connection) (VStr "0000000a"))
       three_records = (Ok None, three_records).
Proof.
  destruct (ConnectionFacts.connection_failure_always_escapes
              (eng := engine_no_connection) three_records eq_refl)
    as (_ & H1 & _ & _ & _ & _ & H2).
  split; [exact H1 | exact (H2 (VStr "0000000a"))].
Defined.

(** X30, witness: one hit of 100 by 100 pixels, threshold 0.5. *)
Lemma scan_results_meet_the_threshold_witness :
  scan_objects 0.5 [square_hit]
  = [mkScanResult (mkRect 0 0 100 100)
       [(0, 0); (100, 0); (100, 100); (0, 100)] 1]
  /\ (0.5 <=? 1)%float = true
  /\ calculate_confidence square_hit = Ok 1%float.
Proof.
  assert (H : scan_objects 0.5 [square_hit]
              = [mkScanResult (mkRect 0 0 100 100)
                   [(0, 0); (100, 0); (100, 100); (0, 100)] 1])
    by (vm_compute; reflexivity).
  split; [exact H|].
  destruct (ScanFacts.scan_results_meet_the_threshold 0.5 [square_hit]
              (mkScanResult (mkRect 0 0 100 100)
                 [(0, 0); (100, 0); (100, 100); (0, 100)] 1)
              ltac:(rewrite H; left; reflexivity))
    as (H1 & _ & obj & [<- | []] & _ & _ & H4).
  split; [exact H1 | exact H4].
Defined.

End ExtraChecks.
